(** * The test platform back end (server.js)

    A shallow embedding of the Express request handlers of [server.js]
    and the properties of the submission and scoring pipeline, the test
    catalogue and the verification channel.

    Conventions of the embedding.
    - A JavaScript value that travels through JSON is a [json]; a
      JavaScript value that may also be [undefined] is a [value]
      ([option json], [None] being [undefined]).
    - A JavaScript number is an IEEE 754 binary64 float, [spec_float] of
      the standard library with precision 53 and maximal exponent 1024.
    - A JavaScript object read from JSON is a finite map from property
      names to [json] values; the body of a request is such a map
      (a body that is an array has none of the names the handlers
      read). Numbers read from JSON are valid binary64 floats.
    - A string holds the UTF-8 encoding of the JavaScript string (a
      lone surrogate encoded like any other code unit); [chars] gives
      its UTF-16 code units.
    - What a handler writes to a data file or sends as a reply passes
      through [JSON.stringify]: [persist] is the value read back, with
      [null] for a number that is not finite. The stored documents are
      kept as they are read back; the numbers that a handler computes
      itself ([percentage], [timeLimit], [attempts]) are kept as
      numbers, [stringify_number] telling how they are written.
    - The five data files are the fields of [Store]; [readJsonFile] of a
      missing or corrupt file yields the empty array, so a file is
      represented by the array that [readJsonFile] returns for it, and
      [writeJsonFile] replaces that array. A write that fails is logged
      by [writeJsonFile] and ignored by the handlers; writes are taken
      to succeed.
    - Every handler is a function from the store (and the inputs it
      takes from its environment: the clock, the verified bearer token,
      the request) to the new store and the reply. One clock reading is
      taken per request; time stamps are milliseconds since the epoch. *)

From Stdlib Require Import ZArith List String Ascii Bool Lia.
From Stdlib Require Import Floats.SpecFloat.
From stdpp Require Import gmap strings list pretty.

Set Warnings "-register-all".

(** ** JavaScript values *)

Module JS.

Definition prec : Z := 53.
Definition emax : Z := 1024.

Definition number := spec_float.

Definition NaN : number := S754_nan.

(** The number denoted by an integer literal or held by an integer
    counter. *)
Definition of_Z (z : Z) : number := binary_normalize prec emax z 0 false.
Definition of_nat (n : nat) : number := of_Z (Z.of_nat n).

(** [x / y] and [x * y] on numbers. *)
Definition div (x y : number) : number := SFdiv prec emax x y.
Definition mul (x y : number) : number := SFmul prec emax x y.

(** [Math.round(x)]: the integral number closest to [x], the one
    closer to +infinity when two are equally close; NaN, the infinities
    and the zeros are returned as they are, and a zero result keeps the
    sign of [x]. A finite [x] is [(-1)^s * m * 2^e]; with [e >= 0] it is
    integral already, otherwise the result is [floor (x + 1/2)]. *)
Definition Math_round (x : number) : number :=
  match x with
  | S754_finite s m (Zneg k) =>
      let n := cond_Zopp s (Zpos m) in
      binary_normalize prec emax
        ((2 * n + 2 ^ Zpos k) / 2 ^ (Zpos k + 1)) 0 s
  | _ => x
  end.

Inductive json :=
| JNull
| JBool (b : bool)
| JNum (x : number)
| JStr (s : string)
| JArr (l : list json)
| JObj (o : gmap string json).

(** A value: [None] is [undefined]. *)
Definition value := option json.

(** ToBoolean: [undefined], [null], [false], [0], [-0], [NaN] and the
    empty string are falsy, everything else is truthy. *)
Definition truthy (v : value) : bool :=
  match v with
  | None => false
  | Some JNull => false
  | Some (JBool b) => b
  | Some (JNum (S754_zero _)) => false
  | Some (JNum S754_nan) => false
  | Some (JNum _) => true
  | Some (JStr s) => negb (String.eqb s "")
  | Some (JArr _) => true
  | Some (JObj _) => true
  end.

(** [a === b]. Numbers compare by value (NaN differs from itself, the
    two zeros are equal), strings and booleans by value, objects and
    arrays by identity: the two sides always come from separately
    parsed documents (the request body, a data file), so two objects
    or arrays are never the same one. *)
Definition strict_eq (a b : value) : bool :=
  match a, b with
  | None, None => true
  | Some JNull, Some JNull => true
  | Some (JBool x), Some (JBool y) => Bool.eqb x y
  | Some (JNum x), Some (JNum y) => SFeqb x y
  | Some (JStr x), Some (JStr y) => String.eqb x y
  | _, _ => false
  end.

(** [a || b]. *)
Definition or_else (a b : value) : value := if truthy a then a else b.

(** The UTF-16 code units of a string given by the bytes of its
    UTF-8 encoding; a character outside the basic plane gives the two
    units of its surrogate pair. Bytes that end before a sequence is
    complete, which no encoding has, are given as they are. *)
Fixpoint code_units (bs : list N) : list N :=
  match bs with
  | [] => []
  | b0 :: r0 =>
      if (b0 <? 128)%N then b0 :: code_units r0 else
      match r0 with
      | [] => [b0]
      | b1 :: r1 =>
          if (b0 <? 224)%N
          then ((b0 mod 32) * 64 + b1 mod 64)%N :: code_units r1 else
          match r1 with
          | [] => [b0; b1]
          | b2 :: r2 =>
              if (b0 <? 240)%N
              then ((b0 mod 16) * 4096 + (b1 mod 64) * 64 + b2 mod 64)%N
                   :: code_units r2 else
              match r2 with
              | [] => [b0; b1; b2]
              | b3 :: r3 =>
                  let cp := ((b0 mod 8) * 262144 + (b1 mod 64) * 4096
                             + (b2 mod 64) * 64 + b3 mod 64 - 65536)%N in
                  (55296 + cp / 1024)%N :: (56320 + cp mod 1024)%N
                  :: code_units r3
              end
          end
      end
  end.

(** The string of one code unit. *)
Definition unit_string (u : N) : string :=
  if (u <? 128)%N then String (ascii_of_N u) EmptyString
  else if (u <? 2048)%N
       then String (ascii_of_N (192 + u / 64))
              (String (ascii_of_N (128 + u mod 64)) EmptyString)
       else String (ascii_of_N (224 + u / 4096))
              (String (ascii_of_N (128 + (u / 64) mod 64))
                 (String (ascii_of_N (128 + u mod 64)) EmptyString)).

(** The characters of a string as [s[0]], [s[1]], ... give them: its
    code units, each as a one-unit string. *)
Definition chars (s : string) : list json :=
  List.map (fun u => JStr (unit_string u))
    (code_units (List.map N_of_ascii (list_ascii_of_string s))).

(** The index-named properties of an array or of a string. *)
Definition indexed (l : list json) : gmap string json :=
  list_to_map (imap (fun i x => (pretty i, x)) l).

(** [v[index]] for a number [index]. A number or a boolean has no such
    property. Reading a property of [null] or [undefined] throws; the
    callers below have tested [v] for truthiness before. *)
Definition at_index (v : value) (index : nat) : value :=
  match v with
  | Some (JArr l) => l !! index
  | Some (JStr s) => chars s !! index
  | Some (JObj o) => o !! pretty index
  | _ => None
  end.

(** [v.length]. *)
Definition length_of (v : value) : value :=
  match v with
  | Some (JArr l) => Some (JNum (of_nat (List.length l)))
  | Some (JStr s) => Some (JNum (of_nat (List.length (chars s))))
  | Some (JObj o) => o !! "length"
  | _ => None
  end.

(** The own enumerable properties copied by a spread [...q] inside an
    object literal. *)
Definition own_props (q : json) : gmap string json :=
  match q with
  | JObj o => o
  | JArr l => indexed l
  | JStr s => indexed (chars s)
  | _ => ∅
  end.

(** An object literal as it is serialised by [JSON.stringify]: a
    property whose value is [undefined] is left out. Later properties
    of the literal win over earlier ones of the same name. *)
Definition literal (props : list (string * value)) : gmap string json :=
  fold_left
    (fun o kv => match kv.2 with Some j => <[kv.1 := j]> o | None => delete kv.1 o end)
    props ∅.

(** A number as [JSON.stringify] writes it: NaN and the infinities
    become [null]. *)
Definition stringify_number (x : number) : json :=
  match x with
  | S754_nan | S754_infinity _ => JNull
  | _ => JNum x
  end.

(** A value as it is read back after [JSON.stringify] has written
    it: a number that is not finite has become [null], and the negative
    zero the positive one. *)
Fixpoint persist (j : json) : json :=
  match j with
  | JNum S754_nan | JNum (S754_infinity _) => JNull
  | JNum (S754_zero _) => JNum (S754_zero false)
  | JArr l => JArr (List.map persist l)
  | JObj o => JObj (persist <$> o)
  | _ => j
  end.

(** A property whose value is [undefined] is not written. *)
Definition persist_value (v : value) : value := persist <$> v.

(** [arr.findIndex(f)], [None] standing for -1. *)
Fixpoint findIndex {A} (f : A -> bool) (arr : list A) : option nat :=
  match arr with
  | [] => None
  | x :: rest => if f x then Some 0 else option_map S (findIndex f rest)
  end.

End JS.

Import JS.

Abbreviation obj := (gmap string json).
Abbreviation undefined := (@None json).

(** ** The documents of the five collections *)

(** users.json *)
Record User := {
  user_id : string;
  user_firstName : value;
  user_lastName : value;
  user_direction : value;
  user_directionName : value;
  user_phone : value;
  user_telegram : value;
  user_login : value;
  user_password : string;
  user_isAdmin : bool;
  user_createdAt : Z
}.

(** directions.json *)
Record Direction := {
  dir_id : string;
  dir_name : value
}.

(** tests.json; a question is an object with the properties [id],
    [question], [options] and [correct]. *)
Record TestDoc := {
  test_id : string;
  test_title : value;
  test_direction : value;
  test_directionName : value;
  test_timeLimit : number;
  test_attempts : number;
  test_questions : list obj;
  test_createdAt : Z;
  test_updatedAt : option Z
}.

Record QuestionResult := {
  qr_questionId : value;
  qr_userAnswer : value;
  qr_correctAnswer : value;
  qr_isCorrect : bool
}.

(** results.json *)
Record Result := {
  res_id : string;
  res_userId : string;
  res_testId : value;
  res_score : nat;
  res_totalQuestions : nat;
  res_percentage : number;
  res_timeSpent : value;
  res_questionResults : list QuestionResult;
  res_createdAt : Z
}.

(** verification.json *)
Record Verification := {
  ver_telegram : value;
  ver_code : string;
  ver_createdAt : Z;
  ver_expiresAt : Z
}.

Record Store := {
  users : list User;
  directions : list Direction;
  tests : list TestDoc;
  results : list Result;
  verifications : list Verification
}.

Definition set_users (st : Store) (us : list User) : Store :=
  {| users := us; directions := directions st; tests := tests st;
     results := results st; verifications := verifications st |}.

Definition set_directions (st : Store) (ds : list Direction) : Store :=
  {| users := users st; directions := ds; tests := tests st;
     results := results st; verifications := verifications st |}.

Definition set_tests (st : Store) (ts : list TestDoc) : Store :=
  {| users := users st; directions := directions st; tests := ts;
     results := results st; verifications := verifications st |}.

Definition set_results (st : Store) (rs : list Result) : Store :=
  {| users := users st; directions := directions st; tests := tests st;
     results := rs; verifications := verifications st |}.

Definition set_verifications (st : Store) (vs : list Verification) : Store :=
  {| users := users st; directions := directions st; tests := tests st;
     results := results st; verifications := vs |}.

(** ** Replies and access control *)

(** [Ok a] is [res.json(a)] (status 200); [Err status message] is
    [res.status(status).json({ success: false, message })]. *)
Inductive reply (A : Type) :=
| Ok (a : A)
| Err (status : nat) (message : string).

Arguments Ok {A} a.
Arguments Err {A} status message.

(** The payload signed into a token by the login handler. *)
Record Claims := {
  userId : string;
  isAdmin : bool
}.

(** The outcome of reading the authorization header and of
    [jwt.verify]. *)
Inductive Bearer :=
| NoToken
| InvalidToken
| ValidToken (user : Claims).

Definition authenticateToken {A} (auth : Bearer) (st : Store)
    (next : Claims -> Store * reply A) : Store * reply A :=
  match auth with
  | NoToken => (st, Err 401 "Token kerak")
  | InvalidToken => (st, Err 403 "Noto'g'ri token")
  | ValidToken user => next user
  end.

Definition requireAdmin {A} (user : Claims) (st : Store)
    (next : Store * reply A) : Store * reply A :=
  if negb (isAdmin user) then (st, Err 403 "Admin huquqi kerak") else next.

(** ** The handlers *)

(** GET /api/directions *)
Definition get_directions (st : Store) : Store * reply (list Direction) :=
  (st, Ok (directions st)).

Record VerificationSent := {
  sent_message : string;
  sent_devCode : value
}.

(** POST /api/send-verification. [rnd] is
    [Math.floor(100000 + Math.random() * 900000)]; [codeSent] tells
    whether the bot is configured, knows a chat for [telegram] and has
    delivered the message. *)
Definition send_verification (now rnd : Z) (codeSent : bool) (body : obj)
    (st : Store) : Store * reply VerificationSent :=
  let telegram := body !! "telegram" in
  if negb (truthy telegram) then (st, Err 400 "Telegram username kerak") else
  let code := pretty rnd in
  let filteredVerifications :=
    List.filter (fun v => negb (strict_eq (ver_telegram v) telegram))
      (verifications st) in
  let newVerification :=
    {| ver_telegram := persist_value telegram; ver_code := code;
       ver_createdAt := now; ver_expiresAt := (now + 5 * 60 * 1000)%Z |} in
  (set_verifications st (filteredVerifications ++ [newVerification]),
   Ok {| sent_message :=
           if codeSent then "Kod Telegram orqali yuborildi"
           else "Kod yaratildi (Telegram bot ishlamayotgani uchun konsolda ko'rsatildi)";
         sent_devCode := if negb codeSent then Some (JStr code) else undefined |}).

Definition msg_invalid_or_expired : string := "Noto'g'ri kod yoki kod eskirgan".

(** POST /api/verify-code *)
Definition verify_code (now : Z) (body : obj) (st : Store)
    : Store * reply string :=
  let telegram := body !! "telegram" in
  let code := body !! "code" in
  if negb (truthy telegram) || negb (truthy code)
  then (st, Err 400 "Telegram username va kod kerak") else
  let verification :=
    List.find
      (fun v => strict_eq (ver_telegram v) telegram
                && strict_eq (Some (JStr (ver_code v))) code
                && (now <? ver_expiresAt v)%Z)
      (verifications st) in
  match verification with
  | None => (st, Err 400 msg_invalid_or_expired)
  | Some _ =>
      let updatedVerifications :=
        List.filter
          (fun v => negb (strict_eq (ver_telegram v) telegram
                          && strict_eq (Some (JStr (ver_code v))) code))
          (verifications st) in
      (set_verifications st updatedVerifications, Ok "Kod tasdiqlandi")
  end.

Definition msg_all_fields : string := "Barcha maydonlar to'ldirilishi kerak".
Definition msg_bad_direction : string := "Noto'g'ri yo'nalish".

(** [directions.find(d => d.id === direction)] *)
Definition find_direction (direction : value) (ds : list Direction)
    : option Direction :=
  List.find (fun d => strict_eq (Some (JStr (dir_id d))) direction) ds.

(** POST /api/register. [hashed] is the outcome of
    [bcrypt.hash(password, 10)], [None] when it throws. *)
Definition register (now : Z) (hashed : option string) (body : obj)
    (st : Store) : Store * reply string :=
  let firstName := body !! "firstName" in
  let lastName := body !! "lastName" in
  let direction := body !! "direction" in
  let phone := body !! "phone" in
  let telegram := body !! "telegram" in
  let login := body !! "login" in
  let password := body !! "password" in
  if negb (truthy firstName) || negb (truthy lastName)
     || negb (truthy direction) || negb (truthy phone)
     || negb (truthy telegram) || negb (truthy login)
     || negb (truthy password)
  then (st, Err 400 msg_all_fields) else
  if List.existsb (fun u => strict_eq (user_login u) login) (users st)
  then (st, Err 400 "Bu login band") else
  if List.existsb (fun u => strict_eq (user_telegram u) telegram) (users st)
  then (st, Err 400 "Bu telegram username band") else
  match find_direction direction (directions st) with
  | None => (st, Err 400 msg_bad_direction)
  | Some selectedDirection =>
      match hashed with
      | None => (st, Err 500 "Ro'yxatdan o'tishda xatolik yuz berdi")
      | Some pw =>
          let newUser :=
            {| user_id := pretty now;
               user_firstName := persist_value firstName;
               user_lastName := persist_value lastName;
               user_direction := persist_value direction;
               user_directionName := dir_name selectedDirection;
               user_phone := persist_value phone;
               user_telegram := persist_value telegram;
               user_login := persist_value login;
               user_password := pw;
               user_isAdmin := false;
               user_createdAt := now |} in
          (set_users st (users st ++ [newUser]),
           Ok "Ro'yxatdan o'tish muvaffaqiyatli")
      end
  end.

Definition msg_user_not_found : string := "Foydalanuvchi topilmadi".
Definition msg_test_not_found : string := "Test topilmadi".

Record TestWithStatus := {
  tws_test : TestDoc;
  tws_completed : bool
}.

(** GET /api/tests *)
Definition get_tests (auth : Bearer) (st : Store)
    : Store * reply (list TestWithStatus) :=
  authenticateToken auth st (fun requester =>
    match List.find (fun u => String.eqb (user_id u) (userId requester))
            (users st) with
    | None => (st, Err 404 msg_user_not_found)
    | Some user =>
        let userTests :=
          if negb (user_isAdmin user)
          then List.filter
                 (fun t => strict_eq (test_direction t) (user_direction user))
                 (tests st)
          else tests st in
        let userResults :=
          List.filter (fun r => String.eqb (res_userId r) (user_id user))
            (results st) in
        let testsWithStatus :=
          List.map
            (fun test =>
               {| tws_test := test;
                  tws_completed :=
                    List.existsb
                      (fun r => strict_eq (res_testId r)
                                  (Some (JStr (test_id test))))
                      userResults |})
            userTests in
        (st, Ok testsWithStatus)
    end).

(** The question as it is sent to the learner:
    [{ id: q.id, question: q.question, options: q.options }]. *)
Definition strip_question (q : obj) : obj :=
  literal [("id", q !! "id"); ("question", q !! "question");
           ("options", q !! "options")].

Definition with_questions (test : TestDoc) (qs : list obj) : TestDoc :=
  {| test_id := test_id test;
     test_title := test_title test;
     test_direction := test_direction test;
     test_directionName := test_directionName test;
     test_timeLimit := test_timeLimit test;
     test_attempts := test_attempts test;
     test_questions := qs;
     test_createdAt := test_createdAt test;
     test_updatedAt := test_updatedAt test |}.

(** GET /api/tests/:id *)
Definition get_test (auth : Bearer) (testId : string) (st : Store)
    : Store * reply TestDoc :=
  authenticateToken auth st (fun _ =>
    match List.find (fun t => String.eqb (test_id t) testId) (tests st) with
    | None => (st, Err 404 msg_test_not_found)
    | Some test =>
        let testWithoutAnswers :=
          with_questions test (List.map strip_question (test_questions test)) in
        (st, Ok testWithoutAnswers)
    end).

Definition msg_already_submitted : string := "Bu testni allaqachon topshirgansiz".
Definition msg_test_and_answers : string := "Test ID va javoblar kerak".

(** The grading loop of the submit handler:
    [test.questions.map((question, index) => ...)] with the counter
    [score] that the callback increments. [index] and [score] are the
    values on entry; the result is the final [score] and the array that
    [map] returns. *)
Fixpoint grade (answers : value) (questions : list obj) (index score : nat)
    : nat * list QuestionResult :=
  match questions with
  | [] => (score, [])
  | question :: rest =>
      let userAnswer := at_index answers index in
      let isCorrect := strict_eq userAnswer (question !! "correct") in
      let score := if isCorrect then S score else score in
      let questionResult :=
        {| qr_questionId := question !! "id";
           qr_userAnswer := userAnswer;
           qr_correctAnswer := question !! "correct";
           qr_isCorrect := isCorrect |} in
      let '(score, questionResults) := grade answers rest (S index) score in
      (score, questionResult :: questionResults)
  end.

(** [Math.round((score / test.questions.length) * 100)] *)
Definition percentage_of (score total : nat) : number :=
  Math_round (mul (div (of_nat score) (of_nat total)) (of_Z 100)).

Record ScoreSummary := {
  sum_score : nat;
  sum_totalQuestions : nat;
  sum_percentage : number
}.

(** An outcome of the grading loop as it is written. *)
Definition persist_outcome (qr : QuestionResult) : QuestionResult :=
  {| qr_questionId := persist_value (qr_questionId qr);
     qr_userAnswer := persist_value (qr_userAnswer qr);
     qr_correctAnswer := persist_value (qr_correctAnswer qr);
     qr_isCorrect := qr_isCorrect qr |}.

(** The document appended to results.json, from the outcome of the
    grading loop. *)
Definition newResult (now : Z) (user : Claims) (testId timeSpent : value)
    (test : TestDoc) (graded : nat * list QuestionResult) : Result :=
  {| res_id := pretty now;
     res_userId := userId user;
     res_testId := persist_value testId;
     res_score := graded.1;
     res_totalQuestions := List.length (test_questions test);
     res_percentage :=
       percentage_of graded.1 (List.length (test_questions test));
     res_timeSpent := persist_value (or_else timeSpent (Some (JNum (of_Z 0))));
     res_questionResults := List.map persist_outcome graded.2;
     res_createdAt := now |}.

(** The body of the successful reply. *)
Definition summary (test : TestDoc) (graded : nat * list QuestionResult)
    : ScoreSummary :=
  {| sum_score := graded.1;
     sum_totalQuestions := List.length (test_questions test);
     sum_percentage :=
       percentage_of graded.1 (List.length (test_questions test)) |}.

(** [results.find(r => r.userId === req.user.userId && r.testId === testId)] *)
Definition existingResult (user : Claims) (testId : value) (rs : list Result)
    : option Result :=
  List.find
    (fun r => String.eqb (res_userId r) (userId user)
              && strict_eq (res_testId r) testId)
    rs.

(** [tests.find(t => t.id === testId)] for a [testId] of the request
    body. *)
Definition find_test (testId : value) (ts : list TestDoc) : option TestDoc :=
  List.find (fun t => strict_eq (Some (JStr (test_id t))) testId) ts.

(** POST /api/submit-test *)
Definition submit_test (now : Z) (auth : Bearer) (body : obj) (st : Store)
    : Store * reply ScoreSummary :=
  authenticateToken auth st (fun user =>
    let testId := body !! "testId" in
    let answers := body !! "answers" in
    let timeSpent := body !! "timeSpent" in
    if negb (truthy testId) || negb (truthy answers)
    then (st, Err 400 msg_test_and_answers) else
    match find_test testId (tests st) with
    | None => (st, Err 404 msg_test_not_found)
    | Some test =>
        match existingResult user testId (results st) with
        | Some _ => (st, Err 400 msg_already_submitted)
        | None =>
            let graded := grade answers (test_questions test) 0 0 in
            (set_results st
               (results st ++ [newResult now user testId timeSpent test graded]),
             Ok (summary test graded))
        end
    end).

(** An object as it is read back after it has been written. *)
Definition persist_obj (o : obj) : obj := persist <$> o.

(** [questions.map((q, index) => ({ id: (index + 1).toString(), ...q }))]:
    the literal first sets [id], then copies the properties of [q] over
    it. *)
Definition number_questions (questions : list json) : list obj :=
  imap (fun index q =>
          own_props q ∪ {[ "id" := JStr (pretty (index + 1)) ]})
       questions.

Section TestAdmin.

(** [parseInt] on a request value. *)
Variable parseInt : value -> number.

(** The common field check of the create and update handlers. *)
Definition test_fields_missing (body : obj) : bool :=
  negb (truthy (body !! "title")) || negb (truthy (body !! "direction"))
  || negb (truthy (body !! "timeLimit")) || negb (truthy (body !! "attempts"))
  || negb (truthy (body !! "questions"))
  || negb (truthy (length_of (body !! "questions"))).

(** POST /api/admin/tests. Calling [map] on a [questions] that is not
    an array throws, and the handler answers 500. *)
Definition create_test (now : Z) (auth : Bearer) (body : obj) (st : Store)
    : Store * reply TestDoc :=
  authenticateToken auth st (fun user => requireAdmin user st (
    let title := body !! "title" in
    let direction := body !! "direction" in
    let timeLimit := body !! "timeLimit" in
    let attempts := body !! "attempts" in
    let questions := body !! "questions" in
    if test_fields_missing body then (st, Err 400 msg_all_fields) else
    match find_direction direction (directions st) with
    | None => (st, Err 400 msg_bad_direction)
    | Some selectedDirection =>
        match questions with
        | Some (JArr qs) =>
            let newTest :=
              {| test_id := pretty now;
                 test_title := persist_value title;
                 test_direction := persist_value direction;
                 test_directionName := dir_name selectedDirection;
                 test_timeLimit := parseInt timeLimit;
                 test_attempts := parseInt attempts;
                 test_questions := List.map persist_obj (number_questions qs);
                 test_createdAt := now;
                 test_updatedAt := None |} in
            (set_tests st (tests st ++ [newTest]), Ok newTest)
        | _ => (st, Err 500 "Testni yaratishda xatolik yuz berdi")
        end
    end)).

(** PUT /api/admin/tests/:id. The reply carries [tests[testIndex]]. *)
Definition update_test (now : Z) (auth : Bearer) (testId : string)
    (body : obj) (st : Store) : Store * reply (option TestDoc) :=
  authenticateToken auth st (fun user => requireAdmin user st (
    let title := body !! "title" in
    let direction := body !! "direction" in
    let timeLimit := body !! "timeLimit" in
    let attempts := body !! "attempts" in
    let questions := body !! "questions" in
    if test_fields_missing body then (st, Err 400 msg_all_fields) else
    match findIndex (fun t => String.eqb (test_id t) testId) (tests st) with
    | None => (st, Err 404 msg_test_not_found)
    | Some testIndex =>
        match find_direction direction (directions st) with
        | None => (st, Err 400 msg_bad_direction)
        | Some selectedDirection =>
            match questions with
            | Some (JArr qs) =>
                let updated :=
                  alter
                    (fun old =>
                       {| test_id := test_id old;
                          test_title := persist_value title;
                          test_direction := persist_value direction;
                          test_directionName := dir_name selectedDirection;
                          test_timeLimit := parseInt timeLimit;
                          test_attempts := parseInt attempts;
                          test_questions :=
                            List.map persist_obj (number_questions qs);
                          test_createdAt := test_createdAt old;
                          test_updatedAt := Some now |})
                    testIndex (tests st) in
                (set_tests st updated, Ok (updated !! testIndex))
            | _ => (st, Err 500 "Testni yangilashda xatolik yuz berdi")
            end
        end
    end)).

End TestAdmin.

(** DELETE /api/admin/tests/:id *)
Definition delete_test (auth : Bearer) (testId : string) (st : Store)
    : Store * reply string :=
  authenticateToken auth st (fun user => requireAdmin user st (
    match findIndex (fun t => String.eqb (test_id t) testId) (tests st) with
    | None => (st, Err 404 msg_test_not_found)
    | Some testIndex =>
        (set_tests st (delete testIndex (tests st)), Ok "Test o'chirildi")
    end)).

(** POST /api/admin/directions *)
Definition add_direction (now : Z) (auth : Bearer) (body : obj) (st : Store)
    : Store * reply Direction :=
  authenticateToken auth st (fun user => requireAdmin user st (
    let name := body !! "name" in
    if negb (truthy name) then (st, Err 400 "Yo'nalish nomi kerak") else
    if List.existsb (fun d => strict_eq (dir_name d) name) (directions st)
    then (st, Err 400 "Bu yo'nalish allaqachon mavjud") else
    let newDirection :=
      {| dir_id := pretty now; dir_name := persist_value name |} in
    (set_directions st (directions st ++ [newDirection]), Ok newDirection))).

Definition msg_direction_not_found : string := "Yo'nalish topilmadi".
Definition msg_used_by_users : string :=
  "Bu yo'nalish foydalanuvchilar tomonidan ishlatilmoqda".
Definition msg_used_by_tests : string :=
  "Bu yo'nalish testlar tomonidan ishlatilmoqda".

(** DELETE /api/admin/directions/:id *)
Definition delete_direction (auth : Bearer) (directionId : string)
    (st : Store) : Store * reply string :=
  authenticateToken auth st (fun user => requireAdmin user st (
    match findIndex (fun d => String.eqb (dir_id d) directionId)
            (directions st) with
    | None => (st, Err 404 msg_direction_not_found)
    | Some directionIndex =>
        if List.existsb
             (fun u => strict_eq (user_direction u) (Some (JStr directionId)))
             (users st)
        then (st, Err 400 msg_used_by_users) else
        if List.existsb
             (fun t => strict_eq (test_direction t) (Some (JStr directionId)))
             (tests st)
        then (st, Err 400 msg_used_by_tests) else
        (set_directions st (delete directionIndex (directions st)),
         Ok "Yo'nalish o'chirildi")
    end)).

(** ** Sequences of requests *)

(** The requests that write a data file. The remaining handlers (the
    listings and the login) leave the store as it is. *)
Inductive Call :=
| SendVerification (now rnd : Z) (codeSent : bool) (body : obj)
| VerifyCode (now : Z) (body : obj)
| Register (now : Z) (hashed : option string) (body : obj)
| SubmitTest (now : Z) (auth : Bearer) (body : obj)
| CreateTest (now : Z) (auth : Bearer) (body : obj)
| UpdateTest (now : Z) (auth : Bearer) (testId : string) (body : obj)
| DeleteTest (auth : Bearer) (testId : string)
| AddDirection (now : Z) (auth : Bearer) (body : obj)
| DeleteDirection (auth : Bearer) (directionId : string).

(** The store after one request. *)
Definition perform (parseInt : value -> number) (st : Store) (c : Call)
    : Store :=
  match c with
  | SendVerification now rnd codeSent body =>
      (send_verification now rnd codeSent body st).1
  | VerifyCode now body => (verify_code now body st).1
  | Register now hashed body => (register now hashed body st).1
  | SubmitTest now auth body => (submit_test now auth body st).1
  | CreateTest now auth body => (create_test parseInt now auth body st).1
  | UpdateTest now auth testId body =>
      (update_test parseInt now auth testId body st).1
  | DeleteTest auth testId => (delete_test auth testId st).1
  | AddDirection now auth body => (add_direction now auth body st).1
  | DeleteDirection auth directionId =>
      (delete_direction auth directionId st).1
  end.

(** The store after a sequence of requests served one after the other. *)
Definition run (parseInt : value -> number) (calls : list Call) (st : Store)
    : Store :=
  fold_left (perform parseInt) calls st.

(** ** Notions of the specification *)

(** [round(100 * score / totalQuestions)] over the rationals, a half
    rounding up: [floor (100 * score / total + 1/2)]. *)
Definition spec_percentage (score total : nat) : Z :=
  (200 * Z.of_nat score + Z.of_nat total) / (2 * Z.of_nat total).

(** The number of outcomes marked correct. *)
Definition count_correct (qrs : list QuestionResult) : nat :=
  List.length (List.filter qr_isCorrect qrs).

(** The verification entries that match an identity and a code. *)
Definition matches (telegram code : value) (v : Verification) : bool :=
  strict_eq (ver_telegram v) telegram
  && strict_eq (Some (JStr (ver_code v))) code.

(** The outcome recorded for the question at [index]. *)
Definition outcome (answers : value) (index : nat) (question : obj)
    : QuestionResult :=
  {| qr_questionId := question !! "id";
     qr_userAnswer := at_index answers index;
     qr_correctAnswer := question !! "correct";
     qr_isCorrect := strict_eq (at_index answers index) (question !! "correct") |}.

(** The identifier the create and update handlers store for the
    question at [index]. *)
Definition stored_id (index : nat) (q : json) : json :=
  match own_props q !! "id" with
  | Some supplied => supplied
  | None => JStr (pretty (index + 1))
  end.

(** The questions stored for the questions [qs] of a request: as many
    documents as questions, in their order; the document at [index]
    has the properties of the request's question, as they are written,
    and under [id] the identifier [stored_id] of its position. The
    identifiers are the strings "1" to "N" when no question of the
    request has an [id] of its own. *)
Definition numbered (qs : list json) (stored : list obj) : Prop :=
  List.length stored = List.length qs
  /\ (forall index q,
        qs !! index = Some q ->
        exists o, stored !! index = Some o
                  /\ o !! "id" = Some (persist (stored_id index q))
                  /\ forall k, k <> "id" ->
                               o !! k = persist <$> (own_props q !! k))
  /\ (Forall (fun q => own_props q !! "id" = None) qs ->
      List.map (fun o : obj => o !! "id") stored
      = List.map (fun n : nat => Some (JStr (pretty n)))
          (seq 1 (List.length qs))).


(** A direction is referenced when an account or a test has it as its
    direction. *)
Definition direction_in_use (directionId : string) (st : Store) : bool :=
  List.existsb
    (fun u => strict_eq (user_direction u) (Some (JStr directionId)))
    (users st)
  || List.existsb
       (fun t => strict_eq (test_direction t) (Some (JStr directionId)))
       (tests st).

(** An entry can be used at [now] for an identity and a code when it
    matches them and has not expired. *)
Definition usable (now : Z) (telegram code : value) (v : Verification)
    : Prop :=
  matches telegram code v = true /\ (now < ver_expiresAt v)%Z.

(** ** The remaining handlers *)

Definition status {A} (r : reply A) : nat :=
  match r with
  | Ok _ => 200
  | Err code _ => code
  end.

Record LoginUser := {
  lu_id : string;
  lu_firstName : value;
  lu_lastName : value;
  lu_direction : value;
  lu_directionName : value;
  lu_isAdmin : bool
}.

(** The token is represented by the payload that [jwt.sign] signs: a
    request that presents the token before it expires is served with
    [ValidToken] of this payload. *)
Record LoginOk := {
  login_token : Claims;
  login_user : LoginUser
}.

Definition msg_bad_credentials : string := "Noto'g'ri login yoki parol".

(** POST /api/login. [compare password hash] is the outcome of
    [bcrypt.compare(password, hash)], [None] when it throws. *)
Definition login (compare : value -> string -> option bool) (body : obj)
    (st : Store) : Store * reply LoginOk :=
  let login := body !! "login" in
  let password := body !! "password" in
  if negb (truthy login) || negb (truthy password)
  then (st, Err 400 "Login va parol kerak") else
  match List.find (fun u => strict_eq (user_login u) login) (users st) with
  | None => (st, Err 400 msg_bad_credentials)
  | Some user =>
      match compare password (user_password user) with
      | None => (st, Err 500 "Tizimga kirishda xatolik yuz berdi")
      | Some isValidPassword =>
          if negb isValidPassword then (st, Err 400 msg_bad_credentials) else
          (st, Ok {| login_token :=
                       {| userId := user_id user;
                          isAdmin := user_isAdmin user |};
                     login_user :=
                       {| lu_id := user_id user;
                          lu_firstName := user_firstName user;
                          lu_lastName := user_lastName user;
                          lu_direction := user_direction user;
                          lu_directionName := user_directionName user;
                          lu_isAdmin := user_isAdmin user |} |})
      end
  end.

Definition unknown_test : string := "Noma'lum test".
Definition unknown_user : string := "Noma'lum".

(** [test ? test.title : 'Noma\'lum test'] for
    [test = tests.find(t => t.id === result.testId)]. *)
Definition title_of (ts : list TestDoc) (result : Result) : value :=
  match find_test (res_testId result) ts with
  | Some test => test_title test
  | None => Some (JStr unknown_test)
  end.

Record ResultWithTitle := {
  rwt_result : Result;
  rwt_testTitle : value
}.

(** GET /api/my-results *)
Definition get_my_results (auth : Bearer) (st : Store)
    : Store * reply (list ResultWithTitle) :=
  authenticateToken auth st (fun requester =>
    let userResults :=
      List.filter (fun r => String.eqb (res_userId r) (userId requester))
        (results st) in
    let resultsWithTestInfo :=
      List.map
        (fun result =>
           {| rwt_result := result;
              rwt_testTitle := title_of (tests st) result |})
        userResults in
    (st, Ok resultsWithTestInfo)).

Record UserView := {
  uv_id : string;
  uv_firstName : value;
  uv_lastName : value;
  uv_direction : value;
  uv_directionName : value;
  uv_phone : value;
  uv_telegram : value;
  uv_login : value;
  uv_createdAt : Z
}.

(** GET /api/admin/users *)
Definition admin_users (auth : Bearer) (st : Store)
    : Store * reply (list UserView) :=
  authenticateToken auth st (fun user => requireAdmin user st (
    let filteredUsers :=
      List.map
        (fun u =>
           {| uv_id := user_id u;
              uv_firstName := user_firstName u;
              uv_lastName := user_lastName u;
              uv_direction := user_direction u;
              uv_directionName := user_directionName u;
              uv_phone := user_phone u;
              uv_telegram := user_telegram u;
              uv_login := user_login u;
              uv_createdAt := user_createdAt u |})
        (List.filter (fun u => negb (user_isAdmin u)) (users st)) in
    (st, Ok filteredUsers))).

(** GET /api/admin/tests *)
Definition admin_tests (auth : Bearer) (st : Store)
    : Store * reply (list TestDoc) :=
  authenticateToken auth st (fun user => requireAdmin user st (
    (st, Ok (tests st)))).

Record DirectionStat := {
  ds_users : nat;
  ds_tests : nat;
  ds_results : nat
}.

Record Statistics := {
  totalUsers : nat;
  totalTests : nat;
  totalResults : nat;
  directionStats : gmap string DirectionStat
}.

Record ResultWithInfo := {
  rwi_result : Result;
  rwi_userName : string;
  rwi_testTitle : value
}.

Section Reports.

(** [Number.prototype.toString]. *)
Variable number_to_string : number -> string.

(** The conversion of a value to a string, as a template literal and
    a computed property name make it: an array is the list of its
    elements joined by commas, [null] elements being empty. *)
Fixpoint to_string (j : json) : string :=
  match j with
  | JNull => "null"
  | JBool true => "true"
  | JBool false => "false"
  | JNum x => number_to_string x
  | JStr s => s
  | JArr l =>
      String.concat ","
        (List.map
           (fun e => match e with JNull => "" | _ => to_string e end) l)
  | JObj _ => "[object Object]"
  end.

Definition ToString (v : value) : string :=
  match v with
  | None => "undefined"
  | Some j => to_string j
  end.

(** The counts of one direction in the statistics. *)
Definition direction_stat (st : Store) (direction : Direction)
    : DirectionStat :=
  let directionUsers :=
    List.filter
      (fun u => strict_eq (user_direction u) (Some (JStr (dir_id direction))))
      (users st) in
  let directionTests :=
    List.filter
      (fun t => strict_eq (test_direction t) (Some (JStr (dir_id direction))))
      (tests st) in
  let directionResults :=
    List.filter
      (fun r =>
         match List.find (fun u => String.eqb (user_id u) (res_userId r))
                 (users st) with
         | Some user =>
             strict_eq (user_direction user) (Some (JStr (dir_id direction)))
         | None => false
         end)
      (results st) in
  {| ds_users := List.length directionUsers;
     ds_tests := List.length directionTests;
     ds_results := List.length directionResults |}.

(** [object[key] = entry] on an object made by a literal: the name
    [__proto__] is the accessor of the prototype, and assigning an
    object to it sets the prototype instead of making a property. *)
Definition assign {V} (key : string) (entry : V) (object : gmap string V)
    : gmap string V :=
  if String.eqb key "__proto__" then object else <[key := entry]> object.

(** GET /api/admin/statistics. [directions.forEach] assigns
    [stats.directionStats[direction.name]] for each direction in turn. *)
Definition statistics (auth : Bearer) (st : Store)
    : Store * reply Statistics :=
  authenticateToken auth st (fun user => requireAdmin user st (
    (st,
     Ok {| totalUsers :=
             List.length
               (List.filter (fun u => negb (user_isAdmin u)) (users st));
           totalTests := List.length (tests st);
           totalResults := List.length (results st);
           directionStats :=
             fold_left
               (fun acc direction =>
                  assign (ToString (dir_name direction))
                    (direction_stat st direction) acc)
               (directions st) ∅ |}))).

(** GET /api/admin/results *)
Definition admin_results (auth : Bearer) (st : Store)
    : Store * reply (list ResultWithInfo) :=
  authenticateToken auth st (fun requester => requireAdmin requester st (
    let resultsWithInfo :=
      List.map
        (fun result =>
           let user :=
             List.find (fun u => String.eqb (user_id u) (res_userId result))
               (users st) in
           {| rwi_result := result;
              rwi_userName :=
                match user with
                | Some user =>
                    ToString (user_firstName user) ++ " "
                    ++ ToString (user_lastName user)
                | None => unknown_user
                end;
              rwi_testTitle := title_of (tests st) result |})
        (results st) in
    (st, Ok resultsWithInfo))).

End Reports.

(** The data files that [initDataFiles] writes into an empty data
    directory; [adminHash] is [bcrypt.hash('isftqabul2025', 10)]. *)
Definition initial_store (adminHash : string) (now : Z) : Store :=
  {| users :=
       [ {| user_id := "1";
            user_firstName := Some (JStr "Admin");
            user_lastName := Some (JStr "User");
            user_direction := Some (JStr "Admin");
            user_directionName := undefined;
            user_phone := Some (JStr "+998901234567");
            user_telegram := Some (JStr "@admin");
            user_login := Some (JStr "admin");
            user_password := adminHash;
            user_isAdmin := true;
            user_createdAt := now |} ];
     directions :=
       [ {| dir_id := "1"; dir_name := Some (JStr "Dasturlash") |};
         {| dir_id := "2"; dir_name := Some (JStr "Dizayn") |};
         {| dir_id := "3"; dir_name := Some (JStr "Marketing") |};
         {| dir_id := "4"; dir_name := Some (JStr "Buxgalteriya") |};
         {| dir_id := "5"; dir_name := Some (JStr "Tillar") |} ];
     tests := [];
     results := [];
     verifications := [] |}.

(** The store and the status of the reply after one request. *)
Definition respond (parseInt : value -> number) (st : Store) (c : Call)
    : Store * nat :=
  match c with
  | SendVerification now rnd codeSent body =>
      let out := send_verification now rnd codeSent body st in
      (out.1, status out.2)
  | VerifyCode now body =>
      let out := verify_code now body st in (out.1, status out.2)
  | Register now hashed body =>
      let out := register now hashed body st in (out.1, status out.2)
  | SubmitTest now auth body =>
      let out := submit_test now auth body st in (out.1, status out.2)
  | CreateTest now auth body =>
      let out := create_test parseInt now auth body st in
      (out.1, status out.2)
  | UpdateTest now auth testId body =>
      let out := update_test parseInt now auth testId body st in
      (out.1, status out.2)
  | DeleteTest auth testId =>
      let out := delete_test auth testId st in (out.1, status out.2)
  | AddDirection now auth body =>
      let out := add_direction now auth body st in (out.1, status out.2)
  | DeleteDirection auth directionId =>
      let out := delete_direction auth directionId st in
      (out.1, status out.2)
  end.

(** ** Consistency of the collections *)

(** No element of the list clashes with a later one. *)
Fixpoint pairwise {A} (clash : A -> A -> bool) (l : list A) : bool :=
  match l with
  | [] => true
  | x :: rest => negb (List.existsb (clash x) rest) && pairwise clash rest
  end.

(** The value is [null]. A stored [null] is what a number that is not
    finite has been written as. *)
Definition is_null (v : value) : bool :=
  match v with
  | Some JNull => true
  | _ => false
  end.

(** Two values are the same name: they are strictly equal and not
    [null]. *)
Definition same_value (a b : value) : bool :=
  strict_eq a b && negb (is_null a).

(** Two accounts with the same login, or with the same telegram name. *)
Definition same_login (u v : User) : bool :=
  same_value (user_login u) (user_login v).
Definition same_telegram (u v : User) : bool :=
  same_value (user_telegram u) (user_telegram v).

(** Two directions with the same name. *)
Definition same_name (d e : Direction) : bool :=
  same_value (dir_name d) (dir_name e).

(** Two results of one account for one test. *)
Definition same_attempt (r s : Result) : bool :=
  String.eqb (res_userId r) (res_userId s)
  && strict_eq (res_testId r) (res_testId s).

(** Two verification entries of one identity. *)
Definition same_identity (v w : Verification) : bool :=
  same_value (ver_telegram v) (ver_telegram w).

(** The direction of a document is the identifier of a stored
    direction. *)
Definition direction_known (ds : list Direction) (direction : value) : bool :=
  List.existsb (fun d => strict_eq (Some (JStr (dir_id d))) direction) ds.

(** Every test, and every account that is no administrator, refers to a
    stored direction. *)
Definition references_resolve (st : Store) : bool :=
  List.forallb (fun t => direction_known (directions st) (test_direction t))
    (tests st)
  && List.forallb
       (fun u => user_isAdmin u
                 || direction_known (directions st) (user_direction u))
       (users st).

(** A stored result agrees with itself: the score counts the outcomes
    marked correct, there is one outcome for each question, and the
    score does not exceed the number of questions. *)
Definition result_coherent (r : Result) : bool :=
  (res_score r =? count_correct (res_questionResults r))
  && (List.length (res_questionResults r) =? res_totalQuestions r)
  && (res_score r <=? res_totalQuestions r).

(** ** The routes behind [authenticateToken] *)

Inductive Protected :=
| GetTests
| GetTest (testId : string)
| PostSubmitTest (now : Z) (body : obj)
| GetMyResults
| GetAdminUsers
| GetAdminTests
| PostAdminTests (now : Z) (body : obj)
| GetAdminResults
| GetAdminStatistics
| DeleteAdminTest (testId : string)
| PutAdminTest (now : Z) (testId : string) (body : obj)
| PostAdminDirections (now : Z) (body : obj)
| DeleteAdminDirection (directionId : string).

(** The routes registered with [requireAdmin] as well. *)
Definition needs_admin (route : Protected) : bool :=
  match route with
  | GetTests | GetTest _ | PostSubmitTest _ _ | GetMyResults => false
  | _ => true
  end.

(** The store and the status of the reply of a protected route. *)
Definition serve (parseInt : value -> number)
    (number_to_string : number -> string) (route : Protected)
    (auth : Bearer) (st : Store) : Store * nat :=
  match route with
  | GetTests => let out := get_tests auth st in (out.1, status out.2)
  | GetTest testId =>
      let out := get_test auth testId st in (out.1, status out.2)
  | PostSubmitTest now body =>
      let out := submit_test now auth body st in (out.1, status out.2)
  | GetMyResults => let out := get_my_results auth st in (out.1, status out.2)
  | GetAdminUsers => let out := admin_users auth st in (out.1, status out.2)
  | GetAdminTests => let out := admin_tests auth st in (out.1, status out.2)
  | PostAdminTests now body =>
      let out := create_test parseInt now auth body st in
      (out.1, status out.2)
  | GetAdminResults =>
      let out := admin_results number_to_string auth st in
      (out.1, status out.2)
  | GetAdminStatistics =>
      let out := statistics number_to_string auth st in (out.1, status out.2)
  | DeleteAdminTest testId =>
      let out := delete_test auth testId st in (out.1, status out.2)
  | PutAdminTest now testId body =>
      let out := update_test parseInt now auth testId body st in
      (out.1, status out.2)
  | PostAdminDirections now body =>
      let out := add_direction now auth body st in (out.1, status out.2)
  | DeleteAdminDirection directionId =>
      let out := delete_direction auth directionId st in
      (out.1, status out.2)
  end.

(** All the fields of a registration are present. *)
Definition registration_complete (body : obj) : bool :=
  truthy (body !! "firstName") && truthy (body !! "lastName")
  && truthy (body !! "direction") && truthy (body !! "phone")
  && truthy (body !! "telegram") && truthy (body !! "login")
  && truthy (body !! "password").

(** ** Sample data

    A small catalogue used to instantiate the statements below. *)

Definition num (z : Z) : json := JNum (of_Z z).

(** A question whose correct option is [c]. *)
Definition sample_question (c : Z) : obj :=
  {[ "id" := JStr "1"; "question" := JStr "Which one?";
     "options" := JArr [JStr "a"; JStr "b"; JStr "c"; JStr "d"];
     "correct" := num c ]}.

Definition sample_test (id : string) (questions : list obj) : TestDoc :=
  {| test_id := id;
     test_title := Some (JStr "Sample");
     test_direction := Some (JStr "1");
     test_directionName := Some (JStr "Dasturlash");
     test_timeLimit := of_Z 30;
     test_attempts := of_Z 1;
     test_questions := questions;
     test_createdAt := 1000;
     test_updatedAt := None |}.

Definition sample_user (id : string) (direction : string) (admin : bool)
    : User :=
  {| user_id := id;
     user_firstName := Some (JStr "Ali");
     user_lastName := Some (JStr "Valiyev");
     user_direction := Some (JStr direction);
     user_directionName := Some (JStr "Dasturlash");
     user_phone := Some (JStr "+998900000000");
     user_telegram := Some (JStr "@ali");
     user_login := Some (JStr "ali");
     user_password := "$2a$10$hash";
     user_isAdmin := admin;
     user_createdAt := 900 |}.

Definition learner : Claims := {| userId := "7"; isAdmin := false |}.
Definition administrator : Claims := {| userId := "1"; isAdmin := true |}.

(** The default directions written by [initDataFiles]. *)
Definition default_directions : list Direction :=
  [ {| dir_id := "1"; dir_name := Some (JStr "Dasturlash") |};
    {| dir_id := "2"; dir_name := Some (JStr "Dizayn") |};
    {| dir_id := "3"; dir_name := Some (JStr "Marketing") |};
    {| dir_id := "4"; dir_name := Some (JStr "Buxgalteriya") |};
    {| dir_id := "5"; dir_name := Some (JStr "Tillar") |} ].

Definition store_with (ts : list TestDoc) : Store :=
  {| users := [sample_user "1" "Admin" true; sample_user "7" "1" false];
     directions := default_directions;
     tests := ts;
     results := [];
     verifications := [] |}.

(** Four questions with the correct options 0, 1, 2, 3. *)
Definition four_questions : TestDoc :=
  sample_test "t4" (List.map sample_question [0; 1; 2; 3]%Z).

(** Forty questions, the correct option of each being 0. *)
Definition forty_questions : TestDoc :=
  sample_test "t40" (repeat (sample_question 0) 40).

(** A test without questions, as only a hand-edited tests.json holds. *)
Definition no_questions : TestDoc := sample_test "t0" [].

Definition submission (testId : string) (answers : list json) : obj :=
  {[ "testId" := JStr testId; "answers" := JArr answers ]}.

(** A create request whose first question brings an identifier of its
    own. *)
Definition questions_with_id : list json :=
  [ JObj (<["id" := JStr "q-7"]> (sample_question 2));
    JObj (delete "id" (sample_question 1)) ].

Definition test_request (questions : list json) : obj :=
  {[ "title" := JStr "Yangi test"; "direction" := JStr "1";
     "timeLimit" := num 30; "attempts" := num 1;
     "questions" := JArr questions ]}.

(** A [parseInt] for the instances: the fields it fills are not looked
    at. *)
Definition sample_parseInt (v : value) : number :=
  match v with
  | Some (JNum x) => x
  | _ => NaN
  end.

(** The documents that the create and the update handler store for
    [test_request questions_with_id]. *)
Definition created_test : TestDoc :=
  {| test_id := "2500";
     test_title := Some (JStr "Yangi test");
     test_direction := Some (JStr "1");
     test_directionName := Some (JStr "Dasturlash");
     test_timeLimit := of_Z 30;
     test_attempts := of_Z 1;
     test_questions := number_questions questions_with_id;
     test_createdAt := 2500;
     test_updatedAt := None |}.

Definition updated_test : TestDoc :=
  {| test_id := "t4";
     test_title := Some (JStr "Yangi test");
     test_direction := Some (JStr "1");
     test_directionName := Some (JStr "Dasturlash");
     test_timeLimit := of_Z 30;
     test_attempts := of_Z 1;
     test_questions := number_questions questions_with_id;
     test_createdAt := 1000;
     test_updatedAt := Some 2500%Z |}.

(** A code issued at time 1000 for "@ali", valid until 301000. *)
Definition issued : Store :=
  (send_verification 1000 482913 false {[ "telegram" := JStr "@ali" ]}
     (store_with [four_questions])).1.

Definition code_request : obj :=
  {[ "telegram" := JStr "@ali"; "code" := JStr "482913" ]}.

(** A test of the direction "2", and a catalogue of two directions. *)
Definition design_test : TestDoc :=
  {| test_id := "d1";
     test_title := Some (JStr "Dizayn asoslari");
     test_direction := Some (JStr "2");
     test_directionName := Some (JStr "Dizayn");
     test_timeLimit := of_Z 20;
     test_attempts := of_Z 1;
     test_questions := [sample_question 3];
     test_createdAt := 1100;
     test_updatedAt := None |}.

Definition mixed_store : Store := store_with [four_questions; design_test].

(** A registration request and a day of requests. *)
Definition registration (login telegram : string) : obj :=
  {[ "firstName" := JStr "Vali"; "lastName" := JStr "Aliyev";
     "direction" := JStr "2"; "phone" := JStr "+998911111111";
     "telegram" := JStr telegram; "login" := JStr login;
     "password" := JStr "parol" ]}.

Definition busy_day : list Call :=
  [ Register 5000 (Some "$2a$10$vali") (registration "vali" "@vali");
    SendVerification 5050 482913 false {[ "telegram" := JStr "@vali" ]};
    SubmitTest 5100 (ValidToken learner)
      (submission "t4" [num 0; num 1; num 9; num 3]);
    SubmitTest 5200 (ValidToken learner)
      (submission "t4" [num 0; num 1; num 2; num 3]);
    AddDirection 5300 (ValidToken administrator) {[ "name" := JStr "Fizika" ]};
    CreateTest 5400 (ValidToken administrator)
      (test_request questions_with_id);
    Register 5500 (Some "$2a$10$soli") (registration "vali" "@soli");
    VerifyCode 5600 code_request;
    UpdateTest 5700 (ValidToken administrator) "d1"
      (test_request questions_with_id);
    DeleteTest (ValidToken administrator) "t4";
    DeleteDirection (ValidToken administrator) "5" ].

(** [bcrypt.compare] for the instances: the hash of "parol" is
    "$2a$10$vali". *)
Definition sample_compare (password : value) (hash : string) : option bool :=
  match password with
  | Some (JStr p) =>
      Some (String.eqb p "parol" && String.eqb hash "$2a$10$vali")
  | _ => None
  end.
(** ** Strict equality and grading *)

Lemma strict_eq_str_inv (s : string) (v : value) :
  strict_eq (Some (JStr s)) v = true -> v = Some (JStr s).
Proof.
  destruct v as [[]|]; simpl; try discriminate.
  intros H. apply String.eqb_eq in H. by subst.
Qed.

Lemma strict_eq_str_refl (s : string) :
  strict_eq (Some (JStr s)) (Some (JStr s)) = true.
Proof. simpl. apply String.eqb_refl. Qed.

Lemma grade_results (answers : value) (questions : list obj) :
  forall index score,
    (grade answers questions index score).2
    = imap (fun k q => outcome answers (index + k) q) questions.
Proof.
  induction questions as [|q rest IH]; intros index score; simpl; [done|].
  specialize (IH (S index) (if strict_eq (at_index answers index) (q !! "correct")
                            then S score else score)).
  destruct (grade answers rest (S index) _) as [sc out]; simpl in *.
  rewrite IH. f_equal.
  - unfold outcome. by rewrite Nat.add_0_r.
  - apply imap_ext. intros k x _. simpl. f_equal. lia.
Qed.

Lemma grade_score (answers : value) (questions : list obj) :
  forall index score,
    (grade answers questions index score).1
    = score + count_correct (grade answers questions index score).2.
Proof.
  induction questions as [|q rest IH]; intros index score; simpl.
  - unfold count_correct. simpl. lia.
  - specialize (IH (S index) (if strict_eq (at_index answers index) (q !! "correct")
                              then S score else score)).
    destruct (grade answers rest (S index) _) as [sc out]; simpl in *.
    unfold count_correct in *. simpl.
    destruct (strict_eq (at_index answers index) (q !! "correct")); simpl; lia.
Qed.

Lemma grade_outcome (answers : value) (questions : list obj) (index : nat)
    (question : obj) :
  questions !! index = Some question ->
  (grade answers questions 0 0).2 !! index = Some (outcome answers index question).
Proof.
  intros H. rewrite grade_results, list_lookup_imap, H. done.
Qed.

Lemma grade_length (answers : value) (questions : list obj) :
  List.length (grade answers questions 0 0).2 = List.length questions.
Proof. rewrite grade_results. apply length_imap. Qed.

(** Indexing a string counts UTF-16 code units: the character U+1F600,
    four bytes in UTF-8, has two of them, and U+00E9 has one. *)
Example chars_are_code_units :
  let face :=
    string_of_list_ascii (List.map ascii_of_N [240; 159; 152; 128]%N) in
  let e_acute := string_of_list_ascii (List.map ascii_of_N [195; 169]%N) in
  length_of (Some (JStr face)) = Some (JNum (of_Z 2))
  /\ code_units [240; 159; 152; 128]%N = [55357; 56832]%N
  /\ at_index (Some (JStr e_acute)) 0 = Some (JStr e_acute)
  /\ at_index (Some (JStr e_acute)) 1 = undefined
  /\ at_index (Some (JStr "abc")) 1 = Some (JStr "b").
Proof. vm_compute. repeat split. Qed.

(** ** Values as they are written *)

(** A number that is not finite is written as [null], at any depth,
    and the negative zero as zero; everything else is read back as it
    was. *)
Example persist_non_finite :
  persist (JArr [JNum (S754_infinity false); JNum NaN;
                 JNum (S754_zero true); JNum (of_Z 7); JStr "1e400"])
  = JArr [JNull; JNull; JNum (S754_zero false); JNum (of_Z 7); JStr "1e400"]
  /\ persist (JObj {[ "login" := JNum (S754_infinity true) ]})
     = JObj {[ "login" := JNull ]}.
Proof. vm_compute. split; reflexivity. Qed.

Lemma persist_value_str (v : value) (s : string) :
  v = Some (JStr s) -> persist_value v = v.
Proof. by intros ->. Qed.

Lemma count_correct_persist (qrs : list QuestionResult) :
  count_correct (List.map persist_outcome qrs) = count_correct qrs.
Proof.
  unfold count_correct. induction qrs as [|qr qrs IH]; simpl; [done|].
  destruct (qr_isCorrect qr); simpl; by rewrite IH.
Qed.

Lemma lookup_persist_outcome (qrs : list QuestionResult) (i : nat) :
  List.map persist_outcome qrs !! i = persist_outcome <$> qrs !! i.
Proof. apply list_lookup_fmap. Qed.

(** ** The submit handler *)

(** What a successful submission has gone through. *)
Lemma submit_test_ok_inv (now : Z) (user : Claims) (body : obj)
    (st st' : Store) (s : ScoreSummary) :
  submit_test now (ValidToken user) body st = (st', Ok s) ->
  exists test,
    truthy (body !! "testId") = true
    /\ truthy (body !! "answers") = true
    /\ find_test (body !! "testId") (tests st) = Some test
    /\ existingResult user (body !! "testId") (results st) = None
    /\ st' = set_results st
               (results st
                ++ [newResult now user (body !! "testId") (body !! "timeSpent")
                      test (grade (body !! "answers") (test_questions test) 0 0)])
    /\ s = summary test (grade (body !! "answers") (test_questions test) 0 0).
Proof.
  unfold submit_test, authenticateToken.
  destruct (truthy (body !! "testId")) eqn:Hid; simpl; [|discriminate].
  destruct (truthy (body !! "answers")) eqn:Hans; simpl; [|discriminate].
  destruct (find_test (body !! "testId") (tests st)) as [test|] eqn:Ht;
    [|discriminate].
  destruct (existingResult user (body !! "testId") (results st)) eqn:Hr;
    [discriminate|].
  intros [= <- <-]. exists test. done.
Qed.

(** A well-formed first submission to a known test succeeds. *)
Lemma submit_test_ok (now : Z) (user : Claims) (body : obj) (st : Store)
    (test : TestDoc) :
  truthy (body !! "testId") = true ->
  truthy (body !! "answers") = true ->
  find_test (body !! "testId") (tests st) = Some test ->
  existingResult user (body !! "testId") (results st) = None ->
  submit_test now (ValidToken user) body st
  = (set_results st
       (results st
        ++ [newResult now user (body !! "testId") (body !! "timeSpent")
              test (grade (body !! "answers") (test_questions test) 0 0)]),
     Ok (summary test (grade (body !! "answers") (test_questions test) 0 0))).
Proof.
  intros Hid Hans Ht Hr. unfold submit_test, authenticateToken.
  by rewrite Hid, Hans, Ht, Hr.
Qed.

(** Whatever the request, the handler either appends one result or
    leaves the store as it is. *)
Lemma submit_test_store (now : Z) (auth : Bearer) (body : obj) (st : Store) :
  (submit_test now auth body st).1 = st
  \/ exists r, (submit_test now auth body st).1
               = set_results st (results st ++ [r]).
Proof.
  unfold submit_test, authenticateToken.
  destruct auth; simpl; auto.
  repeat case_match; simpl; eauto.
Qed.

(** C1, as the handler has it: a successful submission to a test
    without questions returns and persists the percentage NaN, the
    outcome of [0 / 0], which [JSON.stringify] writes as [null]; the
    score and the number of questions are 0. *)
Theorem empty_test_percentage_is_NaN (now : Z) (user : Claims) (body : obj)
    (st st' : Store) (s : ScoreSummary) (test : TestDoc) :
  find_test (body !! "testId") (tests st) = Some test ->
  test_questions test = [] ->
  submit_test now (ValidToken user) body st = (st', Ok s) ->
  sum_score s = 0 /\ sum_totalQuestions s = 0
  /\ sum_percentage s = NaN
  /\ stringify_number (sum_percentage s) = JNull
  /\ exists r, results st' = results st ++ [r]
               /\ res_percentage r = NaN
               /\ stringify_number (res_percentage r) = JNull.
Proof.
  intros Ht Hq Hsub.
  apply submit_test_ok_inv in Hsub as (test' & _ & _ & Ht' & _ & -> & ->).
  rewrite Ht in Ht'. injection Ht' as <-.
  unfold summary, newResult. rewrite Hq. simpl.
  repeat split; try reflexivity.
  eexists. split; [reflexivity|]. split; reflexivity.
Qed.

Lemma empty_test_percentage_is_NaN_witness :
  sum_score (summary no_questions (0, [])) = 0
  /\ sum_totalQuestions (summary no_questions (0, [])) = 0
  /\ sum_percentage (summary no_questions (0, [])) = NaN
  /\ stringify_number (sum_percentage (summary no_questions (0, []))) = JNull
  /\ exists r,
       results (submit_test 2000 (ValidToken learner) (submission "t0" [])
                  (store_with [no_questions])).1
       = results (store_with [no_questions]) ++ [r]
       /\ res_percentage r = NaN
       /\ stringify_number (res_percentage r) = JNull.
Proof.
  apply (empty_test_percentage_is_NaN 2000 learner (submission "t0" [])
           (store_with [no_questions]) _ _ no_questions);
    vm_compute; reflexivity.
Defined.

(** C1 fails on the handler: for the test without questions the reply
    and the stored result carry NaN, which is not the number 0 and is
    serialised as [null]. *)
Lemma empty_test_percentage_not_zero :
  let out := submit_test 2000 (ValidToken learner) (submission "t0" [])
               (store_with [no_questions]) in
  out.2 = Ok {| sum_score := 0; sum_totalQuestions := 0;
                sum_percentage := NaN |}
  /\ List.map res_percentage (results out.1) = [NaN]
  /\ NaN <> of_Z 0
  /\ SFeqb NaN (of_Z 0) = false
  /\ stringify_number NaN <> JNum (of_Z 0).
Proof. vm_compute. repeat split; discriminate. Qed.

(** The score is the number of questions whose answer, taken at the
    question's position, is strictly equal to the correct option. *)
Lemma submit_score_counts (now : Z) (user : Claims) (body : obj)
    (st st' : Store) (s : ScoreSummary) :
  submit_test now (ValidToken user) body st = (st', Ok s) ->
  exists test,
    find_test (body !! "testId") (tests st) = Some test
    /\ sum_totalQuestions s = List.length (test_questions test)
    /\ sum_score s
       = count_correct
           (imap (outcome (body !! "answers")) (test_questions test))
    /\ sum_percentage s = percentage_of (sum_score s) (sum_totalQuestions s).
Proof.
  intros Hsub.
  apply submit_test_ok_inv in Hsub as (test & _ & _ & Ht & _ & _ & ->).
  exists test. unfold summary; simpl.
  rewrite grade_score, grade_results. simpl.
  repeat split; try done.
Qed.

(** The scenario of the specification: correct options 0, 1, 2, 3 and
    the answers 0, 1, 9, 3 give the score 3 and 75 percent. *)
Example submit_three_of_four :
  (submit_test 2000 (ValidToken learner)
     (submission "t4" [num 0; num 1; num 9; num 3])
     (store_with [four_questions])).2
  = Ok {| sum_score := 3; sum_totalQuestions := 4;
          sum_percentage := of_Z 75 |}.
Proof. vm_compute. reflexivity. Qed.

(** C4 on a test of forty questions with twenty-three correct answers:
    the handler computes [Math.round((23 / 40) * 100)]; the quotient is
    rounded to a float below 0.575, the product is 57.49999999999999 and
    the percentage 57, while [round(100 * 23 / 40)] is the rounding of
    57.5, that is 58. *)
Theorem submit_23_of_40_percentage :
  let out := submit_test 2000 (ValidToken learner)
               (submission "t40" (repeat (num 0) 23))
               (store_with [forty_questions]) in
  out.2 = Ok {| sum_score := 23; sum_totalQuestions := 40;
                sum_percentage := of_Z 57 |}
  /\ List.map res_percentage (results out.1) = [of_Z 57]
  /\ spec_percentage 23 40 = 58%Z
  /\ of_Z 57 <> of_Z (spec_percentage 23 40)
  /\ mul (of_Z 23) (of_Z 100) = of_Z 2300
  /\ Math_round (div (of_Z 2300) (of_Z 40)) = of_Z 58.
Proof. vm_compute. repeat split; discriminate. Qed.

(** C5, as the handler has it: in a submission that reaches grading, a
    question whose position holds no answer (the answers are too short,
    or are no array at all) is recorded with no answer; it is recorded
    as incorrect when the question has a correct option, and as correct
    when it has none, the comparison being [undefined === undefined].
    The score counts the outcomes recorded as correct only, and the
    handler replies with the summary whatever the answers are. *)
Theorem absent_answer_is_incorrect (now : Z) (user : Claims) (body : obj)
    (st : Store) (test : TestDoc) :
  truthy (body !! "testId") = true ->
  truthy (body !! "answers") = true ->
  find_test (body !! "testId") (tests st) = Some test ->
  existingResult user (body !! "testId") (results st) = None ->
  exists r s,
    submit_test now (ValidToken user) body st
    = (set_results st (results st ++ [r]), Ok s)
    /\ sum_score s = res_score r
    /\ res_score r = count_correct (res_questionResults r)
    /\ List.length (res_questionResults r) = List.length (test_questions test)
    /\ forall index question,
         test_questions test !! index = Some question ->
         at_index (body !! "answers") index = undefined ->
         exists qr,
           res_questionResults r !! index = Some qr
           /\ qr_userAnswer qr = undefined
           /\ (is_Some (question !! "correct") -> qr_isCorrect qr = false)
           /\ (question !! "correct" = None -> qr_isCorrect qr = true).
Proof.
  intros Hid Hans Ht Hr.
  eexists _, _. split; [by apply submit_test_ok|].
  unfold summary, newResult; simpl.
  split; [done|].
  split; [rewrite count_correct_persist; apply grade_score|].
  split; [rewrite length_map; apply grade_length|].
  intros index question Hq Habsent.
  exists (persist_outcome (outcome (body !! "answers") index question)).
  split; [by rewrite lookup_persist_outcome, (grade_outcome _ _ _ _ Hq)|].
  unfold outcome; simpl. rewrite Habsent. split; [done|].
  split; [by intros [c ->]|by intros ->].
Qed.

Lemma absent_answer_is_incorrect_witness :
  exists r s,
    submit_test 2000 (ValidToken learner) (submission "t4" [num 0; num 1])
      (store_with [four_questions])
    = (set_results (store_with [four_questions])
         (results (store_with [four_questions]) ++ [r]), Ok s)
    /\ sum_score s = res_score r
    /\ res_score r = count_correct (res_questionResults r)
    /\ List.length (res_questionResults r)
       = List.length (test_questions four_questions)
    /\ forall index question,
         test_questions four_questions !! index = Some question ->
         at_index (submission "t4" [num 0; num 1] !! "answers") index
         = undefined ->
         exists qr,
           res_questionResults r !! index = Some qr
           /\ qr_userAnswer qr = undefined
           /\ (is_Some (question !! "correct") -> qr_isCorrect qr = false)
           /\ (question !! "correct" = None -> qr_isCorrect qr = true).
Proof.
  apply (absent_answer_is_incorrect 2000 learner
           (submission "t4" [num 0; num 1]) (store_with [four_questions])
           four_questions);
    vm_compute; reflexivity.
Defined.

(** The two answers given are graded, the two missing ones are
    incorrect. *)
Example submit_two_answers_of_four :
  (submit_test 2000 (ValidToken learner) (submission "t4" [num 0; num 1])
     (store_with [four_questions])).2
  = Ok {| sum_score := 2; sum_totalQuestions := 4;
          sum_percentage := of_Z 50 |}.
Proof. vm_compute. reflexivity. Qed.

(** C5 fails on the handlers: the create handler stores a question that
    is sent without a correct option, and a first submission to that
    test with an empty list of answers is graded correct at the
    question's position, which holds no answer: the score is 1 of 1. *)
Lemma absent_answer_graded_correct :
  let unmarked : json :=
    JObj {[ "question" := JStr "2 + 2 = ?";
            "options" := JArr [JStr "3"; JStr "4"] ]} in
  let created :=
    create_test sample_parseInt 1000 (ValidToken administrator)
      (test_request [unmarked]) (store_with []) in
  let out :=
    submit_test 2000 (ValidToken learner) (submission "1000" []) created.1 in
  (exists t,
     created.2 = Ok t /\ tests created.1 = [t] /\ test_id t = "1000"
     /\ List.map (fun q : obj => q !! "correct") (test_questions t) = [None])
  /\ at_index (submission "1000" [] !! "answers") 0 = undefined
  /\ out.2 = Ok {| sum_score := 1; sum_totalQuestions := 1;
                   sum_percentage := of_Z 100 |}
  /\ List.map (fun r => List.map qr_isCorrect (res_questionResults r))
       (results out.1) = [[true]]
  /\ List.map res_score (results out.1) = [1].
Proof. vm_compute. split; [eexists|]; repeat split. Qed.

(** The same for a test document that holds such a question. *)
Example question_without_marker :
  let unmarked : obj := {[ "id" := JStr "1"; "question" := JStr "?" ]} in
  (submit_test 2000 (ValidToken learner) (submission "u" [])
     (store_with [sample_test "u" [unmarked]])).2
  = Ok {| sum_score := 1; sum_totalQuestions := 1;
          sum_percentage := of_Z 100 |}.
Proof. vm_compute. reflexivity. Qed.

(** C10: the result that a successful submission appends names the
    subject of the verified token as its account, and the handler does
    not read a [userId] of the request body: the outcome is the same
    whatever the body holds under that name. *)
Theorem result_belongs_to_token_subject (now : Z) (user : Claims)
    (body : obj) (st st' : Store) (s : ScoreSummary) :
  submit_test now (ValidToken user) body st = (st', Ok s) ->
  (exists r, results st' = results st ++ [r]
             /\ res_userId r = userId user)
  /\ forall forged : json,
       submit_test now (ValidToken user) (<["userId" := forged]> body) st
       = (st', Ok s).
Proof.
  intros Hsub. split.
  - apply submit_test_ok_inv in Hsub as (test & _ & _ & _ & _ & -> & _).
    eexists. split; reflexivity.
  - intros forged. rewrite <- Hsub. unfold submit_test.
    by rewrite !lookup_insert_ne.
Qed.

Lemma result_belongs_to_token_subject_witness :
  (exists r,
     results (submit_test 2000 (ValidToken learner)
                (<["userId" := JStr "1"]> (submission "t4" [num 0]))
                (store_with [four_questions])).1
     = results (store_with [four_questions]) ++ [r]
     /\ res_userId r = userId learner)
  /\ forall forged : json,
       submit_test 2000 (ValidToken learner)
         (<["userId" := forged]>
            (<["userId" := JStr "1"]> (submission "t4" [num 0])))
         (store_with [four_questions])
       = submit_test 2000 (ValidToken learner)
           (<["userId" := JStr "1"]> (submission "t4" [num 0]))
           (store_with [four_questions]).
Proof.
  apply (result_belongs_to_token_subject 2000 learner
           (<["userId" := JStr "1"]> (submission "t4" [num 0]))
           (store_with [four_questions]) _
           (summary four_questions
              (grade (Some (JArr [num 0])) (test_questions four_questions) 0 0))).
  vm_compute. reflexivity.
Defined.

(** ** Results are only ever appended *)

Ltac handler_cases :=
  unfold authenticateToken, requireAdmin; repeat case_match; simpl; auto.

Lemma perform_keeps_results (parseInt : value -> number) (st : Store)
    (c : Call) (r : Result) :
  In r (results st) -> In r (results (perform parseInt st c)).
Proof.
  intros Hin. destruct c; simpl.
  - unfold send_verification. handler_cases.
  - unfold verify_code. handler_cases.
  - unfold register. handler_cases.
  - destruct (submit_test_store now auth body st) as [-> | [r' ->]]; simpl;
      [done|]. apply in_or_app. by left.
  - unfold create_test. handler_cases.
  - unfold update_test. handler_cases.
  - unfold delete_test. handler_cases.
  - unfold add_direction. handler_cases.
  - unfold delete_direction. handler_cases.
Qed.

Lemma run_keeps_results (parseInt : value -> number) (calls : list Call) :
  forall (st : Store) (r : Result),
    In r (results st) -> In r (results (run parseInt calls st)).
Proof.
  unfold run. induction calls as [|c calls IH]; intros st r Hin; simpl;
    [done|].
  apply IH. by apply perform_keeps_results.
Qed.

(** A stored result of the account for the test is found by the scan of
    the submit handler. *)
Lemma existingResult_found (user : Claims) (id : string) (rs : list Result)
    (r : Result) :
  In r rs ->
  res_userId r = userId user ->
  res_testId r = Some (JStr id) ->
  is_Some (existingResult user (Some (JStr id)) rs).
Proof.
  intros Hin Hu Ht. unfold existingResult.
  match goal with |- is_Some (List.find ?f rs) =>
    destruct (List.find f rs) as [x|] eqn:Hfind end; [by eexists|].
  eapply find_none in Hfind; [|exact Hin]. simpl in Hfind.
  rewrite Hu, Ht, String.eqb_refl, strict_eq_str_refl in Hfind.
  discriminate.
Qed.

(** A later submission of the same account for the same test, after
    any sequence of requests. *)
Lemma later_submit_refused (parseInt : value -> number)
    (now : Z) (user : Claims) (body : obj) (st st1 : Store)
    (s : ScoreSummary) (calls : list Call)
    (now' : Z) (user' : Claims) (body' : obj) :
  submit_test now (ValidToken user) body st = (st1, Ok s) ->
  userId user' = userId user ->
  body' !! "testId" = body !! "testId" ->
  let st2 := run parseInt calls st1 in
  (truthy (body' !! "answers") = true ->
   is_Some (find_test (body' !! "testId") (tests st2)) ->
   submit_test now' (ValidToken user') body' st2
   = (st2, Err 400 msg_already_submitted))
  /\ exists status message,
       submit_test now' (ValidToken user') body' st2
       = (st2, Err status message).
Proof.
  intros Hsub Hu Hid st2.
  apply submit_test_ok_inv in Hsub as (test & Htruthy & _ & Ht & _ & Hst1 & _).
  pose proof Ht as Hfound. unfold find_test in Hfound.
  apply find_some in Hfound as [_ Hjs]. apply strict_eq_str_inv in Hjs.
  assert (Hex : is_Some (existingResult user' (body' !! "testId") (results st2))).
  { rewrite Hid, Hjs.
    eapply existingResult_found with
      (r := newResult now user (body !! "testId") (body !! "timeSpent") test
              (grade (body !! "answers") (test_questions test) 0 0)).
    - apply run_keeps_results. rewrite Hst1. simpl.
      apply in_or_app. right. by left.
    - simpl. congruence.
    - simpl. by rewrite Hjs. }
  destruct Hex as [r Hr].
  unfold submit_test, authenticateToken. rewrite Hr.
  rewrite Hid, Htruthy. simpl. split.
  - intros -> [t ->]. done.
  - destruct (truthy (body' !! "answers")); simpl;
      [|do 2 eexists; reflexivity].
    rewrite <- Hid.
    destruct (find_test (body' !! "testId") (tests st2));
      do 2 eexists; reflexivity.
Qed.

(** C3: once a submission of an account for a test has succeeded and
    its result is stored, a second submission of the account for the
    test that carries answers is refused with the 400 reply
    AlreadySubmitted and stores nothing; so is any later one, after any
    sequence of further requests served one after the other, as long as
    the test is in the catalogue; and whatever the later request and the
    catalogue are, the submission is refused and the store left as it
    is. *)
Theorem second_submit_already_submitted (parseInt : value -> number)
    (now : Z) (user : Claims) (body : obj) (st st1 : Store)
    (s : ScoreSummary) (calls : list Call)
    (now' : Z) (user' : Claims) (body' : obj) :
  submit_test now (ValidToken user) body st = (st1, Ok s) ->
  userId user' = userId user ->
  body' !! "testId" = body !! "testId" ->
  (truthy (body' !! "answers") = true ->
   submit_test now' (ValidToken user') body' st1
   = (st1, Err 400 msg_already_submitted))
  /\ let st2 := run parseInt calls st1 in
     (truthy (body' !! "answers") = true ->
      is_Some (find_test (body' !! "testId") (tests st2)) ->
      submit_test now' (ValidToken user') body' st2
      = (st2, Err 400 msg_already_submitted))
     /\ exists status message,
          submit_test now' (ValidToken user') body' st2
          = (st2, Err status message).
Proof.
  intros Hsub Hu Hid. split.
  - intros Hans.
    apply (later_submit_refused parseInt now user body st st1 s []
             now' user' body' Hsub Hu Hid); [done|].
    apply submit_test_ok_inv in Hsub as (test & _ & _ & Ht & _ & -> & _).
    simpl. rewrite Hid. by eexists.
  - by apply (later_submit_refused parseInt now user body st st1 s calls).
Qed.

Lemma second_submit_already_submitted_witness :
  let st1 := (submit_test 2000 (ValidToken learner)
                (submission "t4" [num 0; num 1; num 9; num 3])
                (store_with [four_questions])).1 in
  let st2 := run sample_parseInt
               [DeleteDirection (ValidToken administrator) "5";
                CreateTest 2500 (ValidToken administrator)
                  (test_request questions_with_id)] st1 in
  submit_test 2001 (ValidToken learner)
    (submission "t4" [num 0; num 1; num 2; num 3]) st1
  = (st1, Err 400 msg_already_submitted)
  /\ submit_test 3000 (ValidToken learner)
       (submission "t4" [num 0; num 1; num 2; num 3]) st2
     = (st2, Err 400 msg_already_submitted).
Proof.
  split.
  - refine (proj1 (second_submit_already_submitted sample_parseInt
                     2000 learner
                     (submission "t4" [num 0; num 1; num 9; num 3])
                     (store_with [four_questions]) _
                     (summary four_questions
                        (grade (Some (JArr [num 0; num 1; num 9; num 3]))
                           (test_questions four_questions) 0 0))
                     []
                     2001 learner
                     (submission "t4" [num 0; num 1; num 2; num 3])
                     _ _ _) _);
      vm_compute; reflexivity.
  - refine (proj1 (proj2 (second_submit_already_submitted sample_parseInt
                     2000 learner
                     (submission "t4" [num 0; num 1; num 9; num 3])
                     (store_with [four_questions]) _
                     (summary four_questions
                        (grade (Some (JArr [num 0; num 1; num 9; num 3]))
                           (test_questions four_questions) 0 0))
                     [DeleteDirection (ValidToken administrator) "5";
                      CreateTest 2500 (ValidToken administrator)
                        (test_request questions_with_id)]
                     3000 learner
                     (submission "t4" [num 0; num 1; num 2; num 3])
                     _ _ _)) _ _);
      vm_compute; try reflexivity.
    eexists. reflexivity.
Defined.

(** After the test has been deleted the later submission is refused as
    well, with the 404 reply of the catalogue lookup, which the handler
    makes first. *)
Example submit_after_delete :
  let st1 := (submit_test 2000 (ValidToken learner)
                (submission "t4" [num 0; num 1; num 9; num 3])
                (store_with [four_questions])).1 in
  let st2 := run sample_parseInt
               [DeleteTest (ValidToken administrator) "t4"] st1 in
  submit_test 3000 (ValidToken learner)
    (submission "t4" [num 0; num 1; num 2; num 3]) st2
  = (st2, Err 404 msg_test_not_found).
Proof. vm_compute. reflexivity. Qed.

(** ** The question identifiers of created and updated tests *)

Lemma lookup_id_spread (index : nat) (q : json) :
  (own_props q ∪ {[ "id" := JStr (pretty (index + 1)) ]} : obj) !! "id"
  = Some (stored_id index q).
Proof.
  unfold stored_id. rewrite lookup_union.
  destruct (own_props q !! "id"); by rewrite lookup_singleton_eq.
Qed.

Lemma number_questions_lookup (qs : list json) (index : nat) (q : json) :
  qs !! index = Some q ->
  exists o, number_questions qs !! index = Some o
            /\ o !! "id" = Some (stored_id index q).
Proof.
  intros Hq. unfold number_questions. rewrite list_lookup_imap, Hq. simpl.
  eexists. split; [reflexivity|]. apply lookup_id_spread.
Qed.

Lemma imap_ids_sequential (qs : list json) :
  Forall (fun q => own_props q !! "id" = None) qs ->
  forall start,
    List.map (fun o : obj => o !! "id")
      (imap (fun index q =>
               own_props q ∪ {[ "id" := JStr (pretty (start + index + 1)) ]})
         qs)
    = List.map (fun n : nat => Some (JStr (pretty n)))
        (seq (start + 1) (List.length qs)).
Proof.
  induction 1 as [|q qs Hq _ IH]; intros start; simpl; [done|].
  f_equal.
  - rewrite lookup_union, Hq, lookup_singleton_eq. simpl.
    by rewrite Nat.add_0_r.
  - specialize (IH (S start)). simpl in IH. rewrite <- IH.
    f_equal. apply imap_ext. intros k x _. simpl.
    by replace (start + S k + 1) with (S (start + k + 1)) by lia.
Qed.

Lemma lookup_persist_obj (o : obj) (k : string) :
  persist_obj o !! k = persist <$> o !! k.
Proof. apply lookup_fmap. Qed.

Lemma lookup_spread_other (index : nat) (q : json) (k : string) :
  k <> "id" ->
  (own_props q ∪ {[ "id" := JStr (pretty (index + 1)) ]} : obj) !! k
  = own_props q !! k.
Proof.
  intros Hk. rewrite lookup_union, lookup_singleton_ne by done.
  by destruct (own_props q !! k).
Qed.

Lemma stored_questions_numbered (qs : list json) :
  numbered qs (List.map persist_obj (number_questions qs)).
Proof.
  split; [rewrite length_map; apply length_imap|]. split.
  - intros index q Hq.
    exists (persist_obj
              (own_props q ∪ {[ "id" := JStr (pretty (index + 1)) ]})).
    split.
    { change (List.map persist_obj (number_questions qs))
        with (persist_obj <$> number_questions qs).
      unfold number_questions.
      by rewrite list_lookup_fmap, list_lookup_imap, Hq. }
    split.
    + by rewrite lookup_persist_obj, lookup_id_spread.
    + intros k Hk. by rewrite lookup_persist_obj, lookup_spread_other.
  - intros Hnone. apply list_eq. intros i.
    change (List.map persist_obj (number_questions qs))
      with (persist_obj <$> number_questions qs).
    change (List.map (fun o : obj => o !! "id")
              (persist_obj <$> number_questions qs))
      with ((fun o : obj => o !! "id") <$> (persist_obj <$> number_questions qs)).
    change (List.map (fun n : nat => Some (JStr (pretty n)))
              (seq 1 (List.length qs)))
      with ((fun n : nat => Some (JStr (pretty n))) <$> seq 1 (List.length qs)).
    unfold number_questions.
    rewrite !list_lookup_fmap, list_lookup_imap.
    destruct (qs !! i) as [q|] eqn:Hq; simpl.
    + rewrite lookup_seq_lt by (by eapply lookup_lt_Some). simpl.
      rewrite lookup_persist_obj, lookup_id_spread. unfold stored_id.
      rewrite Forall_lookup in Hnone. rewrite (Hnone i q Hq). simpl.
      by rewrite Nat.add_comm.
    + rewrite lookup_seq_ge; [done|]. by apply lookup_ge_None.
Qed.

Section TestAdminFacts.

Variable parseInt : value -> number.

Lemma fields_present_questions (body : obj) (qs : list json) :
  test_fields_missing body = false ->
  body !! "questions" = Some (JArr qs) ->
  qs <> [].
Proof.
  unfold test_fields_missing. intros H Hq ->. rewrite Hq in H.
  change (truthy (length_of (Some (JArr [])))) with false in H.
  rewrite orb_true_r in H. discriminate.
Qed.

Lemma create_test_ok_inv (now : Z) (auth : Bearer) (body : obj)
    (st st' : Store) (t : TestDoc) :
  create_test parseInt now auth body st = (st', Ok t) ->
  exists qs,
    body !! "questions" = Some (JArr qs)
    /\ qs <> []
    /\ tests st' = tests st ++ [t]
    /\ test_questions t = List.map persist_obj (number_questions qs).
Proof.
  unfold create_test, authenticateToken, requireAdmin.
  intros H. repeat case_match; simplify_eq; simpl in *.
  eexists. repeat split; try reflexivity.
  by eapply fields_present_questions.
Qed.

Lemma update_test_ok_inv (now : Z) (auth : Bearer) (testId : string)
    (body : obj) (st st' : Store) (t : TestDoc) :
  update_test parseInt now auth testId body st = (st', Ok (Some t)) ->
  exists qs testIndex,
    body !! "questions" = Some (JArr qs)
    /\ qs <> []
    /\ tests st' !! testIndex = Some t
    /\ test_questions t = List.map persist_obj (number_questions qs).
Proof.
  unfold update_test, authenticateToken, requireAdmin.
  intros H. repeat case_match; simplify_eq; simpl in *.
  match goal with Hl : alter _ ?i _ !! ?i = Some t |- _ =>
    pose proof Hl as Hin; rewrite list_lookup_alter in Hin;
    destruct (tests st !! i) as [old|] eqn:Hold; simpl in Hin;
    case_decide; simplify_eq; simpl in *
  end.
  eexists _, _. repeat split; try eassumption; try reflexivity.
  by eapply fields_present_questions.
Qed.

(** C2, as the handlers have it: the test stored by a successful
    create or update has one question document for each question of
    the request, in the order of the request. The document at position
    [index] (from 0) has the properties of the request's question, with
    their values as JSON writes them, and no others but [id]; its
    identifier is the [id] property of the request's question when it
    has one, and the string of [index + 1] otherwise, so the
    identifiers are "1" to "N" when no question of the request has an
    [id]. *)
Theorem stored_question_identifiers (now : Z) (auth : Bearer)
    (testId : string) (body : obj) (st st' : Store) (t : TestDoc) :
  (create_test parseInt now auth body st = (st', Ok t) ->
   exists qs, body !! "questions" = Some (JArr qs)
              /\ In t (tests st')
              /\ numbered qs (test_questions t))
  /\ (update_test parseInt now auth testId body st = (st', Ok (Some t)) ->
      exists qs, body !! "questions" = Some (JArr qs)
                 /\ In t (tests st')
                 /\ numbered qs (test_questions t)).
Proof.
  split; intros H.
  - apply create_test_ok_inv in H as (qs & Hq & _ & Ht & ->).
    exists qs. split; [done|]. split.
    + rewrite Ht. apply in_or_app. right. by left.
    + apply stored_questions_numbered.
  - apply update_test_ok_inv in H as (qs & i & Hq & _ & Ht & ->).
    exists qs. split; [done|]. split.
    + apply list_elem_of_In. by eapply list_elem_of_lookup_2.
    + apply stored_questions_numbered.
Qed.

(** A test that the two handlers store has at least one question. *)
Lemma stored_test_has_questions (now : Z) (auth : Bearer)
    (testId : string) (body : obj) (st st' : Store) (t : TestDoc) :
  create_test parseInt now auth body st = (st', Ok t)
  \/ update_test parseInt now auth testId body st = (st', Ok (Some t)) ->
  test_questions t <> [].
Proof.
  intros [H|H].
  - apply create_test_ok_inv in H as (qs & _ & Hne & _ & ->).
    unfold number_questions. destruct qs; [done|]. simpl. discriminate.
  - apply update_test_ok_inv in H as (qs & i & _ & Hne & _ & ->).
    unfold number_questions. destruct qs; [done|]. simpl. discriminate.
Qed.

End TestAdminFacts.

Lemma stored_question_identifiers_witness :
  (exists qs, test_request questions_with_id !! "questions" = Some (JArr qs)
              /\ In created_test
                   (tests (set_tests (store_with [four_questions])
                             [four_questions; created_test]))
              /\ numbered qs (test_questions created_test))
  /\ (exists qs, test_request questions_with_id !! "questions" = Some (JArr qs)
                 /\ In updated_test
                      (tests (set_tests (store_with [four_questions])
                                [updated_test]))
                 /\ numbered qs (test_questions updated_test)).
Proof.
  split.
  - apply (proj1 (stored_question_identifiers sample_parseInt 2500
                    (ValidToken administrator) "t4"
                    (test_request questions_with_id)
                    (store_with [four_questions])
                    (set_tests (store_with [four_questions])
                       [four_questions; created_test])
                    created_test)).
    vm_compute. reflexivity.
  - apply (proj2 (stored_question_identifiers sample_parseInt 2500
                    (ValidToken administrator) "t4"
                    (test_request questions_with_id)
                    (store_with [four_questions])
                    (set_tests (store_with [four_questions]) [updated_test])
                    updated_test)).
    vm_compute. reflexivity.
Defined.

(** C2 fails on the handlers: a question that arrives with the
    identifier "q-7" is stored under "q-7", not under "1", by the create
    and by the update handler alike. *)
Lemma client_identifier_is_kept :
  let ids (t : TestDoc) :=
    List.map (fun o : obj => o !! "id") (test_questions t) in
  (create_test sample_parseInt 2500 (ValidToken administrator)
     (test_request questions_with_id) (store_with [four_questions])).2
  = Ok created_test
  /\ (update_test sample_parseInt 2500 (ValidToken administrator) "t4"
        (test_request questions_with_id) (store_with [four_questions])).2
     = Ok (Some updated_test)
  /\ ids created_test = [Some (JStr "q-7"); Some (JStr "2")]
  /\ ids updated_test = [Some (JStr "q-7"); Some (JStr "2")]
  /\ ids created_test <> [Some (JStr "1"); Some (JStr "2")]
  /\ ids updated_test <> [Some (JStr "1"); Some (JStr "2")].
Proof. vm_compute. repeat split; discriminate. Qed.

(** ** The test as the learner receives it *)


(** What the learner receives of a question is what is stored, the
    correct option left out. *)
Lemma strip_question_keeps (q : obj) :
  strip_question q !! "id" = q !! "id"
  /\ strip_question q !! "question" = q !! "question"
  /\ strip_question q !! "options" = q !! "options".
Proof.
  unfold strip_question, literal. simpl.
  destruct (q !! "id"), (q !! "question"), (q !! "options");
    by simplify_map_eq.
Qed.



(** ** Deleting a direction *)

Lemma findIndex_Some {A} (f : A -> bool) (l : list A) :
  forall i, findIndex f l = Some i -> exists x, l !! i = Some x /\ f x = true.
Proof.
  induction l as [|y l IH]; intros i; simpl; [discriminate|].
  destruct (f y) eqn:Hf.
  - intros [= <-]. by exists y.
  - destruct (findIndex f l) as [j|]; simpl; [|discriminate].
    intros [= <-]. by apply IH.
Qed.

Lemma delete_unique_id (ds : list Direction) (i : nat) (d : Direction) :
  NoDup (List.map dir_id ds) ->
  ds !! i = Some d ->
  forall d', In d' (delete i ds) -> dir_id d' <> dir_id d.
Proof.
  intros Hnd Hi d' Hin Heq.
  apply list_elem_of_In, list_elem_of_lookup in Hin as [j Hj].
  assert (Hi' : List.map dir_id ds !! i = Some (dir_id d))
    by (change (List.map dir_id ds) with (dir_id <$> ds);
        by rewrite list_lookup_fmap, Hi).
  destruct (decide (j < i)) as [Hlt|Hge].
  - rewrite list_lookup_delete_lt in Hj by done.
    assert (Hj' : List.map dir_id ds !! j = Some (dir_id d))
      by (change (List.map dir_id ds) with (dir_id <$> ds);
          by rewrite list_lookup_fmap, Hj, <- Heq).
    pose proof (NoDup_lookup _ _ _ _ Hnd Hi' Hj'). lia.
  - rewrite list_lookup_delete_ge in Hj by lia.
    assert (Hj' : List.map dir_id ds !! S j = Some (dir_id d))
      by (change (List.map dir_id ds) with (dir_id <$> ds);
          by rewrite list_lookup_fmap, Hj, <- Heq).
    pose proof (NoDup_lookup _ _ _ _ Hnd Hi' Hj'). lia.
Qed.

(** C7: for an administrator and a direction of the collection, the
    delete handler refuses with a 400 reply (in use by accounts, or in
    use by tests) and leaves the store as it is when an account or a
    test references the direction; otherwise it succeeds and removes the
    document found from the collection, which the listing then returns
    without it; the identifiers being distinct, no document with the
    identifier remains. *)
Theorem delete_direction_guard (user : Claims) (directionId : string)
    (st : Store) (directionIndex : nat) :
  isAdmin user = true ->
  findIndex (fun d => String.eqb (dir_id d) directionId) (directions st)
  = Some directionIndex ->
  (direction_in_use directionId st = true ->
   exists message,
     delete_direction (ValidToken user) directionId st = (st, Err 400 message)
     /\ (message = msg_used_by_users \/ message = msg_used_by_tests))
  /\ (direction_in_use directionId st = false ->
      exists st' message,
        delete_direction (ValidToken user) directionId st = (st', Ok message)
        /\ directions st' = delete directionIndex (directions st)
        /\ S (List.length (directions st')) = List.length (directions st)
        /\ (get_directions st').2 = Ok (directions st')
        /\ (NoDup (List.map dir_id (directions st)) ->
            forall d, In d (directions st') -> dir_id d <> directionId)).
Proof.
  intros Hadmin Hfind. unfold direction_in_use, delete_direction,
    authenticateToken, requireAdmin.
  rewrite Hadmin, Hfind. simpl. split.
  - intros Huse. apply orb_true_iff in Huse as [Hu|Ht].
    + rewrite Hu. eexists. split; [reflexivity|by left].
    + rewrite Ht. destruct (List.existsb _ (users st));
        eexists; (split; [reflexivity|]); [by left|by right].
  - intros Hfree. apply orb_false_iff in Hfree as [-> ->].
    apply findIndex_Some in Hfind as (d & Hd & Hid).
    apply String.eqb_eq in Hid.
    eexists _, _. split; [reflexivity|]. simpl. split; [done|].
    split; [|split; [done|]].
    + rewrite length_delete by (by eexists).
      apply lookup_lt_Some in Hd. lia.
    + intros Hnd d' Hin. rewrite <- Hid. by eapply delete_unique_id.
Qed.

Lemma delete_direction_guard_witness :
  (exists message,
     delete_direction (ValidToken administrator) "1"
       (store_with [four_questions])
     = (store_with [four_questions], Err 400 message)
     /\ (message = msg_used_by_users \/ message = msg_used_by_tests))
  /\ (exists st' message,
        delete_direction (ValidToken administrator) "5"
          (store_with [four_questions])
        = (st', Ok message)
        /\ directions st' = delete 4 (directions (store_with [four_questions]))
        /\ S (List.length (directions st'))
           = List.length (directions (store_with [four_questions]))
        /\ (get_directions st').2 = Ok (directions st')
        /\ (NoDup (List.map dir_id (directions (store_with [four_questions]))) ->
            forall d, In d (directions st') -> dir_id d <> "5")).
Proof.
  split.
  - apply (proj1 (delete_direction_guard administrator "1"
                    (store_with [four_questions]) 0 eq_refl eq_refl)).
    vm_compute. reflexivity.
  - apply (proj2 (delete_direction_guard administrator "5"
                    (store_with [four_questions]) 4 eq_refl eq_refl)).
    vm_compute. reflexivity.
Defined.

(** The identifiers of the default directions are distinct, and after
    the deletion of "5" the listing has the other four. *)
Example delete_fifth_direction :
  NoDup (List.map dir_id default_directions)
  /\ List.map dir_id
       (directions
          (delete_direction (ValidToken administrator) "5"
             (store_with [four_questions])).1)
     = ["1"; "2"; "3"; "4"].
Proof.
  split; [|vm_compute; reflexivity].
  apply (bool_decide_unpack _). vm_compute. reflexivity.
Qed.

(** ** Verification codes *)

Lemma verify_code_checked (now : Z) (body : obj) (st : Store) :
  truthy (body !! "telegram") = true ->
  truthy (body !! "code") = true ->
  verify_code now body st
  = match List.find
            (fun v => matches (body !! "telegram") (body !! "code") v
                      && (now <? ver_expiresAt v)%Z)
            (verifications st) with
    | None => (st, Err 400 msg_invalid_or_expired)
    | Some _ =>
        (set_verifications st
           (List.filter
              (fun v => negb (matches (body !! "telegram") (body !! "code") v))
              (verifications st)),
         Ok "Kod tasdiqlandi")
    end.
Proof. intros Ht Hc. unfold verify_code. by rewrite Ht, Hc. Qed.

(** C8: for a request that names an identity and a code, the verify
    handler succeeds exactly when a stored entry matches both and the
    current time is before its expiry, and otherwise refuses with the
    400 reply InvalidOrExpired and leaves the entries alone; so it
    refuses when every matching entry has its expiry at or before the
    current time. A success removes the matching entries, and the same
    request is refused with InvalidOrExpired from then on. *)
Theorem verify_code_single_use (now : Z) (body : obj) (st : Store) :
  truthy (body !! "telegram") = true ->
  truthy (body !! "code") = true ->
  ((exists st' message, verify_code now body st = (st', Ok message))
   <-> exists v, In v (verifications st)
                 /\ usable now (body !! "telegram") (body !! "code") v)
  /\ ((exists st' message, verify_code now body st = (st', Ok message))
      \/ verify_code now body st = (st, Err 400 msg_invalid_or_expired))
  /\ ((forall v, In v (verifications st) ->
                 matches (body !! "telegram") (body !! "code") v = true ->
                 (ver_expiresAt v <= now)%Z) ->
      verify_code now body st = (st, Err 400 msg_invalid_or_expired))
  /\ (forall st' message,
        verify_code now body st = (st', Ok message) ->
        (forall v, In v (verifications st') ->
                   In v (verifications st)
                   /\ matches (body !! "telegram") (body !! "code") v = false)
        /\ forall now',
             verify_code now' body st'
             = (st', Err 400 msg_invalid_or_expired)).
Proof.
  intros Ht Hc. rewrite (verify_code_checked now body st Ht Hc).
  destruct (List.find _ (verifications st)) as [v|] eqn:Hfind.
  - apply find_some in Hfind as [Hin Hv].
    apply andb_true_iff in Hv as [Hm Hlt]. apply Z.ltb_lt in Hlt.
    split; [|split; [|split]].
    + split; [intros _; by exists v|intros _; by eexists _, _].
    + left. by eexists _, _.
    + intros Hexp. specialize (Hexp v Hin Hm). lia.
    + intros st' message [= <- <-]. split.
      * intros w Hw. simpl in Hw. apply filter_In in Hw as [Hw Hn].
        split; [done|]. by apply negb_true_iff.
      * intros now'. rewrite (verify_code_checked now' body _ Ht Hc).
        match goal with |- context [List.find ?f ?l] =>
          destruct (List.find f l) as [w|] eqn:Hw end; [|done].
        apply find_some in Hw as [Hw Hp]. simpl in Hw.
        apply filter_In in Hw as [_ Hn].
        apply andb_true_iff in Hp as [Hp _].
        rewrite Hp in Hn. discriminate.
  - split; [|split; [|split]].
    + split.
      * intros (st' & message & [=]).
      * intros (v & Hin & Hm & Hlt).
        eapply find_none in Hfind; [|exact Hin]. simpl in Hfind.
        apply Z.ltb_lt in Hlt. rewrite Hm, Hlt in Hfind. discriminate.
    + by right.
    + done.
    + intros st' message [=].
Qed.

Lemma verify_code_single_use_witness :
  ((exists st' message, verify_code 2000 code_request issued = (st', Ok message))
   <-> exists v, In v (verifications issued)
                 /\ usable 2000 (code_request !! "telegram")
                      (code_request !! "code") v)
  /\ ((exists st' message,
         verify_code 2000 code_request issued = (st', Ok message))
      \/ verify_code 2000 code_request issued
         = (issued, Err 400 msg_invalid_or_expired))
  /\ ((forall v, In v (verifications issued) ->
                 matches (code_request !! "telegram")
                   (code_request !! "code") v = true ->
                 (ver_expiresAt v <= 2000)%Z) ->
      verify_code 2000 code_request issued
      = (issued, Err 400 msg_invalid_or_expired))
  /\ (forall st' message,
        verify_code 2000 code_request issued = (st', Ok message) ->
        (forall v, In v (verifications st') ->
                   In v (verifications issued)
                   /\ matches (code_request !! "telegram")
                        (code_request !! "code") v = false)
        /\ forall now',
             verify_code now' code_request st'
             = (st', Err 400 msg_invalid_or_expired)).
Proof.
  apply (verify_code_single_use 2000 code_request issued);
    vm_compute; reflexivity.
Defined.

(** A code issued at 1000 expires at 301000: it is accepted once
    before, refused when used again, and refused at its expiry. *)
Example code_issued_then_used :
  (verify_code 300999 code_request issued).2 = Ok "Kod tasdiqlandi"
  /\ (verify_code 300999 code_request
        (verify_code 300999 code_request issued).1).2
     = Err 400 msg_invalid_or_expired
  /\ verify_code 301000 code_request issued
     = (issued, Err 400 msg_invalid_or_expired)
  /\ (verify_code 2000 (<["code" := JStr "000000"]> code_request) issued).2
     = Err 400 msg_invalid_or_expired.
Proof. vm_compute. repeat split. Qed.

(** ** The tests a user is offered *)

(** C9: for a token whose subject is a stored account, the listing
    replies with tests of the catalogue; for an account that is not an
    administrator these are the tests whose direction is strictly equal
    to the direction of the account, so each returned test has that
    direction; for an administrator they are all the tests. *)
Theorem get_tests_by_direction (requester : Claims) (st : Store)
    (user : User) :
  List.find (fun u => String.eqb (user_id u) (userId requester)) (users st)
  = Some user ->
  exists listed,
    get_tests (ValidToken requester) st = (st, Ok listed)
    /\ (user_isAdmin user = false ->
        List.map tws_test listed
        = List.filter
            (fun t => strict_eq (test_direction t) (user_direction user))
            (tests st)
        /\ forall t, In t listed ->
             In (tws_test t) (tests st)
             /\ strict_eq (test_direction (tws_test t)) (user_direction user)
                = true)
    /\ (user_isAdmin user = true -> List.map tws_test listed = tests st).
Proof.
  intros Hfind. unfold get_tests, authenticateToken. rewrite Hfind.
  eexists. split; [reflexivity|]. split.
  - intros ->. simpl. rewrite List.map_map. simpl. rewrite List.map_id.
    split; [done|]. intros t Ht.
    apply in_map_iff in Ht as (t0 & <- & Ht0). simpl.
    by apply filter_In in Ht0.
  - intros ->. simpl. rewrite List.map_map. simpl. apply List.map_id.
Qed.

Lemma get_tests_by_direction_witness :
  exists listed,
    get_tests (ValidToken learner) mixed_store = (mixed_store, Ok listed)
    /\ (user_isAdmin (sample_user "7" "1" false) = false ->
        List.map tws_test listed
        = List.filter
            (fun t => strict_eq (test_direction t)
                        (user_direction (sample_user "7" "1" false)))
            (tests mixed_store)
        /\ forall t, In t listed ->
             In (tws_test t) (tests mixed_store)
             /\ strict_eq (test_direction (tws_test t))
                  (user_direction (sample_user "7" "1" false))
                = true)
    /\ (user_isAdmin (sample_user "7" "1" false) = true ->
        List.map tws_test listed = tests mixed_store).
Proof.
  apply (get_tests_by_direction learner mixed_store
           (sample_user "7" "1" false)).
  vm_compute. reflexivity.
Defined.

(** The learner of the direction "1" is offered the test of that
    direction only, the administrator both tests. *)
Example listing_by_role :
  (get_tests (ValidToken learner) mixed_store).2
  = Ok [ {| tws_test := four_questions; tws_completed := false |} ]
  /\ (get_tests (ValidToken administrator) mixed_store).2
     = Ok [ {| tws_test := four_questions; tws_completed := false |};
            {| tws_test := design_test; tws_completed := false |} ].
Proof. vm_compute. repeat split. Qed.

(** ** Sequences of requests: what no request does *)

Lemma perform_respond (parseInt : value -> number) (st : Store) (c : Call) :
  perform parseInt st c = (respond parseInt st c).1.
Proof. by destruct c. Qed.

Lemma run_snoc (parseInt : value -> number) (calls : list Call) (c : Call)
    (st : Store) :
  run parseInt (calls ++ [c]) st
  = perform parseInt (run parseInt calls st) c.
Proof. unfold run. by rewrite fold_left_app. Qed.

(** An induction principle for the stores reached by requests. *)
Lemma run_invariant (parseInt : value -> number) (P : Store -> Prop) :
  (forall st c, P st -> P (perform parseInt st c)) ->
  forall calls st, P st -> P (run parseInt calls st).
Proof.
  intros Hstep calls. unfold run.
  induction calls as [|c calls IH]; intros st Hst; simpl; [done|].
  apply IH. by apply Hstep.
Qed.



Ltac unchanged_list :=
  exists []; rewrite app_nil_r; handler_cases.

Lemma perform_appends (parseInt : value -> number) (st : Store) (c : Call) :
  (exists us, users (perform parseInt st c) = users st ++ us)
  /\ (exists rs, results (perform parseInt st c) = results st ++ rs).
Proof.
  split.
  - destruct c; simpl.
    + unfold send_verification. unchanged_list.
    + unfold verify_code. unchanged_list.
    + unfold register. repeat case_match; simpl;
        first [ exists []; rewrite app_nil_r; reflexivity
              | eexists; reflexivity ].
    + unfold submit_test. unchanged_list.
    + unfold create_test. unchanged_list.
    + unfold update_test. unchanged_list.
    + unfold delete_test. unchanged_list.
    + unfold add_direction. unchanged_list.
    + unfold delete_direction. unchanged_list.
  - destruct c; simpl.
    + unfold send_verification. unchanged_list.
    + unfold verify_code. unchanged_list.
    + unfold register. unchanged_list.
    + destruct (submit_test_store now auth body st) as [-> | [r ->]]; simpl;
        first [ exists []; rewrite app_nil_r; reflexivity
              | eexists; reflexivity ].
    + unfold create_test. unchanged_list.
    + unfold update_test. unchanged_list.
    + unfold delete_test. unchanged_list.
    + unfold add_direction. unchanged_list.
    + unfold delete_direction. unchanged_list.
Qed.

Lemma run_appends (parseInt : value -> number) (calls : list Call)
    (st : Store) :
  (exists us, users (run parseInt calls st) = users st ++ us)
  /\ (exists rs, results (run parseInt calls st) = results st ++ rs).
Proof.
  apply (run_invariant parseInt
           (fun st' => (exists us, users st' = users st ++ us)
                       /\ (exists rs, results st' = results st ++ rs))).
  - intros st' c [[us Hus] [rs Hrs]].
    destruct (perform_appends parseInt st' c) as [[us' Hus'] [rs' Hrs']].
    split.
    + exists (us ++ us'). by rewrite Hus', Hus, app_assoc.
    + exists (rs ++ rs'). by rewrite Hrs', Hrs, app_assoc.
  - split; exists []; by rewrite app_nil_r.
Qed.

(** Accounts and results are only ever appended: after any sequence of
    requests the accounts and the results stored before are still
    there, unchanged and in their places, before the new ones. *)
Theorem accounts_and_results_append_only (parseInt : value -> number)
    (calls : list Call) (st : Store) :
  (exists us, users (run parseInt calls st) = users st ++ us)
  /\ (exists rs, results (run parseInt calls st) = results st ++ rs).
Proof. apply run_appends. Qed.

(** ** Lists without clashes *)

Lemma pairwise_snoc {A} (clash : A -> A -> bool) (l : list A) (x : A) :
  pairwise clash (l ++ [x])
  = pairwise clash l && negb (List.existsb (fun y => clash y x) l).
Proof.
  induction l as [|a l IH]; simpl; [done|].
  rewrite existsb_app, IH. simpl. rewrite orb_false_r.
  destruct (List.existsb (clash a) l), (clash a x), (pairwise clash l),
    (List.existsb (fun y => clash y x) l); reflexivity.
Qed.

Lemma existsb_delete {A} (f : A -> bool) (l : list A) :
  forall i, List.existsb f l = false -> List.existsb f (delete i l) = false.
Proof.
  induction l as [|a l IH]; intros [|i]; simpl; try done.
  - intros H. by apply orb_false_elim in H as [_ ?].
  - intros H. apply orb_false_elim in H as [-> H]. simpl. by apply IH.
Qed.

Lemma existsb_filter {A} (f g : A -> bool) (l : list A) :
  List.existsb f l = false -> List.existsb f (List.filter g l) = false.
Proof.
  induction l as [|a l IH]; simpl; [done|].
  intros H. apply orb_false_elim in H as [Ha H].
  destruct (g a); simpl; [rewrite Ha|]; by apply IH.
Qed.

Lemma existsb_filter_out {A} (f : A -> bool) (l : list A) :
  List.existsb f (List.filter (fun x => negb (f x)) l) = false.
Proof.
  induction l as [|a l IH]; simpl; [done|].
  destruct (f a) eqn:Ha; simpl; [done|]. by rewrite Ha.
Qed.

Lemma pairwise_delete {A} (clash : A -> A -> bool) (l : list A) :
  forall i, pairwise clash l = true -> pairwise clash (delete i l) = true.
Proof.
  induction l as [|a l IH]; intros [|i]; simpl; try done.
  - intros H. by apply andb_true_iff in H as [_ ?].
  - intros H. apply andb_true_iff in H as [Ha H].
    apply negb_true_iff in Ha.
    rewrite (existsb_delete _ _ i Ha). simpl. by apply IH.
Qed.

Lemma pairwise_filter {A} (clash : A -> A -> bool) (g : A -> bool)
    (l : list A) :
  pairwise clash l = true -> pairwise clash (List.filter g l) = true.
Proof.
  induction l as [|a l IH]; simpl; [done|].
  intros H. apply andb_true_iff in H as [Ha H]. apply negb_true_iff in Ha.
  destruct (g a); simpl; [|by apply IH].
  rewrite (existsb_filter _ g _ Ha). simpl. by apply IH.
Qed.

(** [pairwise clash l] says that no element clashes with a later one. *)
Lemma pairwise_spec {A} (clash : A -> A -> bool) (l : list A) :
  pairwise clash l = true
  <-> forall i j x y,
        i < j -> l !! i = Some x -> l !! j = Some y -> clash x y = false.
Proof.
  induction l as [|a l IH]; simpl.
  - split; [|done]. intros _ i j x y _ Hx. by destruct i.
  - rewrite andb_true_iff, negb_true_iff, IH. split.
    + intros [Ha Hl] [|i] [|j] x y Hij Hx Hy; simpl in *; try lia.
      * simplify_eq. apply list_elem_of_lookup_2, list_elem_of_In in Hy.
        destruct (clash x y) eqn:Hc; [|done].
        assert (List.existsb (clash x) l = true)
          by (apply existsb_exists; eauto).
        congruence.
      * eapply Hl; [|done..]. lia.
    + intros H. split.
      * destruct (List.existsb (clash a) l) eqn:He; [|done].
        apply existsb_exists in He as (y & Hy & Hc).
        apply list_elem_of_In, list_elem_of_lookup in Hy as [j Hj].
        rewrite (H 0 (S j) a y) in Hc; [done|lia|done|done].
      * intros i j x y Hij Hx Hy. apply (H (S i) (S j)); [lia|done..].
Qed.

Lemma existsb_false_in {A} (f : A -> bool) (l : list A) (x : A) :
  List.existsb f l = false -> In x l -> f x = false.
Proof.
  intros H Hx. destruct (f x) eqn:Hf; [|done].
  assert (List.existsb f l = true) by (apply existsb_exists; eauto).
  congruence.
Qed.


Lemma existsb_weaken {A} (f g : A -> bool) (l : list A) :
  (forall x, g x = true -> f x = true) ->
  List.existsb f l = false -> List.existsb g l = false.
Proof.
  intros Hgf Hl. destruct (List.existsb g l) eqn:Hg; [|done].
  apply existsb_exists in Hg as (x & Hx & Hgx).
  pose proof (Hgf x Hgx) as Hfx.
  rewrite (existsb_false_in f l x Hl Hx) in Hfx. discriminate.
Qed.


Lemma existsb_none {A} (f : A -> bool) (l : list A) :
  (forall x, In x l -> f x = false) -> List.existsb f l = false.
Proof.
  intros H. destruct (List.existsb f l) eqn:He; [|done].
  apply existsb_exists in He as (x & Hx & Hf). rewrite H in Hf; done.
Qed.


Lemma find_app_first {A} (f : A -> bool) (l1 l2 : list A) (x : A) :
  List.existsb f l1 = false -> f x = true ->
  List.find f (l1 ++ x :: l2) = Some x.
Proof.
  intros Hl Hx. induction l1 as [|a l1 IH]; simpl in *; [by rewrite Hx|].
  apply orb_false_elim in Hl as [-> Hl]. by apply IH.
Qed.


Lemma find_app_last {A} (f : A -> bool) (l : list A) (x : A) :
  List.existsb f l = false ->
  List.find f (l ++ [x]) = if f x then Some x else None.
Proof.
  intros Hl. induction l as [|a l IH]; simpl in *; [done|].
  apply orb_false_elim in Hl as [-> Hl]. by apply IH.
Qed.


Lemma existsb_app_in {A} (f : A -> bool) (l1 l2 : list A) (x : A) :
  f x = true -> List.existsb f (l1 ++ x :: l2) = true.
Proof.
  intros Hx. rewrite existsb_app. simpl. rewrite Hx.
  by rewrite orb_true_r.
Qed.


(** A value that a stored direction is found by is a string, which is
    written to the data file as it is. *)
Lemma find_direction_str (direction : value) (ds : list Direction)
    (d : Direction) :
  find_direction direction ds = Some d -> persist_value direction = direction.
Proof.
  unfold find_direction. intros Hfind.
  apply find_some in Hfind as [_ Heq].
  by destruct direction as [[]|].
Qed.

(** A stored name that is not [null] and equals what a value is written
    as equals the value. *)
Lemma same_value_persist (a v : value) :
  same_value a (persist_value v) = true -> strict_eq a v = true.
Proof.
  unfold same_value. intros [Heq Hnull]%andb_true_iff.
  destruct v as [[| |[]| | |]|], a as [[| |[]| | |]|];
    simpl in *; try done.
Qed.


Lemma registration_check (body : obj) :
  negb (truthy (body !! "firstName")) || negb (truthy (body !! "lastName"))
  || negb (truthy (body !! "direction")) || negb (truthy (body !! "phone"))
  || negb (truthy (body !! "telegram")) || negb (truthy (body !! "login"))
  || negb (truthy (body !! "password"))
  = negb (registration_complete body).
Proof.
  unfold registration_complete.
  destruct (truthy (body !! "firstName")), (truthy (body !! "lastName")),
    (truthy (body !! "direction")), (truthy (body !! "phone")),
    (truthy (body !! "telegram")), (truthy (body !! "login")),
    (truthy (body !! "password")); reflexivity.
Qed.


(** What a successful registration has gone through, and the account
    that it appends. *)
Lemma register_ok_inv (now : Z) (hashed : option string) (body : obj)
    (st st1 : Store) (message : string) :
  register now hashed body st = (st1, Ok message) ->
  exists pw selectedDirection,
    hashed = Some pw
    /\ registration_complete body = true
    /\ List.existsb (fun u => strict_eq (user_login u) (body !! "login"))
         (users st) = false
    /\ List.existsb (fun u => strict_eq (user_telegram u) (body !! "telegram"))
         (users st) = false
    /\ find_direction (body !! "direction") (directions st)
       = Some selectedDirection
    /\ st1 = set_users st
               (users st
                ++ [ {| user_id := pretty now;
                        user_firstName := persist_value (body !! "firstName");
                        user_lastName := persist_value (body !! "lastName");
                        user_direction := body !! "direction";
                        user_directionName := dir_name selectedDirection;
                        user_phone := persist_value (body !! "phone");
                        user_telegram := persist_value (body !! "telegram");
                        user_login := persist_value (body !! "login");
                        user_password := pw;
                        user_isAdmin := false;
                        user_createdAt := now |} ]).
Proof.
  unfold register. rewrite registration_check.
  destruct (registration_complete body); simpl; [|discriminate].
  destruct (List.existsb _ (users st)) eqn:Hl; [discriminate|].
  destruct (List.existsb _ (users st)) eqn:Ht in |- *; [discriminate|].
  destruct (find_direction _ _) as [d|] eqn:Hd; [|discriminate].
  destruct hashed as [pw|]; [|discriminate].
  intros [= <- _]. exists pw, d.
  by rewrite (find_direction_str _ _ _ Hd).
Qed.


Lemma send_verification_store (now rnd : Z) (codeSent : bool) (body : obj)
    (st : Store) :
  (send_verification now rnd codeSent body st).1
  = if negb (truthy (body !! "telegram")) then st
    else set_verifications st
           (List.filter
              (fun v => negb (strict_eq (ver_telegram v) (body !! "telegram")))
              (verifications st)
            ++ [ {| ver_telegram := persist_value (body !! "telegram");
                    ver_code := pretty rnd;
                    ver_createdAt := now;
                    ver_expiresAt := (now + 5 * 60 * 1000)%Z |} ]).
Proof.
  unfold send_verification.
  by destruct (negb (truthy (body !! "telegram"))).
Qed.


Lemma findIndex_exists {A} (f : A -> bool) (l : list A) (x : A) :
  In x l -> f x = true -> is_Some (findIndex f l).
Proof.
  induction l as [|a l IH]; simpl; [done|].
  intros [->|Hin] Hx.
  - rewrite Hx. by eexists.
  - destruct (f a); [by eexists|].
    destruct (IH Hin Hx) as [i ->]. by eexists.
Qed.


Lemma findIndex_app_last {A} (f : A -> bool) (l : list A) (x : A) :
  List.existsb f l = false -> f x = true ->
  findIndex f (l ++ [x]) = Some (List.length l).
Proof.
  intros Hl Hx. induction l as [|a l IH]; simpl in *; [by rewrite Hx|].
  apply orb_false_elim in Hl as [-> Hl]. by rewrite IH.
Qed.


(** ** One result for each account and test *)

Lemma find_test_str (testId : value) (ts : list TestDoc) (t : TestDoc) :
  find_test testId ts = Some t -> testId = Some (JStr (test_id t)).
Proof.
  unfold find_test. intros H. apply find_some in H as [_ H].
  by apply strict_eq_str_inv.
Qed.

Lemma perform_keeps_attempts (parseInt : value -> number) (st : Store)
    (c : Call) :
  pairwise same_attempt (results st) = true ->
  pairwise same_attempt (results (perform parseInt st c)) = true.
Proof.
  intros Hinv. destruct c; simpl.
  - unfold send_verification. handler_cases.
  - unfold verify_code. handler_cases.
  - unfold register. handler_cases.
  - unfold submit_test, authenticateToken. repeat case_match; simpl; auto.
    rewrite pairwise_snoc, Hinv. simpl. apply negb_true_iff.
    match goal with H : existingResult _ _ _ = None |- _ =>
      unfold existingResult in H;
      destruct (List.existsb _ (results st)) eqn:He; [|done];
      apply existsb_exists in He as (r & Hr & Hc);
      eapply find_none in H; [|exact Hr]
    end.
    match goal with Ht : find_test _ _ = Some _ |- _ =>
      apply find_test_str in Ht; rewrite Ht in * end.
    unfold same_attempt in Hc. simpl in *. congruence.
  - unfold create_test. handler_cases.
  - unfold update_test. handler_cases.
  - unfold delete_test. handler_cases.
  - unfold add_direction. handler_cases.
  - unfold delete_direction. handler_cases.
Qed.

(** The store never holds two results of one account for one test: the
    property is kept by every sequence of requests served one after the
    other. *)
Theorem one_result_per_account_and_test (parseInt : value -> number)
    (calls : list Call) (st : Store) :
  pairwise same_attempt (results st) = true ->
  pairwise same_attempt (results (run parseInt calls st)) = true.
Proof.
  apply (run_invariant parseInt
           (fun st => pairwise same_attempt (results st) = true)).
  intros st' c. apply perform_keeps_attempts.
Qed.

Lemma one_result_per_account_and_test_witness :
  pairwise same_attempt
    (results (run sample_parseInt busy_day mixed_store)) = true.
Proof.
  apply (one_result_per_account_and_test sample_parseInt busy_day mixed_store).
  reflexivity.
Defined.

(** ** Stored results agree with themselves *)

Lemma count_correct_le (qrs : list QuestionResult) :
  count_correct qrs <= List.length qrs.
Proof. unfold count_correct. apply List.filter_length_le. Qed.

Lemma newResult_coherent (now : Z) (user : Claims) (testId timeSpent : value)
    (test : TestDoc) (answers : value) :
  result_coherent
    (newResult now user testId timeSpent test
       (grade answers (test_questions test) 0 0)) = true.
Proof.
  unfold result_coherent, newResult. simpl.
  rewrite count_correct_persist, length_map.
  rewrite grade_score, grade_length. simpl.
  rewrite Nat.eqb_refl. simpl.
  pose proof (count_correct_le (grade answers (test_questions test) 0 0).2)
    as Hle.
  rewrite grade_length in Hle.
  rewrite Nat.eqb_refl. simpl. by apply Nat.leb_le.
Qed.

Lemma perform_keeps_coherent (parseInt : value -> number) (st : Store)
    (c : Call) :
  List.forallb result_coherent (results st) = true ->
  List.forallb result_coherent (results (perform parseInt st c)) = true.
Proof.
  intros Hinv. destruct c; simpl.
  - unfold send_verification. handler_cases.
  - unfold verify_code. handler_cases.
  - unfold register. handler_cases.
  - unfold submit_test, authenticateToken. repeat case_match; simpl; auto.
    rewrite forallb_app, Hinv. simpl.
    by rewrite newResult_coherent.
  - unfold create_test. handler_cases.
  - unfold update_test. handler_cases.
  - unfold delete_test. handler_cases.
  - unfold add_direction. handler_cases.
  - unfold delete_direction. handler_cases.
Qed.

(** Every result that the submit handler stores has one outcome for
    each question of the test, a score equal to the number of outcomes
    marked correct, and a score that does not exceed the number of
    questions; no later request changes that. *)
Theorem stored_results_coherent (parseInt : value -> number)
    (calls : list Call) (st : Store) :
  List.forallb result_coherent (results st) = true ->
  List.forallb result_coherent (results (run parseInt calls st)) = true.
Proof.
  apply (run_invariant parseInt
           (fun st => List.forallb result_coherent (results st) = true)).
  intros st' c. apply perform_keeps_coherent.
Qed.

Lemma stored_results_coherent_witness :
  List.forallb result_coherent
    (results (run sample_parseInt busy_day mixed_store)) = true.
Proof.
  apply (stored_results_coherent sample_parseInt busy_day mixed_store).
  reflexivity.
Defined.

(** ** Logins, telegram names and direction names stay unique *)

Lemma perform_keeps_logins (parseInt : value -> number) (st : Store)
    (c : Call) :
  pairwise same_login (users st) = true
  /\ pairwise same_telegram (users st) = true ->
  pairwise same_login (users (perform parseInt st c)) = true
  /\ pairwise same_telegram (users (perform parseInt st c)) = true.
Proof.
  intros [Hl Ht]. destruct c; simpl.
  - unfold send_verification. handler_cases.
  - unfold verify_code. handler_cases.
  - unfold register. repeat case_match; simpl; auto.
    rewrite !pairwise_snoc, Hl, Ht. simpl.
    unfold same_login, same_telegram. simpl.
    split; apply negb_true_iff.
    + apply (existsb_weaken
               (fun u => strict_eq (user_login u) (body !! "login")));
        [intros u; apply same_value_persist|assumption].
    + apply (existsb_weaken
               (fun u => strict_eq (user_telegram u) (body !! "telegram")));
        [intros u; apply same_value_persist|assumption].
  - unfold submit_test. handler_cases.
  - unfold create_test. handler_cases.
  - unfold update_test. handler_cases.
  - unfold delete_test. handler_cases.
  - unfold add_direction. handler_cases.
  - unfold delete_direction. handler_cases.
Qed.

(** No two accounts share a login and no two share a telegram name,
    [null] apart: among the stored accounts no two have strictly equal
    logins other than [null], and no two have strictly equal telegram
    names other than [null]. The register handler keeps both properties
    and no other request touches the accounts. [null] is what a number
    that is not finite is written as; the handler compares with the
    value as sent, so it never finds a stored [null] taken, see
    [null_logins_repeat]. Arrays and objects are never strictly equal. *)
Theorem logins_and_telegrams_unique (parseInt : value -> number)
    (calls : list Call) (st : Store) :
  pairwise same_login (users st) = true ->
  pairwise same_telegram (users st) = true ->
  pairwise same_login (users (run parseInt calls st)) = true
  /\ pairwise same_telegram (users (run parseInt calls st)) = true.
Proof.
  intros Hl Ht.
  apply (run_invariant parseInt
           (fun st => pairwise same_login (users st) = true
                      /\ pairwise same_telegram (users st) = true));
    [|done].
  intros st' c. apply perform_keeps_logins.
Qed.

Lemma logins_and_telegrams_unique_witness :
  pairwise same_login
    (users (run sample_parseInt busy_day (initial_store "$2a$10$admin" 0)))
  = true
  /\ pairwise same_telegram
       (users (run sample_parseInt busy_day (initial_store "$2a$10$admin" 0)))
     = true.
Proof.
  apply (logins_and_telegrams_unique sample_parseInt busy_day
           (initial_store "$2a$10$admin" 0));
    reflexivity.
Defined.

(** Two registrations whose login is a number too large for a double
    both succeed: the handler finds no stored login strictly equal to
    the number, and both accounts are stored with the login [null]. *)
Example null_logins_repeat :
  let infinite : json := JNum (S754_infinity false) in
  let body telegram : obj :=
    <["login" := infinite]> (registration "" telegram) in
  let first := register 5000 (Some "$2a$10$a") (body "@a") mixed_store in
  let second := register 5001 (Some "$2a$10$b") (body "@b") first.1 in
  first.2 = Ok "Ro'yxatdan o'tish muvaffaqiyatli"
  /\ second.2 = Ok "Ro'yxatdan o'tish muvaffaqiyatli"
  /\ List.map user_login (users second.1)
     = List.map user_login (users mixed_store) ++ [Some JNull; Some JNull].
Proof. vm_compute. repeat split. Qed.

Lemma perform_keeps_names (parseInt : value -> number) (st : Store)
    (c : Call) :
  pairwise same_name (directions st) = true ->
  pairwise same_name (directions (perform parseInt st c)) = true.
Proof.
  intros Hinv. destruct c; simpl.
  - unfold send_verification. handler_cases.
  - unfold verify_code. handler_cases.
  - unfold register. handler_cases.
  - unfold submit_test. handler_cases.
  - unfold create_test. handler_cases.
  - unfold update_test. handler_cases.
  - unfold delete_test. handler_cases.
  - unfold add_direction, authenticateToken, requireAdmin.
    repeat case_match; simpl; auto.
    rewrite pairwise_snoc, Hinv. simpl. unfold same_name. simpl.
    apply negb_true_iff.
    apply (existsb_weaken (fun d => strict_eq (dir_name d) (body !! "name")));
      [intros d; apply same_value_persist|assumption].
  - unfold delete_direction, authenticateToken, requireAdmin.
    repeat case_match; simpl; auto.
    by apply pairwise_delete.
Qed.

(** No two directions share a name, [null] apart: among the stored
    directions no two have strictly equal names other than [null].
    Adding refuses a name that is taken, deleting removes a document,
    and no other request touches the directions. A name that is a
    number that is not finite is stored as [null] and is not found
    taken, see [null_names_repeat]. *)
Theorem direction_names_unique (parseInt : value -> number)
    (calls : list Call) (st : Store) :
  pairwise same_name (directions st) = true ->
  pairwise same_name (directions (run parseInt calls st)) = true.
Proof.
  apply (run_invariant parseInt
           (fun st => pairwise same_name (directions st) = true)).
  intros st' c. apply perform_keeps_names.
Qed.

Lemma direction_names_unique_witness :
  pairwise same_name
    (directions (run sample_parseInt busy_day
                   (initial_store "$2a$10$admin" 0))) = true.
Proof.
  apply (direction_names_unique sample_parseInt busy_day
           (initial_store "$2a$10$admin" 0)).
  reflexivity.
Defined.

(** The same for two directions whose name is such a number. *)
Example null_names_repeat :
  let body : obj := {[ "name" := JNum (S754_infinity false) ]} in
  let first := add_direction 5000 (ValidToken administrator) body mixed_store in
  let second := add_direction 5001 (ValidToken administrator) body first.1 in
  List.map dir_name (directions second.1)
  = List.map dir_name (directions mixed_store) ++ [Some JNull; Some JNull].
Proof. vm_compute. reflexivity. Qed.

(** ** One verification entry for each identity *)

Lemma perform_keeps_identities (parseInt : value -> number) (st : Store)
    (c : Call) :
  pairwise same_identity (verifications st) = true ->
  pairwise same_identity (verifications (perform parseInt st c)) = true.
Proof.
  intros Hinv. destruct c; simpl.
  - rewrite send_verification_store. case_match; simpl; [done|].
    rewrite pairwise_snoc. apply andb_true_iff. split.
    + by apply pairwise_filter.
    + apply negb_true_iff. unfold same_identity. simpl.
      apply (existsb_weaken
               (fun v => strict_eq (ver_telegram v) (body !! "telegram")));
        [intros v; apply same_value_persist|].
      apply (existsb_filter_out
               (fun v => strict_eq (ver_telegram v) (body !! "telegram"))).
  - unfold verify_code. repeat case_match; simpl; auto.
    by apply pairwise_filter.
  - unfold register. handler_cases.
  - unfold submit_test. handler_cases.
  - unfold create_test. handler_cases.
  - unfold update_test. handler_cases.
  - unfold delete_test. handler_cases.
  - unfold add_direction. handler_cases.
  - unfold delete_direction. handler_cases.
Qed.

(** The verification file never holds two entries of one identity,
    [null] apart: no two entries have strictly equal telegram names
    other than [null]. Issuing a code discards the earlier entry of the
    identity, and a verification only removes entries. An identity that
    is a number that is not finite is stored as [null], which a later
    request with that number does not discard, see
    [null_identities_repeat]. *)
Theorem one_entry_per_identity (parseInt : value -> number)
    (calls : list Call) (st : Store) :
  pairwise same_identity (verifications st) = true ->
  pairwise same_identity (verifications (run parseInt calls st)) = true.
Proof.
  apply (run_invariant parseInt
           (fun st => pairwise same_identity (verifications st) = true)).
  intros st' c. apply perform_keeps_identities.
Qed.

Lemma one_entry_per_identity_witness :
  pairwise same_identity
    (verifications (run sample_parseInt busy_day issued)) = true.
Proof.
  apply (one_entry_per_identity sample_parseInt busy_day issued).
  reflexivity.
Defined.

(** A second code for an identity that is a number too large for a
    double does not discard the first entry: both are stored under
    [null]. *)
Example null_identities_repeat :
  let body : obj := {[ "telegram" := JNum (S754_infinity false) ]} in
  let first := send_verification 5000 111111 true body mixed_store in
  let second := send_verification 5001 222222 true body first.1 in
  List.map ver_telegram (verifications second.1) = [Some JNull; Some JNull].
Proof. vm_compute. reflexivity. Qed.

(** ** References to directions resolve *)

Lemma find_direction_known (direction : value) (ds : list Direction)
    (d : Direction) :
  find_direction direction ds = Some d -> direction_known ds direction = true.
Proof.
  unfold find_direction, direction_known. intros H.
  apply find_some in H as [Hin Hd]. apply existsb_exists. eauto.
Qed.

Lemma direction_known_app (ds more : list Direction) (direction : value) :
  direction_known ds direction = true ->
  direction_known (ds ++ more) direction = true.
Proof.
  unfold direction_known. intros H. by rewrite existsb_app, H.
Qed.

Lemma in_delete_other {A} (l : list A) (i : nat) (x y : A) :
  l !! i = Some x -> In y l -> y <> x -> In y (delete i l).
Proof.
  intros Hi Hy Hne.
  apply list_elem_of_In, list_elem_of_lookup in Hy as [j Hj].
  apply list_elem_of_In.
  destruct (decide (j < i)) as [Hlt|Hge].
  - apply (list_elem_of_lookup_2 _ j). by rewrite list_lookup_delete_lt.
  - assert (j <> i) by (intros ->; congruence).
    apply (list_elem_of_lookup_2 _ (j - 1)).
    rewrite list_lookup_delete_ge by lia.
    by replace (S (j - 1)) with j by lia.
Qed.

Lemma direction_known_delete (ds : list Direction) (directionId : string)
    (i : nat) (direction : value) :
  findIndex (fun d => String.eqb (dir_id d) directionId) ds = Some i ->
  strict_eq direction (Some (JStr directionId)) = false ->
  direction_known ds direction = true ->
  direction_known (delete i ds) direction = true.
Proof.
  intros Hi Hfree Hknown. unfold direction_known in *.
  apply existsb_exists in Hknown as (d & Hd & Heq).
  apply findIndex_Some in Hi as (x & Hx & Hid). apply String.eqb_eq in Hid.
  apply existsb_exists. exists d. split; [|done].
  eapply in_delete_other; [exact Hx|exact Hd|].
  intros ->. apply strict_eq_str_inv in Heq. subst direction.
  rewrite Hid, strict_eq_str_refl in Hfree. discriminate.
Qed.

Lemma forallb_delete {A} (p : A -> bool) (l : list A) :
  forall i, List.forallb p l = true -> List.forallb p (delete i l) = true.
Proof.
  induction l as [|a l IH]; intros [|i]; simpl; try done.
  - intros H. by apply andb_true_iff in H as [_ ?].
  - intros H. apply andb_true_iff in H as [-> H]. simpl. by apply IH.
Qed.

Lemma forallb_alter {A} (p : A -> bool) (f : A -> A) (l : list A) :
  (forall x, p (f x) = true) ->
  forall i, List.forallb p l = true -> List.forallb p (alter f i l) = true.
Proof.
  intros Hf. induction l as [|a l IH]; intros [|i]; simpl; try done.
  - intros H. apply andb_true_iff in H as [_ ->]. by rewrite Hf.
  - intros H. apply andb_true_iff in H as [-> H]. simpl. by apply IH.
Qed.

Lemma forallb_impl {A} (p q : A -> bool) (l : list A) :
  (forall x, In x l -> p x = true -> q x = true) ->
  List.forallb p l = true -> List.forallb q l = true.
Proof.
  intros Hpq H. apply forallb_forall. intros x Hx.
  apply Hpq; [done|]. by eapply forallb_forall in H.
Qed.

(** The direction that a handler has found is stored as it was sent. *)
Ltac stored_direction :=
  match goal with
  | H : find_direction _ _ = Some _ |- _ =>
      rewrite ?(find_direction_str _ _ _ H)
  end.

Lemma perform_keeps_references (parseInt : value -> number) (st : Store)
    (c : Call) :
  references_resolve st = true ->
  references_resolve (perform parseInt st c) = true.
Proof.
  unfold references_resolve. intros Hinv.
  pose proof Hinv as Hboth. apply andb_true_iff in Hboth as [Ht Hu].
  destruct c; simpl.
  - rewrite send_verification_store. by case_match.
  - unfold verify_code. handler_cases.
  - unfold register. repeat case_match; simpl; auto.
    rewrite Ht, forallb_app, Hu. simpl. stored_direction.
    by erewrite find_direction_known.
  - destruct (submit_test_store now auth body st) as [-> | [r ->]]; by simpl.
  - unfold create_test, authenticateToken, requireAdmin.
    repeat case_match; simpl; auto.
    rewrite forallb_app, Ht, Hu. simpl. stored_direction.
    by erewrite find_direction_known.
  - unfold update_test, authenticateToken, requireAdmin.
    repeat case_match; simpl; auto.
    rewrite Hu, andb_true_r. apply forallb_alter; [|done].
    intros x. simpl. stored_direction. by eapply find_direction_known.
  - unfold delete_test, authenticateToken, requireAdmin.
    repeat case_match; simpl; auto.
    rewrite Hu, andb_true_r. by apply forallb_delete.
  - unfold add_direction, authenticateToken, requireAdmin.
    repeat case_match; simpl; auto.
    apply andb_true_iff. split.
    + eapply forallb_impl; [|exact Ht]. intros t _.
      apply direction_known_app.
    + eapply forallb_impl; [|exact Hu]. intros u _ Hk.
      apply orb_true_iff in Hk as [->|Hk]; [done|].
      by rewrite direction_known_app, orb_true_r.
  - unfold delete_direction, authenticateToken, requireAdmin.
    repeat case_match; simpl; auto.
    apply andb_true_iff. split.
    + eapply forallb_impl; [|exact Ht]. intros t Hin Hk.
      eapply direction_known_delete; [eassumption| |done].
      match goal with He : List.existsb _ (tests st) = false |- _ =>
        apply (existsb_false_in _ _ t He Hin) end.
    + eapply forallb_impl; [|exact Hu]. intros u Hin Hk.
      apply orb_true_iff in Hk as [->|Hk]; [done|].
      erewrite direction_known_delete; [by rewrite orb_true_r|eassumption| |done].
      match goal with He : List.existsb _ (users st) = false |- _ =>
        apply (existsb_false_in _ _ u He Hin) end.
Qed.

(** Referential integrity: when every test and every account that is
    no administrator refers to a stored direction, the same holds after
    any sequence of requests. Registration and the test handlers check
    the direction they store, and a direction that is referred to is
    not deleted. *)
Theorem direction_references_resolve (parseInt : value -> number)
    (calls : list Call) (st : Store) :
  references_resolve st = true ->
  references_resolve (run parseInt calls st) = true.
Proof.
  apply (run_invariant parseInt (fun st => references_resolve st = true)).
  intros st' c. apply perform_keeps_references.
Qed.

Lemma direction_references_resolve_witness :
  references_resolve (run sample_parseInt busy_day mixed_store) = true.
Proof.
  apply (direction_references_resolve sample_parseInt busy_day mixed_store).
  reflexivity.
Defined.

(** All the properties above hold of every store that is reached from
    the files written by [initDataFiles] into an empty data directory:
    logins, telegram names, direction names and verification
    identities are unique, [null] apart; there is one result for each
    account and test; the results are coherent and the references to
    directions resolve. *)
Theorem reachable_store_consistent (parseInt : value -> number)
    (adminHash : string) (now : Z) (calls : list Call) :
  let st := run parseInt calls (initial_store adminHash now) in
  pairwise same_login (users st) = true
  /\ pairwise same_telegram (users st) = true
  /\ pairwise same_name (directions st) = true
  /\ pairwise same_attempt (results st) = true
  /\ pairwise same_identity (verifications st) = true
  /\ List.forallb result_coherent (results st) = true
  /\ references_resolve st = true.
Proof.
  apply (run_invariant parseInt
           (fun st =>
              pairwise same_login (users st) = true
              /\ pairwise same_telegram (users st) = true
              /\ pairwise same_name (directions st) = true
              /\ pairwise same_attempt (results st) = true
              /\ pairwise same_identity (verifications st) = true
              /\ List.forallb result_coherent (results st) = true
              /\ references_resolve st = true)).
  - intros st c (Hl & Ht & Hn & Ha & Hi & Hc & Hr).
    destruct (perform_keeps_logins parseInt st c (conj Hl Ht)) as [Hl' Ht'].
    repeat split; try done.
    + by apply perform_keeps_names.
    + by apply perform_keeps_attempts.
    + by apply perform_keeps_identities.
    + by apply perform_keeps_coherent.
    + by apply perform_keeps_references.
  - repeat split.
Qed.

(** ** Access control *)

(** A protected route answers 401 to a request without a token and 403
    to one with an invalid token; a route for administrators answers 403
    to the token of an account that is no administrator. In each case
    nothing is written. *)
Theorem protected_routes_refuse (parseInt : value -> number)
    (number_to_string : number -> string) (route : Protected) (st : Store) :
  serve parseInt number_to_string route NoToken st = (st, 401)
  /\ serve parseInt number_to_string route InvalidToken st = (st, 403)
  /\ forall user,
       needs_admin route = true -> isAdmin user = false ->
       serve parseInt number_to_string route (ValidToken user) st = (st, 403).
Proof.
  split; [by destruct route|]. split; [by destruct route|].
  intros user Hroute Huser.
  destruct route; try discriminate; simpl;
    unfold admin_users, admin_tests, create_test, admin_results, statistics,
      delete_test, update_test, add_direction, delete_direction,
      authenticateToken, requireAdmin;
    by rewrite Huser.
Qed.

Lemma protected_routes_refuse_witness :
  serve sample_parseInt (fun _ => "0") (DeleteAdminTest "t4") NoToken
    mixed_store = (mixed_store, 401)
  /\ serve sample_parseInt (fun _ => "0") (DeleteAdminTest "t4") InvalidToken
       mixed_store = (mixed_store, 403)
  /\ serve sample_parseInt (fun _ => "0") (DeleteAdminTest "t4")
       (ValidToken learner) mixed_store = (mixed_store, 403).
Proof.
  destruct (protected_routes_refuse sample_parseInt (fun _ => "0")
              (DeleteAdminTest "t4") mixed_store) as (H1 & H2 & H3).
  split; [exact H1|]. split; [exact H2|]. apply H3; reflexivity.
Defined.

(** ** Registration and login *)

(** A login or a telegram name that an account has registered with is
    taken for good: after any sequence of requests a registration with
    the same login, or with the same telegram name, is refused with a
    400 reply and writes nothing; when the request is complete the reply
    is "Bu login band" for the login, and that or "Bu telegram username
    band" for the telegram name. *)
Theorem registered_names_stay_taken (parseInt : value -> number)
    (now : Z) (hashed : option string) (body : obj) (st st1 : Store)
    (message : string) (calls : list Call)
    (now' : Z) (hashed' : option string) (body' : obj) (name : string) :
  register now hashed body st = (st1, Ok message) ->
  let st2 := run parseInt calls st1 in
  (body !! "login" = Some (JStr name) ->
   body' !! "login" = Some (JStr name) ->
   exists refusal,
     register now' hashed' body' st2 = (st2, Err 400 refusal)
     /\ (registration_complete body' = true -> refusal = "Bu login band"))
  /\ (body !! "telegram" = Some (JStr name) ->
      body' !! "telegram" = Some (JStr name) ->
      exists refusal,
        register now' hashed' body' st2 = (st2, Err 400 refusal)
        /\ (registration_complete body' = true ->
            refusal = "Bu login band"
            \/ refusal = "Bu telegram username band")).
Proof.
  intros Hreg st2.
  apply register_ok_inv in Hreg as (pw & d & _ & _ & _ & _ & _ & Hst1).
  destruct (run_appends parseInt calls st1) as [[us Hus] _].
  fold st2 in Hus. rewrite Hst1 in Hus. simpl in Hus.
  rewrite <- app_assoc in Hus. simpl in Hus.
  unfold register. rewrite registration_check.
  split; intros Hb Hb'.
  - destruct (registration_complete body'); simpl;
      [|eexists; split; [reflexivity|discriminate]].
    rewrite Hus, existsb_app_in;
      [|simpl; rewrite Hb, Hb'; apply strict_eq_str_refl].
    eexists. split; [reflexivity|done].
  - destruct (registration_complete body'); simpl;
      [|eexists; split; [reflexivity|discriminate]].
    destruct (List.existsb _ (users st2)) eqn:Hl;
      [eexists; split; [reflexivity|by left]|].
    rewrite Hus, existsb_app_in;
      [|simpl; rewrite Hb, Hb'; apply strict_eq_str_refl].
    eexists. split; [reflexivity|by right].
Qed.

Lemma registered_names_stay_taken_witness :
  let st1 := (register 5000 (Some "$2a$10$vali") (registration "vali" "@vali")
                mixed_store).1 in
  let st2 := run sample_parseInt busy_day st1 in
  (exists refusal,
     register 6000 (Some "$2a$10$x") (registration "vali" "@other") st2
     = (st2, Err 400 refusal)
     /\ (registration_complete (registration "vali" "@other") = true ->
         refusal = "Bu login band"))
  /\ (exists refusal,
        register 6000 (Some "$2a$10$x") (registration "other" "@vali") st2
        = (st2, Err 400 refusal)
        /\ (registration_complete (registration "other" "@vali") = true ->
            refusal = "Bu login band"
            \/ refusal = "Bu telegram username band")).
Proof.
  split.
  - apply (proj1 (registered_names_stay_taken sample_parseInt 5000
                    (Some "$2a$10$vali") (registration "vali" "@vali")
                    mixed_store _ "Ro'yxatdan o'tish muvaffaqiyatli" busy_day
                    6000 (Some "$2a$10$x") (registration "vali" "@other")
                    "vali" eq_refl));
      vm_compute; reflexivity.
  - apply (proj2 (registered_names_stay_taken sample_parseInt 5000
                    (Some "$2a$10$vali") (registration "vali" "@vali")
                    mixed_store _ "Ro'yxatdan o'tish muvaffaqiyatli" busy_day
                    6000 (Some "$2a$10$x") (registration "other" "@vali")
                    "@vali" eq_refl));
      vm_compute; reflexivity.
Defined.

(** The spec's scenario: "alice" registers, and so does nobody else. *)
Example register_alice_twice :
  let st1 := (register 5000 (Some "$2a$10$a") (registration "alice" "@alice")
                mixed_store).1 in
  (register 5000 (Some "$2a$10$a") (registration "alice" "@alice")
     mixed_store).2 = Ok "Ro'yxatdan o'tish muvaffaqiyatli"
  /\ (register 5001 (Some "$2a$10$b") (registration "alice" "@bob") st1).2
     = Err 400 "Bu login band"
  /\ (register 5001 (Some "$2a$10$b") (registration "bob" "@alice") st1).2
     = Err 400 "Bu telegram username band".
Proof. vm_compute. repeat split. Qed.

(** Registration and login fit together: an account registered with a
    string as its login can log in, after any sequence of further
    requests, with that login and a password that [bcrypt.compare]
    accepts for the stored hash; the token names the new account, which
    is no administrator, and nothing is written. *)
Theorem registered_account_logs_in (parseInt : value -> number)
    (compare : value -> string -> option bool)
    (now : Z) (pw : string) (body : obj) (st st1 : Store) (message : string)
    (calls : list Call) (body' : obj) (name : string) :
  register now (Some pw) body st = (st1, Ok message) ->
  body !! "login" = Some (JStr name) ->
  body' !! "login" = Some (JStr name) ->
  truthy (body' !! "password") = true ->
  compare (body' !! "password") pw = Some true ->
  let st2 := run parseInt calls st1 in
  exists r,
    login compare body' st2 = (st2, Ok r)
    /\ login_token r = {| userId := pretty now; isAdmin := false |}
    /\ lu_id (login_user r) = pretty now
    /\ lu_direction (login_user r) = body !! "direction"
    /\ lu_isAdmin (login_user r) = false.
Proof.
  intros Hreg Hb Hb' Hpw Hcmp st2.
  pose proof Hreg as Hinv.
  apply register_ok_inv in Hinv as (pw' & d & [= <-] & Hc & Hl & _ & _ & Hst1).
  destruct (run_appends parseInt calls st1) as [[us Hus] _].
  fold st2 in Hus. rewrite Hst1 in Hus. simpl in Hus.
  rewrite <- app_assoc in Hus. simpl in Hus.
  assert (Htruthy : truthy (body' !! "login") = true).
  { rewrite Hb', <- Hb. unfold registration_complete in Hc.
    repeat (apply andb_true_iff in Hc as [Hc ?]). done. }
  unfold login. rewrite Htruthy, Hpw. simpl.
  rewrite Hus, find_app_first; simpl.
  - rewrite Hcmp. simpl. eexists. repeat split.
  - by rewrite Hb', <- Hb.
  - rewrite Hb', Hb. apply strict_eq_str_refl.
Qed.

Lemma registered_account_logs_in_witness :
  let st1 := (register 5000 (Some "$2a$10$vali") (registration "vali" "@vali")
                mixed_store).1 in
  let st2 := run sample_parseInt busy_day st1 in
  exists r,
    login sample_compare {[ "login" := JStr "vali"; "password" := JStr "parol" ]}
      st2 = (st2, Ok r)
    /\ login_token r = {| userId := pretty 5000%Z; isAdmin := false |}
    /\ lu_id (login_user r) = pretty 5000%Z
    /\ lu_direction (login_user r) = registration "vali" "@vali" !! "direction"
    /\ lu_isAdmin (login_user r) = false.
Proof.
  apply (registered_account_logs_in sample_parseInt sample_compare 5000
           "$2a$10$vali" (registration "vali" "@vali") mixed_store _
           "Ro'yxatdan o'tish muvaffaqiyatli" busy_day
           {[ "login" := JStr "vali"; "password" := JStr "parol" ]} "vali");
    vm_compute; reflexivity.
Defined.

(** The login handler writes nothing, and it does not tell an unknown
    login from a wrong password: both get the same 400 reply. A token
    is issued only for a stored account with the login of the request
    whose hash [bcrypt.compare] accepts, and names that account. *)
Theorem login_refusals_alike (compare : value -> string -> option bool)
    (body : obj) (st : Store) :
  truthy (body !! "login") = true ->
  truthy (body !! "password") = true ->
  (login compare body st).1 = st
  /\ (forall user,
        (List.find (fun u => strict_eq (user_login u) (body !! "login"))
           (users st) = None
         \/ (List.find (fun u => strict_eq (user_login u) (body !! "login"))
               (users st) = Some user
             /\ compare (body !! "password") (user_password user)
                = Some false)) ->
        (login compare body st).2 = Err 400 msg_bad_credentials)
  /\ (forall r,
        (login compare body st).2 = Ok r ->
        exists user,
          In user (users st)
          /\ strict_eq (user_login user) (body !! "login") = true
          /\ compare (body !! "password") (user_password user) = Some true
          /\ login_token r
             = {| userId := user_id user; isAdmin := user_isAdmin user |}).
Proof.
  intros Hl Hp. unfold login. rewrite Hl, Hp. simpl.
  destruct (List.find _ (users st)) as [u|] eqn:Hfind.
  - apply find_some in Hfind as [Hin Hu].
    destruct (compare (body !! "password") (user_password u)) as [[]|] eqn:Hc;
      simpl; (split; [done|]); split.
    + intros user [[=]|[[= <-] Hfalse]]. congruence.
    + intros r [= <-]. by exists u.
    + done.
    + intros r [=].
    + intros user [[=]|[[= <-] Hfalse]]. congruence.
    + intros r [=].
  - simpl. split; [done|]. split; [done|]. intros r [=].
Qed.

Lemma login_refusals_alike_witness :
  (login sample_compare
     {[ "login" := JStr "nobody"; "password" := JStr "parol" ]} mixed_store).2
  = Err 400 msg_bad_credentials
  /\ (login sample_compare
        {[ "login" := JStr "ali"; "password" := JStr "parol" ]} mixed_store).2
     = Err 400 msg_bad_credentials.
Proof.
  split.
  - refine (proj1 (proj2 (login_refusals_alike sample_compare
                     {[ "login" := JStr "nobody"; "password" := JStr "parol" ]}
                     mixed_store eq_refl eq_refl))
                  (sample_user "1" "Admin" true) _).
    left. vm_compute. reflexivity.
  - refine (proj1 (proj2 (login_refusals_alike sample_compare
                     {[ "login" := JStr "ali"; "password" := JStr "parol" ]}
                     mixed_store eq_refl eq_refl))
                  (sample_user "1" "Admin" true) _).
    right. vm_compute. split; reflexivity.
Defined.

(** ** Issuing and verifying a code *)

Lemma pretty_N_go_nonempty (x : N) :
  forall s, s <> "" -> pretty_N_go x s <> "".
Proof.
  induction (N.lt_wf_0 x) as [x _ IH]. intros s Hs.
  assert (x = 0 \/ 0 < x)%N as [->|Hpos] by lia.
  - by rewrite pretty_N_go_0.
  - rewrite pretty_N_go_step by done. apply IH; [|done].
    by apply N.div_lt.
Qed.

Lemma pretty_Z_nonempty (z : Z) : pretty z <> "".
Proof.
  destruct z as [|p|p]; [done| |done].
  unfold pretty, pretty_Z, pretty, pretty_positive, pretty, pretty_N.
  case_decide; [done|].
  rewrite pretty_N_go_step by lia. by apply pretty_N_go_nonempty.
Qed.

(** After a code has been issued for an identity given as a string,
    a verification for that identity succeeds exactly when the code of
    the request is the issued one and the current time is less than
    five minutes after the issue; every other verification for the
    identity is refused as invalid or expired. An earlier code of the
    identity is therefore of no use any more. *)
Theorem issued_code_is_the_valid_one (now rnd : Z) (codeSent : bool)
    (body : obj) (st st1 : Store) (sent : VerificationSent)
    (telegram : string) (now' : Z) (body' : obj) :
  send_verification now rnd codeSent body st = (st1, Ok sent) ->
  body !! "telegram" = Some (JStr telegram) ->
  body' !! "telegram" = Some (JStr telegram) ->
  truthy (body' !! "code") = true ->
  sent_devCode sent
  = (if codeSent then undefined else Some (JStr (pretty rnd)))
  /\ ((exists st2 message, verify_code now' body' st1 = (st2, Ok message))
      <-> body' !! "code" = Some (JStr (pretty rnd))
          /\ (now' < now + 300000)%Z)
  /\ ((exists st2 message, verify_code now' body' st1 = (st2, Ok message))
      \/ verify_code now' body' st1 = (st1, Err 400 msg_invalid_or_expired))
  /\ truthy (Some (JStr (pretty rnd))) = true.
Proof.
  intros Hsend Hb Hb' Hcode.

  assert (Htel : truthy (body !! "telegram") = true).
  { unfold send_verification in Hsend.
    destruct (truthy (body !! "telegram")); [done|discriminate]. }
  assert (Hst1 : st1 = (send_verification now rnd codeSent body st).1)
    by (by rewrite Hsend).
  rewrite send_verification_store, Htel in Hst1.
  rewrite (persist_value_str _ _ Hb) in Hst1. simpl in Hst1.
  split.
  { unfold send_verification in Hsend. rewrite Htel in Hsend. simpl in Hsend.
    injection Hsend as _ <-. simpl. by destruct codeSent. }
  apply and_assoc. split.
  2:{ simpl. apply negb_true_iff, String.eqb_neq, pretty_Z_nonempty. }
  assert (Htel' : truthy (body' !! "telegram") = true) by (by rewrite Hb', <- Hb).
  rewrite (verify_code_checked now' body' st1 Htel' Hcode).
  rewrite Hst1. simpl. rewrite find_app_last.
  2:{ eapply existsb_weaken;
        [|apply (existsb_filter_out
                   (fun v => strict_eq (ver_telegram v) (body !! "telegram")))].
      intros v Hv. unfold matches in Hv.
      apply andb_true_iff in Hv as [Hv _].
      apply andb_true_iff in Hv as [Hv _].
      by rewrite Hb, <- Hb'. }
  unfold matches. cbn [ver_telegram ver_code ver_expiresAt].
  rewrite Hb, Hb', strict_eq_str_refl, andb_true_l.
  replace (now + 5 * 60 * 1000)%Z with (now + 300000)%Z by lia.
  destruct (strict_eq (Some (JStr (pretty rnd))) (body' !! "code")) eqn:Hc;
    cbn [andb].
  - apply strict_eq_str_inv in Hc.
    destruct (now' <? now + 300000)%Z eqn:Hlt.
    + apply Z.ltb_lt in Hlt. split; [|left; do 2 eexists; reflexivity].
      split; [done|]. intros _. do 2 eexists; reflexivity.
    + apply Z.ltb_ge in Hlt. split; [|by right].
      split; [intros (? & ? & [=])|]. intros [_ ?]. lia.
  - split; [|by right].
    split; [intros (? & ? & [=])|]. intros [Heq _].
    rewrite Heq, strict_eq_str_refl in Hc. discriminate.
Qed.

Lemma issued_code_is_the_valid_one_witness :
  let st1 := (send_verification 9000 771204 false
                {[ "telegram" := JStr "@ali" ]} issued).1 in
  (exists st2 message,
     verify_code 9500 code_request st1 = (st2, Ok message))
  <-> code_request !! "code" = Some (JStr (pretty 771204%Z))
      /\ (9500 < 9000 + 300000)%Z.
Proof.
  refine (proj1 (proj2 (issued_code_is_the_valid_one 9000 771204 false
                          {[ "telegram" := JStr "@ali" ]} issued _
                          {| sent_message := _; sent_devCode := _ |}
                          "@ali" 9500 code_request _ _ _ _)));
    vm_compute; reflexivity.
Defined.

(** The code 482913 issued first is refused once 771204 has been
    issued for the same identity, and 771204 is accepted. *)
Example reissued_code :
  let st1 := (send_verification 9000 771204 false
                {[ "telegram" := JStr "@ali" ]} issued).1 in
  verify_code 9500 code_request st1
  = (st1, Err 400 msg_invalid_or_expired)
  /\ (verify_code 9500 (<["code" := JStr "771204"]> code_request) st1).2
     = Ok "Kod tasdiqlandi".
Proof. vm_compute. repeat split. Qed.

(** ** A direction in use stays *)

Lemma perform_keeps_used_direction (parseInt : value -> number) (st : Store)
    (c : Call) (u : User) (d : Direction) :
  In u (users st) ->
  user_direction u = Some (JStr (dir_id d)) ->
  In d (directions st) ->
  In d (directions (perform parseInt st c)).
Proof.
  intros Hu Hdir Hd. destruct c; simpl.
  - rewrite send_verification_store. by case_match.
  - unfold verify_code. handler_cases.
  - unfold register. handler_cases.
  - destruct (submit_test_store now auth body st) as [-> | [r ->]]; by simpl.
  - unfold create_test. handler_cases.
  - unfold update_test. handler_cases.
  - unfold delete_test. handler_cases.
  - unfold add_direction, authenticateToken, requireAdmin.
    repeat case_match; simpl; auto. apply in_or_app. by left.
  - unfold delete_direction, authenticateToken, requireAdmin.
    repeat case_match; simpl; auto.
    match goal with Hi : findIndex _ _ = Some _ |- _ =>
      apply findIndex_Some in Hi as (x & Hx & Hid) end.
    apply String.eqb_eq in Hid.
    eapply in_delete_other; [exact Hx|exact Hd|].
    intros ->.
    match goal with He : List.existsb _ (users st) = false |- _ =>
      pose proof (existsb_false_in _ _ u He Hu) as Hfree end.
    simpl in Hfree. rewrite Hdir, Hid, strict_eq_str_refl in Hfree.
    discriminate.
Qed.

(** The direction that an account has registered with can never be
    deleted: after any sequence of requests the delete handler, called
    by an administrator for that direction, answers 400, in use by
    accounts, and the direction is still stored. *)
Theorem registered_direction_cannot_be_deleted (parseInt : value -> number)
    (now : Z) (hashed : option string) (body : obj) (st st1 : Store)
    (message : string) (calls : list Call) (admin : Claims) :
  register now hashed body st = (st1, Ok message) ->
  isAdmin admin = true ->
  let st2 := run parseInt calls st1 in
  exists directionId,
    body !! "direction" = Some (JStr directionId)
    /\ delete_direction (ValidToken admin) directionId st2
       = (st2, Err 400 msg_used_by_users)
    /\ exists d, In d (directions st2) /\ dir_id d = directionId.
Proof.
  intros Hreg Hadmin st2.
  apply register_ok_inv in Hreg as (pw & d & _ & _ & _ & _ & Hd & Hst1).
  apply find_some in Hd as [Hin Hdir]. apply strict_eq_str_inv in Hdir.
  exists (dir_id d). split; [done|].
  set (newUser := {| user_id := pretty now;
                     user_firstName := persist_value (body !! "firstName");
                     user_lastName := persist_value (body !! "lastName");
                     user_direction := body !! "direction";
                     user_directionName := dir_name d;
                     user_phone := persist_value (body !! "phone");
                     user_telegram := persist_value (body !! "telegram");
                     user_login := persist_value (body !! "login");
                     user_password := pw;
                     user_isAdmin := false;
                     user_createdAt := now |}) in Hst1.
  assert (Hinv : In newUser (users st2) /\ In d (directions st2)).
  { apply (run_invariant parseInt
             (fun st' => In newUser (users st') /\ In d (directions st'))).
    - intros st' c [Hu Hd']. split.
      + destruct (perform_appends parseInt st' c) as [[us ->] _].
        apply in_or_app. by left.
      + by eapply perform_keeps_used_direction.
    - rewrite Hst1. simpl. split; [|done].
      apply in_or_app. right. by left. }
  destruct Hinv as [Hu Hd']. split; [|by exists d].
  unfold delete_direction, authenticateToken, requireAdmin.
  rewrite Hadmin. simpl.
  destruct (findIndex_exists
              (fun x => String.eqb (dir_id x) (dir_id d)) _ d Hd'
              (String.eqb_refl _)) as [i ->].
  assert (List.existsb
            (fun u => strict_eq (user_direction u) (Some (JStr (dir_id d))))
            (users st2) = true) as ->; [|done].
  apply existsb_exists. exists newUser. split; [done|]. simpl.
  rewrite Hdir. apply strict_eq_str_refl.
Qed.

Lemma registered_direction_cannot_be_deleted_witness :
  let st1 := (register 5000 (Some "$2a$10$vali") (registration "vali" "@vali")
                mixed_store).1 in
  let st2 := run sample_parseInt busy_day st1 in
  exists directionId,
    registration "vali" "@vali" !! "direction" = Some (JStr directionId)
    /\ delete_direction (ValidToken administrator) directionId st2
       = (st2, Err 400 msg_used_by_users)
    /\ exists d, In d (directions st2) /\ dir_id d = directionId.
Proof.
  apply (registered_direction_cannot_be_deleted sample_parseInt 5000
           (Some "$2a$10$vali") (registration "vali" "@vali") mixed_store _
           "Ro'yxatdan o'tish muvaffaqiyatli" busy_day administrator);
    vm_compute; reflexivity.
Defined.

(** ** The test catalogue *)

Lemma set_tests_same (st : Store) : set_tests st (tests st) = st.
Proof. by destruct st. Qed.

Lemma set_directions_same (st : Store) :
  set_directions st (directions st) = st.
Proof. by destruct st. Qed.

(** A created test can be fetched and deleted by its identifier: when
    no stored test has the identifier of the new one, the learner
    route returns the new test with the correct options left out, and a
    deletion by the administrator restores the store as it was before
    the creation. *)
Theorem created_test_round_trip (parseInt : value -> number)
    (now : Z) (auth : Bearer) (body : obj) (st st1 : Store) (t : TestDoc)
    (reader : Claims) :
  create_test parseInt now auth body st = (st1, Ok t) ->
  (forall t0, In t0 (tests st) -> test_id t0 <> pretty now) ->
  test_id t = pretty now
  /\ get_test (ValidToken reader) (pretty now) st1
     = (st1, Ok (with_questions t
                   (List.map strip_question (test_questions t))))
  /\ delete_test auth (pretty now) st1 = (st, Ok "Test o'chirildi").
Proof.
  intros Hcreate Hfresh.
  assert (Hnone : List.existsb
                    (fun t0 => String.eqb (test_id t0) (pretty now))
                    (tests st) = false).
  { apply existsb_none. intros t0 Hin. apply String.eqb_neq. by apply Hfresh. }
  unfold create_test, authenticateToken, requireAdmin in Hcreate.
  destruct auth as [| |user]; try discriminate.
  destruct (negb (isAdmin user)) eqn:Hadmin; [discriminate|].
  repeat case_match; simplify_eq. simpl.
  split; [done|]. split.
  - unfold get_test, authenticateToken. simpl.
    rewrite find_app_first with (l2 := []); [done|done|].
    simpl. apply String.eqb_refl.
  - unfold delete_test, authenticateToken, requireAdmin.
    rewrite Hadmin. simpl.
    rewrite findIndex_app_last; [|done|simpl; apply String.eqb_refl].
    rewrite delete_middle, app_nil_r.
    f_equal. by destruct st.
Qed.

Lemma created_test_round_trip_witness :
  let st1 := (create_test sample_parseInt 2500 (ValidToken administrator)
                (test_request questions_with_id) mixed_store).1 in
  test_id created_test = pretty 2500%Z
  /\ get_test (ValidToken learner) (pretty 2500%Z) st1
     = (st1, Ok (with_questions created_test
                   (List.map strip_question (test_questions created_test))))
  /\ delete_test (ValidToken administrator) (pretty 2500%Z) st1
     = (mixed_store, Ok "Test o'chirildi").
Proof.
  apply (created_test_round_trip sample_parseInt 2500
           (ValidToken administrator) (test_request questions_with_id)
           mixed_store _ created_test learner).
  - vm_compute. reflexivity.
  - intros t0 [<- | [<- | []]]; vm_compute; discriminate.
Defined.

Lemma delete_unique_key {A} (key : A -> string) (l : list A) (i : nat)
    (x : A) :
  NoDup (List.map key l) ->
  l !! i = Some x ->
  forall y, In y (delete i l) -> key y <> key x.
Proof.
  intros Hnd Hi y Hin Heq.
  apply list_elem_of_In, list_elem_of_lookup in Hin as [j Hj].
  assert (Hi' : List.map key l !! i = Some (key x))
    by (change (List.map key l) with (key <$> l);
        by rewrite list_lookup_fmap, Hi).
  destruct (decide (j < i)) as [Hlt|Hge].
  - rewrite list_lookup_delete_lt in Hj by done.
    assert (Hj' : List.map key l !! j = Some (key x))
      by (change (List.map key l) with (key <$> l);
          by rewrite list_lookup_fmap, Hj, <- Heq).
    pose proof (NoDup_lookup _ _ _ _ Hnd Hi' Hj'). lia.
  - rewrite list_lookup_delete_ge in Hj by lia.
    assert (Hj' : List.map key l !! S j = Some (key x))
      by (change (List.map key l) with (key <$> l);
          by rewrite list_lookup_fmap, Hj, <- Heq).
    pose proof (NoDup_lookup _ _ _ _ Hnd Hi' Hj'). lia.
Qed.

(** Deleting a test is unconditional and leaves the results alone: the
    results of the deleted test stay in the store, and, the identifiers
    of the tests being distinct, the test can no longer be fetched and
    its results are reported under the title "Noma'lum test". *)
Theorem deleted_test_leaves_orphans (auth : Bearer) (testId : string)
    (st st1 : Store) (message : string) (reader : Claims) :
  delete_test auth testId st = (st1, Ok message) ->
  results st1 = results st
  /\ users st1 = users st
  /\ S (List.length (tests st1)) = List.length (tests st)
  /\ (NoDup (List.map test_id (tests st)) ->
      get_test (ValidToken reader) testId st1
      = (st1, Err 404 msg_test_not_found)
      /\ forall listed x,
           get_my_results (ValidToken reader) st1 = (st1, Ok listed) ->
           In x listed ->
           res_testId (rwt_result x) = Some (JStr testId) ->
           rwt_testTitle x = Some (JStr unknown_test)).
Proof.
  unfold delete_test, authenticateToken, requireAdmin. intros Hdel.
  repeat case_match; simplify_eq. simpl.
  match goal with Hi : findIndex _ _ = Some _ |- _ =>
    apply findIndex_Some in Hi as (t & Ht & Hid) end.
  apply String.eqb_eq in Hid.
  split; [done|]. split; [done|]. split.
  { rewrite length_delete by (by eexists).
    apply lookup_lt_Some in Ht. lia. }
  intros Hnd.
  assert (Hgone : forall y, In y (delete n (tests st)) ->
                            String.eqb (test_id y) testId = false).
  { intros y Hy. apply String.eqb_neq. rewrite <- Hid.
    by eapply (delete_unique_key test_id). }
  split.
  - unfold get_test, authenticateToken. simpl.
    destruct (List.find _ (delete n (tests st))) as [y|] eqn:Hfind; [|done].
    apply find_some in Hfind as [Hy Hf]. by rewrite (Hgone y Hy) in Hf.
  - unfold get_my_results, authenticateToken. simpl.
    intros listed x [= <-] Hx Hres.
    apply in_map_iff in Hx as (r & <- & _). simpl in *.
    unfold title_of, find_test. simpl.
    destruct (List.find _ (delete n (tests st))) as [y|] eqn:Hfind; [|done].
    apply find_some in Hfind as [Hy Hf]. rewrite Hres in Hf. simpl in Hf.
    by rewrite (Hgone y Hy) in Hf.
Qed.

Lemma deleted_test_leaves_orphans_witness :
  let st0 := (submit_test 2000 (ValidToken learner)
                (submission "t4" [num 0; num 1; num 9; num 3])
                mixed_store).1 in
  let st1 := (delete_test (ValidToken administrator) "t4" st0).1 in
  results st1 = results st0
  /\ users st1 = users st0
  /\ S (List.length (tests st1)) = List.length (tests st0)
  /\ (NoDup (List.map test_id (tests st0)) ->
      get_test (ValidToken learner) "t4" st1
      = (st1, Err 404 msg_test_not_found)
      /\ forall listed x,
           get_my_results (ValidToken learner) st1 = (st1, Ok listed) ->
           In x listed ->
           res_testId (rwt_result x) = Some (JStr "t4") ->
           rwt_testTitle x = Some (JStr unknown_test)).
Proof.
  apply (deleted_test_leaves_orphans (ValidToken administrator) "t4" _ _
           "Test o'chirildi" learner).
  vm_compute. reflexivity.
Defined.

(** The learner's results after the deletion of the test: the result
    is still reported, under the placeholder title. *)
Example orphaned_result_listed :
  let st0 := (submit_test 2000 (ValidToken learner)
                (submission "t4" [num 0; num 1; num 9; num 3])
                mixed_store).1 in
  let st1 := (delete_test (ValidToken administrator) "t4" st0).1 in
  NoDup (List.map test_id (tests st0))
  /\ (exists x,
        (get_my_results (ValidToken learner) st1).2 = Ok [x]
        /\ res_score (rwt_result x) = 3
        /\ rwt_testTitle x = Some (JStr unknown_test)).
Proof.
  split.
  - apply (bool_decide_unpack _). vm_compute. reflexivity.
  - eexists. vm_compute. repeat split.
Qed.

(** ** What a learner is shown of the own results *)

Lemma filter_app_one {A} (f : A -> bool) (l : list A) (x : A) :
  f x = true -> List.filter f (l ++ [x]) = List.filter f l ++ [x].
Proof. intros Hx. rewrite List.filter_app. simpl. by rewrite Hx. Qed.

(** The results route shows an account its own results and nothing
    else: the listing consists of the stored results whose account is
    the subject of the token, all of them and in their order. *)
Theorem my_results_are_mine (requester : Claims) (st : Store) :
  exists listed,
    get_my_results (ValidToken requester) st = (st, Ok listed)
    /\ List.map rwt_result listed
       = List.filter (fun r => String.eqb (res_userId r) (userId requester))
           (results st)
    /\ (forall x, In x listed -> res_userId (rwt_result x) = userId requester)
    /\ (forall r, In r (results st) -> res_userId r = userId requester ->
                  In r (List.map rwt_result listed)).
Proof.
  unfold get_my_results, authenticateToken. eexists.
  split; [reflexivity|]. rewrite List.map_map. simpl. rewrite List.map_id.
  split; [done|]. split.
  - intros x Hx. apply in_map_iff in Hx as (r & <- & Hr). simpl.
    apply filter_In in Hr as [_ Hr]. by apply String.eqb_eq.
  - intros r Hr Hu. apply filter_In. split; [done|].
    by apply String.eqb_eq.
Qed.

(** What the submit handler replies is what the results route reports
    afterwards: the last result listed for the account has the score,
    the number of questions and the percentage of the reply, and the
    title of the test; the results listed before are unchanged. *)
Theorem submitted_result_is_reported (now : Z) (user : Claims) (body : obj)
    (st st1 : Store) (s : ScoreSummary) :
  submit_test now (ValidToken user) body st = (st1, Ok s) ->
  exists before listed x test,
    get_my_results (ValidToken user) st = (st, Ok before)
    /\ get_my_results (ValidToken user) st1 = (st1, Ok (listed ++ [x]))
    /\ List.map rwt_result listed = List.map rwt_result before
    /\ find_test (body !! "testId") (tests st) = Some test
    /\ rwt_testTitle x = test_title test
    /\ res_score (rwt_result x) = sum_score s
    /\ res_totalQuestions (rwt_result x) = sum_totalQuestions s
    /\ res_percentage (rwt_result x) = sum_percentage s.
Proof.
  intros Hsub.
  apply submit_test_ok_inv in Hsub as (test & _ & _ & Ht & _ & -> & ->).
  unfold get_my_results, authenticateToken. simpl.
  rewrite filter_app_one by (simpl; apply String.eqb_refl).
  rewrite List.map_app. simpl.
  eexists _, _, _, test. split; [reflexivity|]. split; [reflexivity|].
  split; [by rewrite !List.map_map|]. split; [done|].
  unfold title_of. simpl.
  by rewrite (persist_value_str _ _ (find_test_str _ _ _ Ht)), Ht.
Qed.

Lemma submitted_result_is_reported_witness :
  exists before listed x test,
    get_my_results (ValidToken learner) mixed_store = (mixed_store, Ok before)
    /\ get_my_results (ValidToken learner)
         (submit_test 2000 (ValidToken learner)
            (submission "t4" [num 0; num 1; num 9; num 3]) mixed_store).1
       = ((submit_test 2000 (ValidToken learner)
             (submission "t4" [num 0; num 1; num 9; num 3]) mixed_store).1,
          Ok (listed ++ [x]))
    /\ List.map rwt_result listed = List.map rwt_result before
    /\ find_test (submission "t4" [num 0; num 1; num 9; num 3] !! "testId")
         (tests mixed_store) = Some test
    /\ rwt_testTitle x = test_title test
    /\ res_score (rwt_result x) = 3
    /\ res_totalQuestions (rwt_result x) = 4
    /\ res_percentage (rwt_result x) = of_Z 75.
Proof.
  apply (submitted_result_is_reported 2000 learner
           (submission "t4" [num 0; num 1; num 9; num 3]) mixed_store _
           {| sum_score := 3; sum_totalQuestions := 4;
              sum_percentage := of_Z 75 |}).
  vm_compute. reflexivity.
Defined.

(** The test listing marks a test as completed exactly from the
    submission on: for a stored account, the tests listed before and
    after a successful submission are the same; the entries of the
    submitted test are not completed before and completed after. *)
Theorem submitted_test_is_completed (now : Z) (requester : Claims)
    (body : obj) (st st1 : Store) (s : ScoreSummary) (account : User) :
  submit_test now (ValidToken requester) body st = (st1, Ok s) ->
  List.find (fun u => String.eqb (user_id u) (userId requester)) (users st)
  = Some account ->
  exists before after,
    get_tests (ValidToken requester) st = (st, Ok before)
    /\ get_tests (ValidToken requester) st1 = (st1, Ok after)
    /\ List.map tws_test after = List.map tws_test before
    /\ (forall x, In x before ->
          body !! "testId" = Some (JStr (test_id (tws_test x))) ->
          tws_completed x = false)
    /\ (forall x, In x after ->
          body !! "testId" = Some (JStr (test_id (tws_test x))) ->
          tws_completed x = true).
Proof.
  intros Hsub Hacc.
  apply submit_test_ok_inv in Hsub as (test & _ & _ & _ & Hnone & -> & _).
  pose proof Hacc as Hid. apply find_some in Hid as [_ Hid].
  apply String.eqb_eq in Hid.
  unfold get_tests, authenticateToken. simpl. rewrite Hacc.
  eexists _, _. split; [reflexivity|]. split; [reflexivity|].
  split; [by rewrite !List.map_map|]. split.
  - intros x Hx Hbody. apply in_map_iff in Hx as (t & <- & _). simpl in *.
    apply existsb_none. intros r Hr. apply filter_In in Hr as [Hr Hu].
    unfold existingResult in Hnone.
    eapply find_none in Hnone; [|exact Hr]. simpl in Hnone.
    rewrite Hid in Hu. rewrite Hu, Hbody in Hnone. exact Hnone.
  - intros x Hx Hbody. apply in_map_iff in Hx as (t & <- & _). simpl in *.
    rewrite filter_app_one by (simpl; rewrite Hid; apply String.eqb_refl).
    rewrite existsb_app. simpl.
    rewrite (persist_value_str _ _ Hbody), Hbody, strict_eq_str_refl.
    by rewrite orb_true_r.
Qed.

Lemma submitted_test_is_completed_witness :
  exists before after,
    get_tests (ValidToken learner) mixed_store = (mixed_store, Ok before)
    /\ get_tests (ValidToken learner)
         (submit_test 2000 (ValidToken learner)
            (submission "t4" [num 0; num 1; num 9; num 3]) mixed_store).1
       = ((submit_test 2000 (ValidToken learner)
             (submission "t4" [num 0; num 1; num 9; num 3]) mixed_store).1,
          Ok after)
    /\ List.map tws_test after = List.map tws_test before
    /\ (forall x, In x before ->
          submission "t4" [num 0; num 1; num 9; num 3] !! "testId"
          = Some (JStr (test_id (tws_test x))) ->
          tws_completed x = false)
    /\ (forall x, In x after ->
          submission "t4" [num 0; num 1; num 9; num 3] !! "testId"
          = Some (JStr (test_id (tws_test x))) ->
          tws_completed x = true).
Proof.
  apply (submitted_test_is_completed 2000 learner
           (submission "t4" [num 0; num 1; num 9; num 3]) mixed_store _
           {| sum_score := 3; sum_totalQuestions := 4;
              sum_percentage := of_Z 75 |}
           (sample_user "7" "1" false));
    vm_compute; reflexivity.
Defined.

(** ** Updating a test *)

(** A successful update replaces the first test with the identifier of
    the request, in its place: the test keeps its identifier and its
    creation time and gets the time of the update, the other tests and
    all the other collections are as before; an unknown identifier is
    answered with 404. *)
Theorem update_keeps_identity (parseInt : value -> number) (now : Z)
    (auth : Bearer) (testId : string) (body : obj) (st st1 : Store)
    (t : TestDoc) :
  update_test parseInt now auth testId body st = (st1, Ok (Some t)) ->
  exists testIndex old,
    tests st !! testIndex = Some old
    /\ test_id old = testId
    /\ tests st1 = <[testIndex := t]> (tests st)
    /\ test_id t = testId
    /\ test_createdAt t = test_createdAt old
    /\ test_updatedAt t = Some now
    /\ test_direction t = body !! "direction"
    /\ direction_known (directions st) (test_direction t) = true
    /\ users st1 = users st /\ directions st1 = directions st
    /\ results st1 = results st /\ verifications st1 = verifications st.
Proof.
  unfold update_test, authenticateToken, requireAdmin. intros Hup.
  repeat case_match; simplify_eq. simpl in *.
  match goal with Hi : findIndex _ _ = Some ?i |- _ =>
    pose proof (findIndex_Some _ _ _ Hi) as (old & Hold & Hid);
    exists i, old
  end.
  apply String.eqb_eq in Hid.
  match goal with Hl : alter _ _ _ !! _ = Some t |- _ =>
    rewrite list_lookup_alter, Hold in Hl; simpl in Hl;
    case_decide; [|done]; injection Hl as <- end.
  simpl. split; [done|]. split; [done|]. split.
  { apply list_eq. intros j. rewrite list_lookup_alter.
    destruct (decide (n = j)) as [<-|Hne].
    - rewrite Hold. simpl. rewrite list_lookup_insert_eq; [done|].
      by eapply lookup_lt_Some.
    - by rewrite list_lookup_insert_ne. }
  stored_direction. repeat split; try done.
  by eapply find_direction_known.
Qed.

Lemma update_keeps_identity_witness :
  exists testIndex old,
    tests mixed_store !! testIndex = Some old
    /\ test_id old = "t4"
    /\ tests (update_test sample_parseInt 2500 (ValidToken administrator)
                "t4" (test_request questions_with_id) mixed_store).1
       = <[testIndex := updated_test]> (tests mixed_store)
    /\ test_id updated_test = "t4"
    /\ test_createdAt updated_test = test_createdAt old
    /\ test_updatedAt updated_test = Some 2500%Z
    /\ test_direction updated_test
       = test_request questions_with_id !! "direction"
    /\ direction_known (directions mixed_store) (test_direction updated_test)
       = true
    /\ users (update_test sample_parseInt 2500 (ValidToken administrator)
                "t4" (test_request questions_with_id) mixed_store).1
       = users mixed_store
    /\ directions (update_test sample_parseInt 2500 (ValidToken administrator)
                     "t4" (test_request questions_with_id) mixed_store).1
       = directions mixed_store
    /\ results (update_test sample_parseInt 2500 (ValidToken administrator)
                  "t4" (test_request questions_with_id) mixed_store).1
       = results mixed_store
    /\ verifications
         (update_test sample_parseInt 2500 (ValidToken administrator)
            "t4" (test_request questions_with_id) mixed_store).1
       = verifications mixed_store.
Proof.
  apply (update_keeps_identity sample_parseInt 2500 (ValidToken administrator)
           "t4" (test_request questions_with_id) mixed_store _ updated_test).
  vm_compute. reflexivity.
Defined.

Lemma number_questions_of_stored (stored : list obj) :
  Forall (fun q : obj => is_Some (q !! "id")) stored ->
  number_questions (List.map JObj stored) = stored.
Proof.
  unfold number_questions. intros Hall. apply list_eq. intros i.
  rewrite list_lookup_imap.
  change (List.map JObj stored) with (JObj <$> stored).
  rewrite list_lookup_fmap.
  destruct (stored !! i) as [q|] eqn:Hq; simpl; [|done].
  f_equal. apply map_eq. intros k.
  rewrite lookup_union.
  destruct (decide (k = "id")) as [->|Hk].
  - rewrite Forall_lookup in Hall. destruct (Hall i q Hq) as [x ->].
    by rewrite lookup_singleton_eq.
  - rewrite lookup_singleton_ne by done. by destruct (q !! k).
Qed.

(** Sending the questions of a stored test back, as an editor does,
    leaves them as they are: a question that has an identifier keeps
    it, wherever it stands in the request, so that questions sent
    without the first one keep starting at their old identifiers. The
    questions that the create and update handlers store all have an
    identifier, so numbering them again changes nothing. *)
Theorem stored_questions_keep_identifiers (stored : list obj)
    (qs : list json) :
  (Forall (fun q : obj => is_Some (q !! "id")) stored ->
   number_questions (List.map JObj stored) = stored)
  /\ number_questions (List.map JObj (number_questions qs))
     = number_questions qs.
Proof.
  split; [apply number_questions_of_stored|].
  apply number_questions_of_stored.
  apply Forall_lookup. intros i o Ho.
  unfold number_questions in Ho. rewrite list_lookup_imap in Ho.
  destruct (qs !! i) as [q|]; simpl in Ho; [|done].
  injection Ho as <-. rewrite lookup_id_spread. by eexists.
Qed.

Lemma stored_questions_keep_identifiers_witness :
  number_questions (List.map JObj (List.tail (test_questions four_questions)))
  = List.tail (test_questions four_questions).
Proof.
  apply (proj1 (stored_questions_keep_identifiers
                  (List.tail (test_questions four_questions)) [])).
  repeat constructor; by eexists.
Defined.

(** The editor's case: four questions are stored under "1" to "4";
    the first is dropped and the rest sent back, and they stay "2",
    "3", "4". *)
Example questions_sent_back :
  List.map (fun o : obj => o !! "id")
    (number_questions
       (List.map JObj (List.tail (number_questions
                                    [JNull; JNull; JNull; JNull]))))
  = [Some (JStr "2"); Some (JStr "3"); Some (JStr "4")].
Proof. vm_compute. reflexivity. Qed.

(** ** Grading *)

Lemma grade_ext (a1 a2 : value) (questions : list obj) :
  forall index score,
    (forall k, k < List.length questions ->
               at_index a1 (index + k) = at_index a2 (index + k)) ->
    grade a1 questions index score = grade a2 questions index score.
Proof.
  induction questions as [|q rest IH]; intros index score Hsame; simpl;
    [done|].
  pose proof (Hsame 0) as H0. rewrite Nat.add_0_r in H0.
  rewrite H0 by (simpl; lia).
  rewrite (IH (S index)); [done|].
  intros k Hk. replace (S index + k) with (index + S k) by lia.
  apply Hsame. simpl. lia.
Qed.

(** Answers beyond the last question are ignored: when the answers
    cover the questions of the test, appending further answers changes
    neither the reply nor what is stored. *)
Theorem surplus_answers_ignored (now : Z) (auth : Bearer) (body : obj)
    (st : Store) (answers extra : list json) :
  (forall test,
     find_test (body !! "testId") (tests st) = Some test ->
     List.length (test_questions test) <= List.length answers) ->
  submit_test now auth (<["answers" := JArr (answers ++ extra)]> body) st
  = submit_test now auth (<["answers" := JArr answers]> body) st.
Proof.
  intros Hcover. unfold submit_test, authenticateToken.
  destruct auth as [| |user]; try done.
  rewrite !lookup_insert_eq, !lookup_insert_ne by done. simpl.
  destruct (negb (truthy (body !! "testId")) || false); [done|].
  destruct (find_test (body !! "testId") (tests st)) as [test|] eqn:Ht;
    [|done].
  destruct (existingResult user (body !! "testId") (results st)); [done|].
  rewrite (grade_ext (Some (JArr (answers ++ extra))) (Some (JArr answers)));
    [done|].
  intros k Hk. simpl. apply lookup_app_l.
  specialize (Hcover test eq_refl). lia.
Qed.

Lemma surplus_answers_ignored_witness :
  submit_test 2000 (ValidToken learner)
    (<["answers" := JArr ([num 0; num 1; num 9; num 3] ++ [num 7; JNull])]>
       (submission "t4" []))
    mixed_store
  = submit_test 2000 (ValidToken learner)
      (<["answers" := JArr [num 0; num 1; num 9; num 3]]> (submission "t4" []))
      mixed_store.
Proof.
  apply (surplus_answers_ignored 2000 (ValidToken learner) (submission "t4" [])
           mixed_store [num 0; num 1; num 9; num 3] [num 7; JNull]).
  intros test Ht. vm_compute in Ht. injection Ht as <-. vm_compute. lia.
Defined.

Lemma count_correct_all (qrs : list QuestionResult) :
  Forall (fun qr => qr_isCorrect qr = true) qrs ->
  count_correct qrs = List.length qrs.
Proof.
  unfold count_correct. induction 1 as [|qr qrs Hqr _ IH]; simpl; [done|].
  rewrite Hqr. simpl. by rewrite IH.
Qed.

(** A submission that gives, for every question, the stored correct
    option gets the full score, provided the correct options are values
    that [===] can equal: null, a boolean, a string or a number other
    than NaN. *)
Theorem all_correct_scores_full (now : Z) (user : Claims) (body : obj)
    (st st1 : Store) (s : ScoreSummary) (test : TestDoc) :
  submit_test now (ValidToken user) body st = (st1, Ok s) ->
  find_test (body !! "testId") (tests st) = Some test ->
  (forall index question,
     test_questions test !! index = Some question ->
     exists marker,
       question !! "correct" = Some marker
       /\ at_index (body !! "answers") index = Some marker
       /\ strict_eq (Some marker) (Some marker) = true) ->
  sum_score s = List.length (test_questions test)
  /\ sum_totalQuestions s = List.length (test_questions test).
Proof.
  intros Hsub Ht Hall.
  apply submit_test_ok_inv in Hsub as (test' & _ & _ & Ht' & _ & _ & ->).
  rewrite Ht in Ht'. injection Ht' as <-.
  unfold summary. simpl. split; [|done].
  rewrite grade_score. simpl.
  rewrite count_correct_all, grade_length; [done|].
  apply Forall_lookup. intros i qr Hqr.
  rewrite grade_results, list_lookup_imap in Hqr.
  destruct (test_questions test !! i) as [q|] eqn:Hq; simpl in Hqr; [|done].
  injection Hqr as <-. simpl.
  destruct (Hall i q Hq) as (m & -> & -> & Hm). exact Hm.
Qed.

Lemma all_correct_scores_full_witness :
  sum_score
    {| sum_score := 4; sum_totalQuestions := 4; sum_percentage := of_Z 100 |}
  = List.length (test_questions four_questions)
  /\ sum_totalQuestions
       {| sum_score := 4; sum_totalQuestions := 4;
          sum_percentage := of_Z 100 |}
     = List.length (test_questions four_questions).
Proof.
  apply (all_correct_scores_full 2000 learner
           (submission "t4" [num 0; num 1; num 2; num 3]) mixed_store
           (submit_test 2000 (ValidToken learner)
              (submission "t4" [num 0; num 1; num 2; num 3]) mixed_store).1
           _ four_questions).
  - vm_compute. reflexivity.
  - vm_compute. reflexivity.
  - intros [|[|[|[|i]]]] q Hq; vm_compute in Hq; try discriminate;
      injection Hq as <-; eexists; vm_compute; repeat split.
Defined.

Lemma count_correct_lt (qrs : list QuestionResult) :
  forall i qr,
    qrs !! i = Some qr -> qr_isCorrect qr = false ->
    count_correct qrs < List.length qrs.
Proof.
  unfold count_correct.
  induction qrs as [|x qrs IH]; intros [|i] qr Hi Hqr; simpl in *;
    try discriminate.
  - injection Hi as ->. rewrite Hqr.
    pose proof (List.filter_length_le qr_isCorrect qrs). lia.
  - specialize (IH i qr Hi Hqr). destruct (qr_isCorrect x); simpl; lia.
Qed.

(** A question whose correct option is stored as an array or as an
    object is never answered correctly, whatever the answers are: [===]
    compares such values by identity. A test with such a question
    cannot be passed with the full score. *)
Theorem compound_marker_never_matches (now : Z) (user : Claims) (body : obj)
    (st st1 : Store) (s : ScoreSummary) (test : TestDoc) (index : nat)
    (question : obj) :
  submit_test now (ValidToken user) body st = (st1, Ok s) ->
  find_test (body !! "testId") (tests st) = Some test ->
  test_questions test !! index = Some question ->
  (exists l, question !! "correct" = Some (JArr l))
  \/ (exists o, question !! "correct" = Some (JObj o)) ->
  sum_score s < sum_totalQuestions s
  /\ exists r qr,
       results st1 = results st ++ [r]
       /\ res_questionResults r !! index = Some qr
       /\ qr_isCorrect qr = false.
Proof.
  intros Hsub Ht Hq Hmarker.
  apply submit_test_ok_inv in Hsub as (test' & _ & _ & Ht' & _ & -> & ->).
  rewrite Ht in Ht'. injection Ht' as <-.
  assert (Hfalse : qr_isCorrect (outcome (body !! "answers") index question)
                   = false).
  { simpl. destruct Hmarker as [[l ->]|[o ->]];
      by destruct (at_index (body !! "answers") index) as [[]|]. }
  pose proof (grade_outcome (body !! "answers") _ _ _ Hq) as Hout.
  split.
  - unfold summary. simpl. rewrite grade_score. simpl.
    rewrite <- (grade_length (body !! "answers") (test_questions test)).
    by eapply count_correct_lt.
  - eexists _, _. split; [reflexivity|]. simpl.
    rewrite lookup_persist_outcome, Hout. simpl. by split.
Qed.

Lemma compound_marker_never_matches_witness :
  let marked : obj := <["correct" := JArr [num 0]]> (sample_question 0) in
  let st := store_with [sample_test "c" [marked]] in
  let out := submit_test 2000 (ValidToken learner)
               (submission "c" [JArr [num 0]]) st in
  0 < 1
  /\ exists r qr,
       results out.1 = results st ++ [r]
       /\ res_questionResults r !! 0 = Some qr
       /\ qr_isCorrect qr = false.
Proof.
  apply (compound_marker_never_matches 2000 learner
           (submission "c" [JArr [num 0]])
           (store_with [sample_test "c"
                          [<["correct" := JArr [num 0]]> (sample_question 0)]])
           _ {| sum_score := 0; sum_totalQuestions := 1;
                sum_percentage := of_Z 0 |}
           (sample_test "c"
              [<["correct" := JArr [num 0]]> (sample_question 0)])
           0 (<["correct" := JArr [num 0]]> (sample_question 0))).
  - vm_compute. reflexivity.
  - vm_compute. reflexivity.
  - reflexivity.
  - left. eexists. vm_compute. reflexivity.
Defined.

(** ** Directions added and deleted *)

(** A direction that has just been added can be deleted again, which
    restores the store: this holds when no stored direction has the
    identifier of the new one and no account or test refers to that
    identifier. Until then the listing ends with the new direction,
    whose name is the name of the request as JSON writes it. *)
Theorem added_direction_round_trip (now : Z) (auth : Bearer) (body : obj)
    (st st1 : Store) (d : Direction) :
  add_direction now auth body st = (st1, Ok d) ->
  (forall d0, In d0 (directions st) -> dir_id d0 <> pretty now) ->
  direction_in_use (pretty now) st = false ->
  d = {| dir_id := pretty now; dir_name := persist_value (body !! "name") |}
  /\ (get_directions st1).2 = Ok (directions st ++ [d])
  /\ delete_direction auth (pretty now) st1 = (st, Ok "Yo'nalish o'chirildi").
Proof.
  intros Hadd Hfresh Hfree.
  assert (Hnone : List.existsb
                    (fun d0 => String.eqb (dir_id d0) (pretty now))
                    (directions st) = false).
  { apply existsb_none. intros d0 Hin. apply String.eqb_neq. by apply Hfresh. }
  unfold add_direction, authenticateToken, requireAdmin in Hadd.
  destruct auth as [| |user]; try discriminate.
  destruct (negb (isAdmin user)) eqn:Hadmin; [discriminate|].
  repeat case_match; simplify_eq. simpl.
  split; [done|]. split; [done|].
  unfold delete_direction, authenticateToken, requireAdmin.
  rewrite Hadmin. simpl.
  rewrite findIndex_app_last; [|done|simpl; apply String.eqb_refl].
  unfold direction_in_use in Hfree.
  apply orb_false_elim in Hfree as [-> ->].
  rewrite delete_middle, app_nil_r. f_equal. by destruct st.
Qed.

Lemma added_direction_round_trip_witness :
  let d := {| dir_id := pretty 5300%Z; dir_name := Some (JStr "Fizika") |} in
  let st1 := (add_direction 5300 (ValidToken administrator)
                {[ "name" := JStr "Fizika" ]} mixed_store).1 in
  d = {| dir_id := pretty 5300%Z;
         dir_name :=
           persist_value (({[ "name" := JStr "Fizika" ]} : obj) !! "name") |}
  /\ (get_directions st1).2 = Ok (directions mixed_store ++ [d])
  /\ delete_direction (ValidToken administrator) (pretty 5300%Z) st1
     = (mixed_store, Ok "Yo'nalish o'chirildi").
Proof.
  apply (added_direction_round_trip 5300 (ValidToken administrator)
           {[ "name" := JStr "Fizika" ]} mixed_store).
  - vm_compute. reflexivity.
  - intros d0 Hin. vm_compute in Hin.
    repeat (destruct Hin as [<-|Hin]; [vm_compute; discriminate|]).
    destruct Hin.
  - vm_compute. reflexivity.
Defined.

(** ** The reports of the administrator *)

Section ReportFacts.

Variable number_to_string : number -> string.




End ReportFacts.


(** A direction named [__proto__] is stored and listed, and the
    statistics have no entry for it. *)
Example proto_direction_not_reported :
  let added :=
    add_direction 5000 (ValidToken administrator)
      {[ "name" := JStr "__proto__" ]} mixed_store in
  exists d s,
    added.2 = Ok d /\ dir_name d = Some (JStr "__proto__")
    /\ (statistics (fun _ => "0") (ValidToken administrator) added.1).2 = Ok s
    /\ directionStats s !! "__proto__" = None
    /\ List.length (directions added.1) = 6
    /\ size (directionStats s) = 5.
Proof. do 2 eexists. vm_compute. repeat split. Qed.

(** The statistics of the sample store: one learner, two tests, and
    for "Dasturlash" (the direction "1") one account and one test. *)
Example sample_statistics :
  exists s,
    (statistics (fun _ => "0") (ValidToken administrator) mixed_store).2 = Ok s
    /\ totalUsers s = 1 /\ totalTests s = 2 /\ totalResults s = 0
    /\ directionStats s !! "Dasturlash"
       = Some {| ds_users := 1; ds_tests := 1; ds_results := 0 |}
    /\ directionStats s !! "Dizayn"
       = Some {| ds_users := 0; ds_tests := 1; ds_results := 0 |}
    /\ directionStats s !! "Admin" = None.
Proof. eexists. vm_compute. repeat split. Qed.

Lemma my_results_are_mine_witness :
  exists listed,
    get_my_results (ValidToken learner)
      (run sample_parseInt busy_day mixed_store)
    = (run sample_parseInt busy_day mixed_store, Ok listed)
    /\ List.map rwt_result listed
       = List.filter (fun r => String.eqb (res_userId r) (userId learner))
           (results (run sample_parseInt busy_day mixed_store))
    /\ (forall x, In x listed -> res_userId (rwt_result x) = userId learner)
    /\ (forall r, In r (results (run sample_parseInt busy_day mixed_store)) ->
                  res_userId r = userId learner ->
                  In r (List.map rwt_result listed)).
Proof.
  apply (my_results_are_mine learner
           (run sample_parseInt busy_day mixed_store)).
Defined.

(** ** The percentage at the two ends *)

Lemma digits2_size (p : positive) : digits2_pos p = Pos.size p.
Proof. induction p; simpl; congruence. Qed.

Lemma digits2_iter (p k : positive) :
  digits2_pos (Pos.iter xO p k) = (digits2_pos p + k)%positive.
Proof.
  induction k using Pos.peano_ind.
  - simpl. lia.
  - rewrite Pos.iter_succ. simpl. rewrite IHk. lia.
Qed.

Lemma digits_bound (p : positive) :
  (Zpos p < 2 ^ 53)%Z -> (Zpos (digits2_pos p) <= 53)%Z.
Proof.
  intros H. rewrite digits2_size.
  destruct (Z_le_gt_dec (Zpos (Pos.size p)) 53) as [|Hgt]; [done|].
  pose proof (Pos.size_le p) as Hle.
  assert (2 ^ 54 <= 2 ^ Zpos (Pos.size p))%Z
    by (apply Z.pow_le_mono_r; lia).
  assert (Zpos (2 ^ Pos.size p) = 2 ^ Zpos (Pos.size p))%Z
    by (by rewrite Pos2Z.inj_pow).
  change (2 ^ 54)%Z with (2 * 2 ^ 53)%Z in *. lia.
Qed.

(** A mantissa of 53 binary digits with an exponent in range is a
    float as it stands. *)
Lemma round_aux_exact (s : bool) (m : positive) (e : Z) :
  Zpos (digits2_pos m) = 53%Z -> (-1074 <= e <= 971)%Z ->
  binary_round_aux prec emax s (Zpos m) e loc_Exact = S754_finite s m e.
Proof.
  intros Hd He. unfold binary_round_aux, shr_fexp. simpl Zdigits2.
  assert (Hf : fexp prec emax (Zpos (digits2_pos m) + e) = e)
    by (unfold fexp, emin, prec, emax; lia).
  rewrite Hf, Z.sub_diag. simpl. rewrite Hd.
  assert (Hf' : fexp prec emax (53 + e) = e)
    by (unfold fexp, emin, prec, emax; lia).
  rewrite Hf', Z.sub_diag. simpl.
  destruct (e <=? emax - prec)%Z eqn:Hle; [done|].
  apply Z.leb_gt in Hle. unfold emax, prec in Hle. lia.
Qed.

(** A positive integer below 2^53 is held by a finite number. *)
Lemma of_Z_finite (p : positive) :
  (Zpos p < 2 ^ 53)%Z -> exists m e, of_Z (Zpos p) = S754_finite false m e.
Proof.
  intros H. apply digits_bound in H.
  unfold of_Z, binary_normalize, binary_round.
  rewrite Z.add_0_r.
  assert (Hf : fexp prec emax (Zpos (digits2_pos p))
               = (Zpos (digits2_pos p) - 53)%Z)
    by (unfold fexp, emin, prec, emax; lia).
  rewrite Hf. unfold shl_align.
  destruct (Zpos (digits2_pos p) - 53 - 0)%Z as [|k|k] eqn:Hk; try lia.
  - rewrite round_aux_exact; [by eexists _, _|lia|lia].
  - rewrite round_aux_exact; [by eexists _, _| |lia].
    rewrite digits2_iter. lia.
Qed.

(** A finite number divided by itself is 1. *)
Lemma div_self (s : bool) (m : positive) (e : Z) :
  div (S754_finite s m e) (S754_finite s m e) = of_Z 1.
Proof.
  unfold div, SFdiv, SFdiv_core_binary.
  replace (Zdigits2 (Zpos m) + e - (Zdigits2 (Zpos m) + e))%Z with 0%Z by lia.
  rewrite Z.sub_diag.
  change (Z.min (fexp prec emax 0) 0) with (-53)%Z.
  change (0 - -53)%Z with 53%Z. cbv iota.
  assert (Hdiv : Z.div_eucl (Z.shiftl (Zpos m) 53) (Zpos m) = (2 ^ 53, 0)%Z).
  { rewrite Z.shiftl_mul_pow2 by lia.
    rewrite (surjective_pairing (Z.div_eucl _ _)).
    change (Z.div_eucl (Zpos m * 2 ^ 53) (Zpos m)).1
      with ((Zpos m * 2 ^ 53) / Zpos m)%Z.
    change (Z.div_eucl (Zpos m * 2 ^ 53) (Zpos m)).2
      with ((Zpos m * 2 ^ 53) mod Zpos m)%Z.
    rewrite (Z.mul_comm (Zpos m)), Z.div_mul, Z.mod_mul by lia. done. }
  rewrite Hdiv.
  assert (Hloc : new_location (Zpos m) 0 = loc_Exact)
    by (unfold new_location; destruct (Z.even (Zpos m)); reflexivity).
  rewrite Hloc. destruct s; vm_compute; reflexivity.
Qed.

Lemma percentage_of_ends (total : nat) :
  0 < total -> (Z.of_nat total < 2 ^ 53)%Z ->
  percentage_of total total = of_Z 100 /\ percentage_of 0 total = of_Z 0.
Proof.
  intros Hn Hlt. unfold percentage_of, of_nat.
  destruct (Z.of_nat total) as [|p|p] eqn:Hp; try lia.
  destruct (of_Z_finite p Hlt) as (m & e & ->). split.
  - rewrite div_self. vm_compute. reflexivity.
  - reflexivity.
Qed.

(** At the two ends the percentage is exact: for a test with at least
    one question (and fewer than 2^53), a submission with every answer
    correct is given 100 and one with no answer correct is given 0, in
    the reply and in the stored result. *)
Theorem percentage_at_the_ends (now : Z) (user : Claims) (body : obj)
    (st st1 : Store) (s : ScoreSummary) :
  submit_test now (ValidToken user) body st = (st1, Ok s) ->
  0 < sum_totalQuestions s ->
  (Z.of_nat (sum_totalQuestions s) < 2 ^ 53)%Z ->
  (sum_score s = sum_totalQuestions s -> sum_percentage s = of_Z 100)
  /\ (sum_score s = 0 -> sum_percentage s = of_Z 0)
  /\ exists r, results st1 = results st ++ [r]
               /\ res_percentage r = sum_percentage s.
Proof.
  intros Hsub Hpos Hlt.
  apply submit_test_ok_inv in Hsub as (test & _ & _ & _ & _ & -> & ->).
  unfold summary in *. simpl in *.
  destruct (percentage_of_ends _ Hpos Hlt) as [Hfull Hnone].
  split; [by intros ->|]. split; [by intros ->|].
  eexists. split; reflexivity.
Qed.

Lemma percentage_at_the_ends_witness :
  sum_percentage
    {| sum_score := 4; sum_totalQuestions := 4; sum_percentage := of_Z 100 |}
  = of_Z 100.
Proof.
  refine (proj1 (percentage_at_the_ends 2000 learner
                   (submission "t4" [num 0; num 1; num 2; num 3]) mixed_store
                   (submit_test 2000 (ValidToken learner)
                      (submission "t4" [num 0; num 1; num 2; num 3])
                      mixed_store).1
                   {| sum_score := 4; sum_totalQuestions := 4;
                      sum_percentage := of_Z 100 |} _ _ _) _).
  - vm_compute. reflexivity.
  - simpl. lia.
  - simpl. lia.
  - reflexivity.
Defined.
